(** * Time tracker: lifecycle engine, query layer and terminal control loop

    A shallow embedding of [storage.js], [taskManager.js], the key and
    command handling of [visualMode.js], the resolver and the task commands
    of the line-oriented interactive mode and the key handling of
    [visualNav.js], followed by the properties of the specification that
    were checked against it and by further properties of the same code.

    Modelling conventions.
    - A timestamp is the number of milliseconds since the epoch.  The code
      stores [Date.prototype.toISOString()] strings; these are fixed width
      (years 0..9999), so comparing two of them as strings agrees with
      comparing the instants, and [new Date(s)] gives the instant back.
    - The data file is the [Data] record; [loadData]/[saveData] read and
      write it whole.  Failures of the file system are outside the model.
    - The wall clock is an oracle: the n-th evaluation of [new Date()]
      returns [clock n].  Nothing is assumed about the oracle.
    - The time zone of the host is the function [localMidnight], which
      sends an instant to the local midnight before it.
    - A thrown [Error] aborts the running call; what was saved before the
      throw stays saved.
    - Numbers are integers ([Z]); strings are ASCII, which is where [trim],
      [toLowerCase] and the digit test of the code are modelled.
    - A task id handed to the engine is a number, as the visual mode, the
      navigation and the interactive mode hand it over (the [id] of a
      stored task).  [index.js] hands over the text of the command line
      instead; of that path only the two pointer functions of
      [storage.js] are modelled ([lastActivePointer]), the commands of
      [index.js] are not.
    - What is printed or flashed is kept as data ([Line]); colours, timers
      and the drawing of the screen are not modelled.  [render] only prints
      and reads the clock (once for each running row); a callback that a
      timer runs later is a call of its own in the model. *)

From Stdlib Require Import ZArith String Ascii DecimalString.
From stdpp Require Import base tactics option list strings.

Local Open Scope Z_scope.

(** ** Data model (the JSON document kept by [storage.js]) *)

Inductive Status := created | running | paused | stopped.

#[global] Instance Status_eq_dec : EqDecision Status.
Proof. solve_decision. Defined.

Definition Timestamp := Z.

Record Session := mkSession {
  startTime : Timestamp;
  endTime : option Timestamp;
  duration : Z
}.

Record Task := mkTask {
  id : Z;
  name : string;
  url : string;
  status : Status;
  sessions : list Session;
  totalTime : Z;
  createdAt : Timestamp;
  lastStarted : option Timestamp;
  lastPaused : option Timestamp;
  stoppedAt : option Timestamp
}.

Record Data := mkData {
  tasks : list Task;
  nextId : Z;
  lastActiveTaskId : option Z
}.

(** The object literal handed to [storage.updateTask]: an absent key leaves
    the field alone ([{...task, ...updates}]).  These six keys are the ones
    [taskManager.js], its only caller, ever passes; [storage.updateTask]
    itself merges whatever keys it is given, [id] and [name] included. *)
Record Updates := mkUpdates {
  u_status : option Status;
  u_sessions : option (list Session);
  u_totalTime : option Z;
  u_lastStarted : option Timestamp;
  u_lastPaused : option Timestamp;
  u_stoppedAt : option (option Timestamp)
}.

Definition applyUpdates (t : Task) (u : Updates) : Task :=
  {| id := id t;
     name := name t;
     url := url t;
     status := default (status t) (u_status u);
     sessions := default (sessions t) (u_sessions u);
     totalTime := default (totalTime t) (u_totalTime u);
     createdAt := createdAt t;
     lastStarted := from_option Some (lastStarted t) (u_lastStarted u);
     lastPaused := from_option Some (lastPaused t) (u_lastPaused u);
     stoppedAt := default (stoppedAt t) (u_stoppedAt u) |}.

(** ** Errors and the monad of the engine *)

Inductive Error :=
| TaskNotFound (taskId : Z)   (* `Task with ID ${taskId} not found` *)
| AlreadyRunning              (* 'Task is already running' *)
| NotRunning                  (* 'Task is not currently running' *)
| NoActiveSession             (* 'No active session found' *)
| NotStopped                  (* 'Task is not currently stopped' *)
| NameRequired                (* 'Task name is required' *)
| TypeError.                  (* a property read on [null] *)

(** The taxonomy of the specification. *)
Inductive ErrorClass := ValidationError | NotFoundError | InvalidTransitionError.

Definition classify (e : Error) : option ErrorClass :=
  match e with
  | NameRequired => Some ValidationError
  | TaskNotFound _ => Some NotFoundError
  | AlreadyRunning | NotRunning | NoActiveSession | NotStopped =>
      Some InvalidTransitionError
  | TypeError => None
  end.

Inductive Result (A : Type) :=
| Ok (a : A)
| Throw (e : Error).
Arguments Ok {A} a.
Arguments Throw {A} e.

(** The host: the data file, the wall clock (with the number of readings
    made so far) and the time zone, given as the function that sends an
    instant to the local midnight before it ([setHours(0, 0, 0, 0)]). *)
Record World := mkWorld {
  file : Data;
  clock : nat -> Timestamp;
  tick : nat;
  localMidnight : Timestamp -> Timestamp
}.

(** Computations over a state [S] that return or throw. *)
Definition St (S A : Type) : Type := S -> Result A * S.

Definition ret {S A} (a : A) : St S A := fun s => (Ok a, s).

Definition bind {S A B} (m : St S A) (k : A -> St S B) : St S B :=
  fun s => match m s with
           | (Ok a, s') => k a s'
           | (Throw e, s') => (Throw e, s')
           end.

Definition throw {S A} (e : Error) : St S A := fun s => (Throw e, s).

(** [try { m } catch (error) { h error }] *)
Definition tryCatch {S A} (m : St S A) (h : Error -> St S A) : St S A :=
  fun s => match m s with
           | (Ok a, s') => (Ok a, s')
           | (Throw e, s') => h e s'
           end.

Notation "x <- m ;; k" := (bind m (fun x => k))
  (at level 100, m at next level, right associativity).
Notation "m ;;; k" := (bind m (fun _ => k))
  (at level 100, right associativity).

(** The engine runs over the host alone. *)
Definition M (A : Type) : Type := St World A.

(** [new Date().toISOString()] *)
Definition newDate : M Timestamp :=
  fun w => (Ok (clock w (tick w)), mkWorld (file w) (clock w) (S (tick w)) (localMidnight w)).

(** [d.setHours(0, 0, 0, 0)] *)
Definition setHoursToMidnight (d : Timestamp) : M Timestamp :=
  fun w => (Ok (localMidnight w d), w).

Definition loadData : M Data := fun w => (Ok (file w), w).

Definition saveData (d : Data) : M unit :=
  fun w => (Ok tt, mkWorld d (clock w) (tick w) (localMidnight w)).

(** [Array.prototype.forEach] with a callback that may throw. *)
Fixpoint forEach {S A} (l : list A) (f : A -> St S unit) : St S unit :=
  match l with
  | [] => ret tt
  | x :: l' => f x ;;; forEach l' f
  end.

(** ** storage.js *)

Module storage.

Definition createTask (name0 url0 : string) : M Task :=
  data <- loadData ;;
  now <- newDate ;;
  let newTask :=
    {| id := nextId data; name := name0; url := url0; status := created;
       sessions := []; totalTime := 0; createdAt := now;
       lastStarted := None; lastPaused := None; stoppedAt := None |} in
  saveData (mkData (tasks data ++ [newTask]) (nextId data + 1)
                   (lastActiveTaskId data)) ;;;
  ret newTask.

Definition getTask (i : Z) : M (option Task) :=
  data <- loadData ;;
  ret (snd <$> list_find (fun task => id task = i) (tasks data)).

Definition updateTask (i : Z) (updates : Updates) : M (option Task) :=
  data <- loadData ;;
  match list_find (fun task => id task = i) (tasks data) with
  | None => ret None
  | Some (taskIndex, task) =>
      let task' := applyUpdates task updates in
      saveData (mkData (<[taskIndex := task']> (tasks data)) (nextId data)
                       (lastActiveTaskId data)) ;;;
      ret (Some task')
  end.

Definition getAllTasks : M (list Task) :=
  data <- loadData ;; ret (tasks data).

Definition getTasksByStatus (s : Status) : M (list Task) :=
  data <- loadData ;; ret (filter (fun task => status task = s) (tasks data)).

Definition setLastActiveTask (taskId : Z) : M unit :=
  data <- loadData ;;
  saveData (mkData (tasks data) (nextId data) (Some taskId)).

Definition getLastActiveTask : M (option Task) :=
  data <- loadData ;;
  match lastActiveTaskId data with
  | Some i => if decide (i = 0) then ret None
              else ret (snd <$> list_find (fun task => id task = i) (tasks data))
  | None => ret None
  end.

End storage.

(** *** The last-active pointer as the caller hands it over

    [setLastActiveTask] stores its argument as it is and
    [getLastActiveTask] compares the stored value with [===]: a number
    when a front end passes the [id] of a task, text when [index.js]
    passes the argument of the command line.  The two functions once
    more, on the task list and a pointer that can be either; [undefined]
    and [null] are both [None]. *)
Module lastActivePointer.

Inductive Value :=
| Number (z : Z)
| Text (s : string).

Record Data := mkData {
  tasks : list Task;
  lastActiveTaskId : option Value
}.

(** [task.id === v] where [task.id] is a number *)
Definition strictEq (i : Z) (v : Value) : Prop :=
  match v with
  | Number z => i = z
  | Text _ => False
  end.

#[export] Instance strictEq_dec i v : Decision (strictEq i v).
Proof. destruct v; simpl; apply _. Defined.

(** Truthiness of the stored value: [0] and the empty text are falsy. *)
Definition truthy (v : Value) : bool :=
  match v with
  | Number z => bool_decide (z <> 0)
  | Text s => bool_decide (s <> EmptyString)
  end.

Definition setLastActiveTask (taskId : Value) (data : Data) : Data :=
  mkData (tasks data) (Some taskId).

Definition getLastActiveTask (data : Data) : option Task :=
  match lastActiveTaskId data with
  | Some v => if truthy v
              then snd <$> list_find (fun task => strictEq (id task) v) (tasks data)
              else None
  | None => None
  end.

End lastActivePointer.

(** ** Strings, as far as the code uses them

    [String.prototype.trim], [toLowerCase] and [includes], restricted to
    ASCII text. *)

Definition isWhitespace (c : ascii) : bool :=
  let n := nat_of_ascii c in
  ((9 <=? n) && (n <=? 13) || (n =? 32))%nat.

Fixpoint trimStart (s : string) : string :=
  match s with
  | String c s' => if isWhitespace c then trimStart s' else s
  | EmptyString => EmptyString
  end.

Fixpoint trimEnd (s : string) : string :=
  match s with
  | String c s' =>
      match trimEnd s' with
      | EmptyString => if isWhitespace c then EmptyString else String c EmptyString
      | r => String c r
      end
  | EmptyString => EmptyString
  end.

Definition trim (s : string) : string := trimEnd (trimStart s).

Definition lowerChar (c : ascii) : ascii :=
  let n := nat_of_ascii c in
  if ((65 <=? n) && (n <=? 90))%nat then ascii_of_nat (n + 32) else c.

Fixpoint toLowerCase (s : string) : string :=
  match s with
  | String c s' => String (lowerChar c) (toLowerCase s')
  | EmptyString => EmptyString
  end.

(** [hay.includes(needle)] *)
Fixpoint includes (hay needle : string) : bool :=
  String.prefix needle hay ||
  match hay with
  | String _ hay' => includes hay' needle
  | EmptyString => false
  end.

(** [s.split(' ')] and [l.join(' ')] *)
Fixpoint split (sep : ascii) (s : string) : list string :=
  match s with
  | EmptyString => [EmptyString]
  | String c s' =>
      if decide (c = sep) then EmptyString :: split sep s'
      else match split sep s' with
           | piece :: pieces => String c piece :: pieces
           | [] => [String c EmptyString]
           end
  end.

Fixpoint join (sep : string) (l : list string) : string :=
  match l with
  | [] => EmptyString
  | [piece] => piece
  | piece :: l' => piece ++ sep ++ join sep l'
  end.

(** [s.slice(0, -1)] *)
Fixpoint dropLast (s : string) : string :=
  match s with
  | EmptyString => EmptyString
  | String _ EmptyString => EmptyString
  | String c s' => String c (dropLast s')
  end.

(** [/^\d+$/.test(s)] and [parseInt(s)] on such a string *)
Definition isDigit (c : ascii) : bool :=
  let n := nat_of_ascii c in ((48 <=? n) && (n <=? 57))%nat.

Fixpoint allDigitChars (s : string) : bool :=
  match s with
  | EmptyString => true
  | String c s' => isDigit c && allDigitChars s'
  end.

Definition allDigits (s : string) : bool :=
  match s with
  | EmptyString => false
  | _ => allDigitChars s
  end.

Fixpoint parseDigits (acc : Z) (s : string) : Z :=
  match s with
  | EmptyString => acc
  | String c s' => parseDigits (10 * acc + (Z.of_nat (nat_of_ascii c) - 48)) s'
  end.

Definition parseInt (s : string) : Z := parseDigits 0 s.

(** The object built by [getTaskSummary]. *)
Module Summary.
Record t := mk {
  id : Z;
  name : string;
  url : string;
  status : Status;
  totalTime : string;
  totalTimeSeconds : Z;
  createdAt : Timestamp;
  lastStarted : option Timestamp;
  lastPaused : option Timestamp;
  stoppedAt : option Timestamp;
  sessionCount : nat
}.
End Summary.

(** ** taskManager.js: the lifecycle engine *)

Module taskManager.

Definition createTask (name0 url0 : string) : M Task :=
  if decide (name0 = EmptyString \/ trim name0 = EmptyString)
  then throw NameRequired
  else storage.createTask (trim name0) (trim url0).

Definition pauseTask (taskId : Z) : M (option Task) :=
  task <- storage.getTask taskId ;;
  match task with
  | None => throw (TaskNotFound taskId)
  | Some task =>
      if decide (status task <> running) then throw NotRunning else
      now <- newDate ;;
      match last (sessions task) with
      | Some currentSession =>
          match endTime currentSession with
          | None =>
              let duration0 := (now - startTime currentSession) / 1000 in
              let closed :=
                {| startTime := startTime currentSession;
                   endTime := Some now;
                   duration := duration0 |} in
              let sessions0 :=
                <[pred (length (sessions task)) := closed]> (sessions task) in
              let totalTime0 := totalTime task + duration0 in
              storage.setLastActiveTask taskId ;;;
              storage.updateTask taskId
                {| u_status := Some paused;
                   u_sessions := Some sessions0;
                   u_totalTime := Some totalTime0;
                   u_lastStarted := None;
                   u_lastPaused := Some now;
                   u_stoppedAt := None |}
          | Some _ => throw NoActiveSession
          end
      | None => throw NoActiveSession
      end
  end.

Definition startTask (taskId : Z) : M (option Task) :=
  task <- storage.getTask taskId ;;
  match task with
  | None => throw (TaskNotFound taskId)
  | Some task =>
      if decide (status task = running) then throw AlreadyRunning else
      runningTasks <- storage.getTasksByStatus running ;;
      forEach runningTasks (fun runningTask =>
        if decide (id runningTask <> taskId)
        then pauseTask (id runningTask) ;;; ret tt
        else ret tt) ;;;
      now <- newDate ;;
      let newSession := {| startTime := now; endTime := None; duration := 0 |} in
      let updatedSessions := sessions task ++ [newSession] in
      storage.setLastActiveTask taskId ;;;
      storage.updateTask taskId
        {| u_status := Some running;
           u_sessions := Some updatedSessions;
           u_totalTime := None;
           u_lastStarted := Some now;
           u_lastPaused := None;
           u_stoppedAt := None |}
  end.

Definition stopTask (taskId : Z) : M (option Task) :=
  task <- storage.getTask taskId ;;
  match task with
  | None => throw (TaskNotFound taskId)
  | Some task =>
      (if decide (status task = running)
       then pauseTask taskId ;;; ret tt
       else ret tt) ;;;
      now <- newDate ;;
      storage.updateTask taskId
        {| u_status := Some stopped;
           u_sessions := None;
           u_totalTime := None;
           u_lastStarted := None;
           u_lastPaused := None;
           u_stoppedAt := Some (Some now) |}
  end.

Definition unstopTask (taskId : Z) : M (option Task) :=
  task <- storage.getTask taskId ;;
  match task with
  | None => throw (TaskNotFound taskId)
  | Some task =>
      if decide (status task <> stopped) then throw NotStopped else
      storage.updateTask taskId
        {| u_status := Some paused;
           u_sessions := None;
           u_totalTime := None;
           u_lastStarted := None;
           u_lastPaused := None;
           u_stoppedAt := Some None |}
  end.

(** *** The query layer *)

(** Template-literal conversion of an integer. *)
Definition numberToString (z : Z) : string := NilZero.string_of_int (Z.to_int z).

Definition formatDuration (seconds : Z) : string :=
  let hours := seconds / 3600 in
  let minutes := Z.rem seconds 3600 / 60 in
  let secs := Z.rem seconds 60 in
  if decide (hours > 0) then
    numberToString hours ++ "h " ++ numberToString minutes ++ "m "
      ++ numberToString secs ++ "s"
  else if decide (minutes > 0) then
    numberToString minutes ++ "m " ++ numberToString secs ++ "s"
  else numberToString secs ++ "s".

Definition getTaskSummary (task : Task) : Summary.t :=
  {| Summary.id := id task;
     Summary.name := name task;
     Summary.url := url task;
     Summary.status := status task;
     Summary.totalTime := formatDuration (totalTime task);
     Summary.totalTimeSeconds := totalTime task;
     Summary.createdAt := createdAt task;
     Summary.lastStarted := lastStarted task;
     Summary.lastPaused := lastPaused task;
     Summary.stoppedAt := stoppedAt task;
     Summary.sessionCount := length (sessions task) |}.

Definition getPausedTasks : M (list Summary.t) :=
  l <- storage.getTasksByStatus paused ;; ret (getTaskSummary <$> l).

Definition getStoppedTasks : M (list Summary.t) :=
  l <- storage.getTasksByStatus stopped ;; ret (getTaskSummary <$> l).

Definition getRunningTasks : M (list Summary.t) :=
  l <- storage.getTasksByStatus running ;; ret (getTaskSummary <$> l).

Definition getAllTasksSummary : M (list Summary.t) :=
  l <- storage.getAllTasks ;; ret (getTaskSummary <$> l).

Definition getLastActiveTask : M (option Summary.t) :=
  task <- storage.getLastActiveTask ;; ret (getTaskSummary <$> task).

Definition getCurrentRunningTask : M (option Summary.t) :=
  runningTasks <- getRunningTasks ;; ret (head runningTasks).

Definition getCurrentRunningTime (task : option Summary.t) : M Z :=
  match task with
  | None => ret 0
  | Some task =>
      if decide (Summary.status task <> running) then ret 0 else
      match Summary.lastStarted task with
      | None => ret 0
      | Some startTime0 =>
          now <- newDate ;;
          let currentSessionTime := (now - startTime0) / 1000 in
          ret (Summary.totalTimeSeconds task + currentSessionTime)
      end
  end.

(** The predicate handed to [filter] in [getTodaysTasks]. *)
Definition workedOnSince (todayStart : Timestamp) (task : Task) : bool :=
  if match lastStarted task with
     | Some ls => bool_decide (ls >= todayStart)
     | None => false
     end
  then true
  else if match lastPaused task with
          | Some lp => bool_decide (lp >= todayStart)
          | None => false
          end
  then true
  else match sessions task with
       | [] => false
       | _ :: _ =>
           existsb (fun session =>
             bool_decide (startTime session >= todayStart) ||
             match endTime session with
             | Some e => bool_decide (e >= todayStart)
             | None => false
             end) (sessions task)
       end.

Definition getTodaysTasks : M (list Summary.t) :=
  today <- newDate ;;
  todayStart <- setHoursToMidnight today ;;
  allTasks <- storage.getAllTasks ;;
  ret (getTaskSummary <$>
         filter (fun task => workedOnSince todayStart task = true) allTasks).

End taskManager.

(** ** The two front ends

    What the front ends print or flash is kept as data: one constructor per
    message of the source, with the interpolated values as arguments. *)

Inductive Line :=
| PleaseProvideTask                       (* 'Please provide a task ID or name' *)
| TaskWithIdNotFound (input : string)     (* `Task with ID ${input} not found` *)
| UseListHint                             (* 'Use "list" to see available tasks' *)
| CreatingNewTask (input : string)        (* `Creating new task: "${input}"` *)
| Started (taskName : string)             (* `✓ Started: ${name}` *)
| CreatedAndStarted (taskName : string)   (* `✓ Created and started: ${taskName}` *)
| Resumed (taskName : string)             (* `✓ Resumed: ${name}` *)
| Paused (taskName time : string)         (* `⏸ Paused: ${name} (${totalTime})` *)
| NoPreviousTask                          (* 'No previous task found' *)
| LastTaskStopped (taskName : string)     (* `Last task "${name}" is stopped. ...` *)
| NoTaskRunning                           (* 'No task is currently running' *)
| ErrorLine (e : Error).                  (* `Error: ${error.message}` *)

(** Run an engine call from a front end whose own state is [U]. *)
Definition engine {U A} (m : M A) : St (U * World) A :=
  fun s => let '(r, w') := m (snd s) in (r, (fst s, w')).

Definition getThis {U} : St (U * World) U := fun s => (Ok (fst s), s).

Definition setThis {U} (u : U) : St (U * World) unit := fun s => (Ok tt, (u, snd s)).

(** [getTaskSummary(x)] on the value an engine call returned: reading a
    property of [null] is a [TypeError]. *)
Definition summaryOf {S} (t : option Task) : St S Summary.t :=
  match t with
  | Some task => ret (taskManager.getTaskSummary task)
  | None => throw TypeError
  end.

(** *** The line-oriented interactive mode *)

Module InteractiveMode.

(** The console, oldest line first. *)
Definition Console := list Line.

Definition log (l : Line) : St (Console * World) unit :=
  console <- getThis ;; setThis (console ++ [l]).

Definition findTask (input : string) : M (option Summary.t) :=
  all <- taskManager.getAllTasksSummary ;;
  let tasks0 := filter (fun task => Summary.status task <> stopped) all in
  if allDigits input then
    ret (snd <$> list_find (fun task => Summary.id task = parseInt input) tasks0)
  else
    let lowercaseInput := toLowerCase input in
    ret (snd <$> list_find (fun task =>
           includes (toLowerCase (Summary.name task)) lowercaseInput = true
           \/ toLowerCase (Summary.name task) = lowercaseInput) tasks0).

Definition startTask (input : string) : St (Console * World) unit :=
  if decide (input = EmptyString) then log PleaseProvideTask else
  found <- engine (findTask input) ;;
  match found with
  | None =>
      if allDigits input then
        log (TaskWithIdNotFound input) ;;; log UseListHint
      else
        log (CreatingNewTask input) ;;;
        newTask <- engine (taskManager.createTask input EmptyString) ;;
        let task := taskManager.getTaskSummary newTask in
        updatedTask <- engine (taskManager.startTask (Summary.id task)) ;;
        summary <- summaryOf updatedTask ;;
        log (Started (Summary.name summary))
  | Some task =>
      updatedTask <- engine (taskManager.startTask (Summary.id task)) ;;
      summary <- summaryOf updatedTask ;;
      log (Started (Summary.name summary))
  end.

(** The lines of [pauseTask], [stopTask] and [unstopTask] that the start
    command does not print. *)
Inductive Report :=
| Said (l : Line)
| TaskNotFoundFor (input : string)        (* `Task not found: ${input}` *)
| StoppedLine (taskName time : string)    (* `⏹ Stopped: ${name} (${totalTime})` *)
| UnstoppedLine (taskName : string).      (* `✓ Unstopped: ${name}` *)

Definition Reports := list Report.

Definition report (r : Report) : St (Reports * World) unit :=
  console <- getThis ;; setThis (console ++ [r]).

Definition pauseTask (input : string) : St (Reports * World) unit :=
  if decide (input = EmptyString) then report (Said PleaseProvideTask) else
  found <- engine (findTask input) ;;
  match found with
  | None => report (TaskNotFoundFor input)
  | Some task =>
      updatedTask <- engine (taskManager.pauseTask (Summary.id task)) ;;
      summary <- summaryOf updatedTask ;;
      report (Said (Paused (Summary.name summary) (Summary.totalTime summary)))
  end.

Definition stopTask (input : string) : St (Reports * World) unit :=
  if decide (input = EmptyString) then report (Said PleaseProvideTask) else
  found <- engine (findTask input) ;;
  match found with
  | None => report (TaskNotFoundFor input)
  | Some task =>
      updatedTask <- engine (taskManager.stopTask (Summary.id task)) ;;
      summary <- summaryOf updatedTask ;;
      report (StoppedLine (Summary.name summary) (Summary.totalTime summary))
  end.

Definition unstopTask (input : string) : St (Reports * World) unit :=
  if decide (input = EmptyString) then report (Said PleaseProvideTask) else
  found <- engine (findTask input) ;;
  match found with
  | None => report (TaskNotFoundFor input)
  | Some task =>
      updatedTask <- engine (taskManager.unstopTask (Summary.id task)) ;;
      summary <- summaryOf updatedTask ;;
      report (UnstoppedLine (Summary.name summary))
  end.

End InteractiveMode.

(** *** The visual mode: the keystroke-driven control loop *)

Module VisualMode.

Record This := mkThis {
  this_tasks : list Summary.t;
  this_selectedIndex : Z;
  this_isActive : bool;
  this_inputBuffer : string;
  this_statusMessage : option Line
}.

Definition UI (A : Type) : Type := St (This * World) A.

(** The expiry timer of the message is not part of the model. *)
Definition showMessage (message : Line) : UI unit :=
  this <- getThis ;;
  setThis (mkThis (this_tasks this) (this_selectedIndex this) (this_isActive this)
                  (this_inputBuffer this) (Some message)).

Definition refreshTasks : UI unit :=
  today <- engine taskManager.getTodaysTasks ;;
  this <- getThis ;;
  let tasks0 := filter (fun task => Summary.status task <> stopped) today in
  let selectedIndex :=
    if decide (this_selectedIndex this >= Z.of_nat (length tasks0))
    then Z.max 0 (Z.of_nat (length tasks0) - 1)
    else this_selectedIndex this in
  setThis (mkThis tasks0 selectedIndex (this_isActive this)
                  (this_inputBuffer this) (this_statusMessage this)).

Definition createAndStartTask (taskName : string) : UI unit :=
  task <- engine (taskManager.createTask taskName EmptyString) ;;
  engine (taskManager.startTask (id task)) ;;;
  showMessage (CreatedAndStarted taskName) ;;;
  refreshTasks.

Definition startTaskByName (taskName : string) : UI unit :=
  this <- getThis ;;
  let existingTask :=
    snd <$> list_find (fun task =>
      includes (toLowerCase (Summary.name task)) (toLowerCase taskName) = true)
      (this_tasks this) in
  match existingTask with
  | Some existingTask =>
      engine (taskManager.startTask (Summary.id existingTask)) ;;;
      showMessage (Started (Summary.name existingTask))
  | None => createAndStartTask taskName
  end ;;;
  refreshTasks.

Definition startLastTask : UI unit :=
  lastTask <- engine taskManager.getLastActiveTask ;;
  match lastTask with
  | None => showMessage NoPreviousTask
  | Some lastTask =>
      if decide (Summary.status lastTask = stopped)
      then showMessage (LastTaskStopped (Summary.name lastTask))
      else
        engine (taskManager.startTask (Summary.id lastTask)) ;;;
        showMessage (Resumed (Summary.name lastTask)) ;;;
        refreshTasks
  end.

Definition stopCurrentTask : UI unit :=
  runningTask <- engine taskManager.getCurrentRunningTask ;;
  match runningTask with
  | None => showMessage NoTaskRunning
  | Some runningTask =>
      updatedTask <- engine (taskManager.pauseTask (Summary.id runningTask)) ;;
      summary <- summaryOf updatedTask ;;
      showMessage (Paused (Summary.name summary) (Summary.totalTime summary)) ;;;
      refreshTasks
  end.

(** [exit()] ends the process; the model records it in [isActive]. *)
Definition exit : UI unit :=
  this <- getThis ;;
  setThis (mkThis (this_tasks this) (this_selectedIndex this) false
                  (this_inputBuffer this) (this_statusMessage this)).

Definition clearInput : UI unit :=
  this <- getThis ;;
  setThis (mkThis (this_tasks this) (this_selectedIndex this) (this_isActive this)
                  EmptyString (this_statusMessage this)).

Definition processCommand : UI unit :=
  this <- getThis ;;
  let input := trim (this_inputBuffer this) in
  match split " " input with
  | [] => ret tt
  | command :: args =>
      let lowered := toLowerCase command in
      returned <-
        tryCatch
          (if decide (lowered = "start") then
             match args with
             | _ :: _ => startTaskByName (join " " args)
             | [] => startLastTask
             end ;;; ret false
           else if decide (lowered = "stop") then stopCurrentTask ;;; ret false
           else if decide (lowered = "exit" \/ lowered = "quit") then exit ;;; ret true
           else
             (if decide (input <> EmptyString) then createAndStartTask input
              else ret tt) ;;; ret false)
          (fun error => showMessage (ErrorLine error) ;;; ret false) ;;
      if returned : bool then ret tt else clearInput
  end.

(** The time shown for one row by [render]. *)
Definition timeDisplay (task : Summary.t) : M string :=
  if decide (Summary.status task = running) then
    currentTime <- taskManager.getCurrentRunningTime (Some task) ;;
    ret (taskManager.formatDuration currentTime)
  else ret (Summary.totalTime task).

(** [start()]: [isTTY] is [process.stdin.isTTY].  The message printed
    when there is no terminal, the key listener and the two timers it
    installs and the first [render] are not part of the model; the refresh
    timer's callback is [timerTick]. *)
Definition start (isTTY : bool) : UI bool :=
  if negb isTTY then ret false else
  today <- engine taskManager.getTodaysTasks ;;
  this <- getThis ;;
  let tasks0 := filter (fun task => Summary.status task <> stopped) today in
  let selectedIndex :=
    match list_find (fun task => Summary.status task = running) tasks0 with
    | Some (runningTaskIndex, _) => Z.of_nat runningTaskIndex
    | None => 0
    end in
  setThis (mkThis tasks0 selectedIndex true (this_inputBuffer this)
                  (this_statusMessage this)) ;;;
  ret true.


Definition toggleSelectedTask : UI unit :=
  this <- getThis ;;
  if decide (this_selectedIndex this < 0
             \/ this_selectedIndex this >= Z.of_nat (length (this_tasks this)))
  then ret tt
  else
    match this_tasks this !! Z.to_nat (this_selectedIndex this) with
    | None => throw TypeError
    | Some selectedTask =>
        (if decide (Summary.status selectedTask = running) then
           updatedTask <- engine (taskManager.pauseTask (Summary.id selectedTask)) ;;
           summary <- summaryOf updatedTask ;;
           showMessage (Paused (Summary.name summary) (Summary.totalTime summary))
         else
           updatedTask <- engine (taskManager.startTask (Summary.id selectedTask)) ;;
           summary <- summaryOf updatedTask ;;
           showMessage (Started (Summary.name summary))) ;;;
        refreshTasks
    end.

(** The keys [handleKeyPress] tells apart. *)
Definition keyUp : string := String "027" "[A".
Definition keyDown : string := String "027" "[B".
Definition keyReturn : string := String "013" EmptyString.
Definition keyNewline : string := String "010" EmptyString.
Definition keyCtrlC : string := String "003" EmptyString.
Definition keyDelete : string := String "127" EmptyString.
Definition keyBackspace : string := String "008" EmptyString.
Definition keyEscape : string := String "027" EmptyString.

(** [key.length === 1 && key >= ' '] *)
Definition isRegularKey (key : string) : bool :=
  match key with
  | String c EmptyString => (32 <=? nat_of_ascii c)%nat
  | _ => false
  end.

Definition setSelectedIndex (i : Z) : UI unit :=
  this <- getThis ;;
  setThis (mkThis (this_tasks this) i (this_isActive this)
                  (this_inputBuffer this) (this_statusMessage this)).

Definition setInputBuffer (b : string) : UI unit :=
  this <- getThis ;;
  setThis (mkThis (this_tasks this) (this_selectedIndex this) (this_isActive this)
                  b (this_statusMessage this)).

(** [handleKeyPress(key)].  The calls of [render] are left out: [render]
    prints, and reads the clock once for each running row; it writes
    neither to the object nor to the data file. *)
Definition handleKeyPress (key : string) : UI unit :=
  this <- getThis ;;
  if negb (this_isActive this) then ret tt
  else if decide (key = keyUp) then
    if decide (0 < length (this_tasks this))%nat
    then setSelectedIndex (Z.max 0 (this_selectedIndex this - 1))
    else ret tt
  else if decide (key = keyDown) then
    if decide (0 < length (this_tasks this))%nat
    then setSelectedIndex (Z.min (Z.of_nat (length (this_tasks this)) - 1)
                                 (this_selectedIndex this + 1))
    else ret tt
  else if decide (key = keyReturn \/ key = keyNewline) then
    if decide (trim (this_inputBuffer this) <> EmptyString) then processCommand
    else if decide (0 < length (this_tasks this))%nat then toggleSelectedTask
    else ret tt
  else if decide (key = keyCtrlC) then exit
  else if decide (key = keyDelete \/ key = keyBackspace) then
    if decide (0 < String.length (this_inputBuffer this))%nat
    then setInputBuffer (dropLast (this_inputBuffer this))
    else ret tt
  else if decide (key = keyEscape) then
    if decide (0 < String.length (this_inputBuffer this))%nat
    then setInputBuffer EmptyString
    else exit
  else if isRegularKey key
    then setInputBuffer (this_inputBuffer this ++ key)
    else ret tt.

End VisualMode.

(** *** The arrow-key navigation started by [nav] (visualNav.js) *)

Module VisualNavigation.

(** The object, with what it printed (oldest line first) in [this_printed]:
    the lines of [selectCurrentTask]; [ErrorLine] stands for
    [`✗ Error: ${error.message}`]. *)
Record This := mkThis {
  this_tasks : list Summary.t;
  this_selectedIndex : Z;
  this_isActive : bool;
  this_printed : list Line
}.

Definition UI (A : Type) : Type := St (This * World) A.

Definition print (l : Line) : UI unit :=
  this <- getThis ;;
  setThis (mkThis (this_tasks this) (this_selectedIndex this) (this_isActive this)
                  (this_printed this ++ [l])).

Definition setSelectedIndex (i : Z) : UI unit :=
  this <- getThis ;;
  setThis (mkThis (this_tasks this) i (this_isActive this) (this_printed this)).

(** [start()]: [isTTY] is [process.stdin.isTTY], which [setupKeyNavigation]
    tests after the object has been made active.  The notices it prints,
    the timer and the first [render] are not part of the model. *)
Definition start (isTTY : bool) : UI bool :=
  today <- engine taskManager.getTodaysTasks ;;
  this <- getThis ;;
  let tasks0 := filter (fun task => Summary.status task <> stopped) today in
  if decide (length tasks0 = 0%nat) then
    setThis (mkThis tasks0 (this_selectedIndex this) (this_isActive this)
                    (this_printed this)) ;;;
    ret false
  else
    let selectedIndex :=
      match list_find (fun task => Summary.status task = running) tasks0 with
      | Some (runningTaskIndex, _) => Z.of_nat runningTaskIndex
      | None => 0
      end in
    setThis (mkThis tasks0 selectedIndex true (this_printed this)) ;;;
    ret isTTY.

(** [selectCurrentTask()], up to the two [setTimeout] calls: the refresh
    they postpone is [deferredRefresh]. *)
Definition selectCurrentTask : UI unit :=
  this <- getThis ;;
  if decide (this_selectedIndex this < 0
             \/ this_selectedIndex this >= Z.of_nat (length (this_tasks this)))
  then ret tt
  else
    tryCatch
      (match this_tasks this !! Z.to_nat (this_selectedIndex this) with
       | None => throw TypeError
       | Some selectedTask =>
           if decide (Summary.status selectedTask = running) then
             updatedTask <- engine (taskManager.pauseTask (Summary.id selectedTask)) ;;
             summary <- summaryOf updatedTask ;;
             print (Paused (Summary.name summary) (Summary.totalTime summary))
           else
             updatedTask <- engine (taskManager.startTask (Summary.id selectedTask)) ;;
             summary <- summaryOf updatedTask ;;
             print (Started (Summary.name summary))
       end)
      (fun error => print (ErrorLine error)).

(** The refresh [selectCurrentTask] postpones by a second: the list is
    read again, the selected index is left as it is. *)
Definition deferredRefresh : UI unit :=
  today <- engine taskManager.getTodaysTasks ;;
  this <- getThis ;;
  setThis (mkThis (filter (fun task => Summary.status task <> stopped) today)
                  (this_selectedIndex this) (this_isActive this) (this_printed this)).

(** [refreshTasksAndRender()], without the redrawing. *)
Definition refreshTasksAndRender : UI unit :=
  today <- engine taskManager.getTodaysTasks ;;
  this <- getThis ;;
  let tasks0 := filter (fun task => Summary.status task <> stopped) today in
  let selectedIndex :=
    if decide (this_selectedIndex this >= Z.of_nat (length tasks0))
    then Z.max 0 (Z.of_nat (length tasks0) - 1)
    else this_selectedIndex this in
  setThis (mkThis tasks0 selectedIndex (this_isActive this) (this_printed this)).

(** [exit()] and [exitToCommandMode()], as far as the object goes. *)
Definition exit : UI unit :=
  this <- getThis ;;
  setThis (mkThis (this_tasks this) (this_selectedIndex this) false (this_printed this)).

(** [handleKeyPress(key)], without the redrawing. *)
Definition handleKeyPress (key : string) : UI unit :=
  this <- getThis ;;
  if negb (this_isActive this) then ret tt
  else if decide (key = VisualMode.keyUp) then
    setSelectedIndex (Z.max 0 (this_selectedIndex this - 1))
  else if decide (key = VisualMode.keyDown) then
    setSelectedIndex (Z.min (Z.of_nat (length (this_tasks this)) - 1)
                            (this_selectedIndex this + 1))
  else if decide (key = VisualMode.keyReturn \/ key = VisualMode.keyNewline) then
    selectCurrentTask
  else if decide (key = VisualMode.keyEscape \/ key = "q") then exit
  else if decide (key = "c") then exit
  else if decide (key = VisualMode.keyCtrlC) then exit
  else ret tt.

End VisualNavigation.

(** * Vocabulary of the properties *)

(** ** The host and the records the transitions write *)

Definition findById (i : Z) (l : list Task) : option (nat * Task) :=
  list_find (fun task => id task = i) l.

Definition withFile (w : World) (d : Data) : World :=
  mkWorld d (clock w) (tick w) (localMidnight w).

Definition ticked (w : World) : World :=
  mkWorld (file w) (clock w) (S (tick w)) (localMidnight w).

Definition now (w : World) : Timestamp := clock w (tick w).

(** The record [storage.createTask] appends. *)
Definition createdTask (i : Z) (name0 url0 : string) (now0 : Timestamp) : Task :=
  {| id := i; name := name0; url := url0; status := created; sessions := [];
     totalTime := 0; createdAt := now0; lastStarted := None; lastPaused := None;
     stoppedAt := None |}.

(** The record written by a successful [pauseTask] at time [now], [s] being
    the open session it closes. *)
Definition pausedTask (now : Timestamp) (t : Task) (s : Session) : Task :=
  applyUpdates t
    {| u_status := Some paused;
       u_sessions :=
         Some (<[pred (length (sessions t)) :=
                   {| startTime := startTime s; endTime := Some now;
                      duration := (now - startTime s) / 1000 |}]> (sessions t));
       u_totalTime := Some (totalTime t + (now - startTime s) / 1000);
       u_lastStarted := None;
       u_lastPaused := Some now;
       u_stoppedAt := None |}.

(** The record written by a successful [startTask] at time [now]. *)
Definition startedTask (now : Timestamp) (t : Task) : Task :=
  applyUpdates t
    {| u_status := Some running;
       u_sessions :=
         Some (sessions t ++ [{| startTime := now; endTime := None; duration := 0 |}]);
       u_totalTime := None;
       u_lastStarted := Some now;
       u_lastPaused := None;
       u_stoppedAt := None |}.

Definition stoppedTask (now : Timestamp) (t : Task) : Task :=
  applyUpdates t
    {| u_status := Some stopped; u_sessions := None; u_totalTime := None;
       u_lastStarted := None; u_lastPaused := None;
       u_stoppedAt := Some (Some now) |}.

Definition unstoppedTask (t : Task) : Task :=
  applyUpdates t
    {| u_status := Some paused; u_sessions := None; u_totalTime := None;
       u_lastStarted := None; u_lastPaused := None;
       u_stoppedAt := Some None |}.

(** The second half of [stopTask]: read the clock, write [stopped]. *)
Definition stopWrite (i : Z) (w : World) : Result (option Task) * World :=
  match findById i (tasks (file w)) with
  | None => (Ok None, ticked w)
  | Some (k, t) =>
      (Ok (Some (stoppedTask (now w) t)),
       withFile (ticked w)
         (mkData (<[k := stoppedTask (now w) t]> (tasks (file w)))
                 (nextId (file w)) (lastActiveTaskId (file w))))
  end.

(** The callback of the [forEach] in [startTask]. *)
Definition pauseUnless (taskId : Z) (runningTask : Task) : M unit :=
  if decide (id runningTask <> taskId)
  then taskManager.pauseTask (id runningTask) ;;; ret tt
  else ret tt.

(** ** The invariants of the data model *)

Definition isRunning (t : Task) : Prop := status t = running.

Definition runningCount (d : Data) : nat :=
  length (filter (fun task => status task = running) (tasks d)).

Definition uniqueIds (d : Data) : Prop := NoDup (id <$> tasks d).

Definition freshNextId (d : Data) : Prop :=
  Forall (fun t => id t <> nextId d) (tasks d).

(** The task has an open session where [pauseTask] looks for it: its last
    session has no [endTime].  (Sessions are only ever appended, and only
    the last one is ever closed, so an open session can only be the last.) *)
Definition lastSessionOpen (t : Task) : Prop :=
  exists s, last (sessions t) = Some s /\ endTime s = None.

(** Some session of the task has no [endTime] (the glossary's open
    session, wherever it is in the list). *)
Definition hasOpenSession (t : Task) : Prop :=
  exists s, s ∈ sessions t /\ endTime s = None.

(** No session of the task is open. *)
Definition allSessionsClosed (t : Task) : Prop :=
  Forall (fun s => endTime s <> None) (sessions t).

(** Invariant 3 as a property of the stored list: only the last session
    can be open. *)
Definition onlyLastOpen (t : Task) : Prop :=
  forall l s, sessions t = l ++ [s] -> Forall (fun x => endTime x <> None) l.

(** Every running task can be paused. *)
Definition runningHaveOpenSession (d : Data) : Prop :=
  Forall (fun t => status t = running -> lastSessionOpen t) (tasks d).

(** Invariant 2 of the data model: an open session if and only if running. *)
Definition openSessionIffRunning (d : Data) : Prop :=
  Forall (fun t => lastSessionOpen t <-> status t = running) (tasks d).

(** Sum of the durations of the closed sessions. *)
Fixpoint closedTime (ss : list Session) : Z :=
  match ss with
  | [] => 0
  | s :: ss' =>
      match endTime s with
      | Some _ => duration s
      | None => 0
      end + closedTime ss'
  end.

Definition totalTimeOk (t : Task) : Prop := totalTime t = closedTime (sessions t).

Definition taskOk (t : Task) : Prop :=
  (lastSessionOpen t <-> status t = running) /\ onlyLastOpen t /\ totalTimeOk t.

(** The invariants of section 3 of the specification, on a data file. *)
Definition wellFormed (d : Data) : Prop :=
  uniqueIds d
  /\ Forall (fun t => id t < nextId d) (tasks d)
  /\ Forall taskOk (tasks d)
  /\ (runningCount d <= 1)%nat.

(** The file [ensureDataFile] writes when there is none. *)
Definition initialData : Data := mkData [] 1 None.

(** ** Operations and what they do to one task *)

(** The five operations of the engine. *)
Inductive Op :=
| CreateTask (name0 url0 : string)
| StartTask (taskId : Z)
| PauseTask (taskId : Z)
| StopTask (taskId : Z)
| UnstopTask (taskId : Z).

Definition runOp (o : Op) : M unit :=
  match o with
  | CreateTask name0 url0 => taskManager.createTask name0 url0 ;;; ret tt
  | StartTask taskId => taskManager.startTask taskId ;;; ret tt
  | PauseTask taskId => taskManager.pauseTask taskId ;;; ret tt
  | StopTask taskId => taskManager.stopTask taskId ;;; ret tt
  | UnstopTask taskId => taskManager.unstopTask taskId ;;; ret tt
  end.

Fixpoint runOps (ops : list Op) (w : World) : World :=
  match ops with
  | [] => w
  | o :: ops' => runOps ops' (snd (runOp o w))
  end.

Definition closesSession (o : Op) : Prop :=
  match o with
  | StartTask _ | PauseTask _ | StopTask _ => True
  | CreateTask _ _ | UnstopTask _ => False
  end.

(** One task before and after a pause of the tasks whose id satisfies [P]:
    nothing happened to it, or it was running with its last session open
    and that session was closed. *)
Definition pauseStepOn (P : Z -> Prop) (t t' : Task) : Prop :=
  t' = t \/
  (P (id t) /\ status t = running /\
   exists now0 s, last (sessions t) = Some s /\ endTime s = None /\
                  t' = pausedTask now0 t s).

(** Everything one operation can do to one stored task. *)
Inductive opStep (o : Op) (t : Task) : Task -> Prop :=
| step_same : opStep o t t
| step_pause now0 s :
    closesSession o -> status t = running ->
    last (sessions t) = Some s -> endTime s = None ->
    opStep o t (pausedTask now0 t s)
| step_start now0 :
    o = StartTask (id t) -> status t <> running ->
    opStep o t (startedTask now0 t)
| step_stop now0 :
    o = StopTask (id t) -> status t <> running ->
    opStep o t (stoppedTask now0 t)
| step_pause_stop now0 now1 s :
    o = StopTask (id t) -> status t = running ->
    last (sessions t) = Some s -> endTime s = None ->
    opStep o t (stoppedTask now1 (pausedTask now0 t s))
| step_unstop :
    o = UnstopTask (id t) -> status t = stopped ->
    opStep o t (unstoppedTask t).

(** What a call leaves alone in the host. *)
Definition sameHost (w w' : World) : Prop :=
  clock w' = clock w /\ localMidnight w' = localMidnight w /\
  (tick w <= tick w')%nat /\ nextId (file w') = nextId (file w).

(** One task before and after an operation, as far as its accounted time
    goes: the total is the same, or the task was running, is no longer
    running, and the operation is one that pauses. *)
Definition timeStep (o : Op) (t t' : Task) : Prop :=
  id t' = id t /\
  (totalTime t' = totalTime t \/
   (status t = running /\ status t' <> running /\ closesSession o)).

Definition okStep (o : Op) (t t' : Task) : Prop :=
  timeStep o t t' /\ (totalTimeOk t -> totalTimeOk t').

(** The rule of the specification for the operations that are not to
    change any [totalTime] ([startTask], [createTask], [unstopTask]): every
    task has after [o] the [totalTime] it had before. *)
Definition totalTimeUntouchedBy (o : Op) (w : World) : Prop :=
  forall k t t',
    tasks (file w) !! k = Some t ->
    tasks (file (snd (runOp o w))) !! k = Some t' ->
    totalTime t' = totalTime t.

(** The rule of the specification for [stopTask] on the task under
    [taskId], whatever its status: the call returns it stopped. *)
Definition stopRule (w : World) (taskId : Z) : Prop :=
  forall t, fst (storage.getTask taskId w) = Ok (Some t) ->
  exists t', fst (taskManager.stopTask taskId w) = Ok (Some t') /\ status t' = stopped.

(** ** What is kept of the history *)

(** One stored session now and later: it is the same record, or it was
    open and has been closed, with its start kept and its duration the
    whole seconds between start and end. *)
Definition sessionKept (s s' : Session) : Prop :=
  s' = s
  \/ (endTime s = None /\
      exists e, s' = {| startTime := startTime s; endTime := Some e;
                        duration := (e - startTime s) / 1000 |}).

(** One stored task now and later: the id, the name, the url and the
    creation time are the same, and each session is still at its place and
    kept. *)
Definition taskKept (t t' : Task) : Prop :=
  id t' = id t /\ name t' = name t /\ url t' = url t /\ createdAt t' = createdAt t
  /\ forall k s, sessions t !! k = Some s ->
       exists s', sessions t' !! k = Some s' /\ sessionKept s s'.

(** Each task of [l] is still at its place in [l'], and kept. *)
Definition historyKept (l l' : list Task) : Prop :=
  forall k t, l !! k = Some t -> exists t', l' !! k = Some t' /\ taskKept t t'.

(** ** The recorded instants *)

Definition isClosed (s : Session) : Prop := endTime s <> None.

(** What the last-start and last-pause fields say about the sessions:
    [lastStarted] is the start of the last session, [lastPaused] the end of
    the last closed one; a task still [created] has no session, and a
    [stopped] one says when it was stopped. *)
Definition lastStampsOk (t : Task) : Prop :=
  lastStarted t = startTime <$> last (sessions t)
  /\ lastPaused t = last (filter isClosed (sessions t)) ≫= endTime
  /\ (status t = created -> sessions t = [])
  /\ (status t = stopped -> stoppedAt t <> None).

(** [ts] is one of the first [n] readings of the clock. *)
Definition readBefore (clk : nat -> Timestamp) (n : nat) (ts : Timestamp) : Prop :=
  exists m, (m < n)%nat /\ ts = clk m.

Definition optionReadBefore (clk : nat -> Timestamp) (n : nat)
    (o : option Timestamp) : Prop :=
  match o with
  | Some ts => readBefore clk n ts
  | None => True
  end.

(** The start of the session is one of the first [n] readings; an open
    session has duration 0; the end of a closed one is a reading that was
    not taken before the start, and the duration is the whole seconds
    between the two. *)
Definition sessionFromClock (clk : nat -> Timestamp) (n : nat) (s : Session) : Prop :=
  exists m, (m < n)%nat /\ startTime s = clk m /\
    match endTime s with
    | None => duration s = 0
    | Some e =>
        exists m', (m <= m' < n)%nat /\ e = clk m'
                   /\ duration s = (clk m' - clk m) / 1000
    end.

Definition taskFromClock (clk : nat -> Timestamp) (n : nat) (t : Task) : Prop :=
  readBefore clk n (createdAt t)
  /\ optionReadBefore clk n (lastStarted t)
  /\ optionReadBefore clk n (lastPaused t)
  /\ optionReadBefore clk n (stoppedAt t)
  /\ Forall (sessionFromClock clk n) (sessions t).

(** Every instant in the data file is a reading the host's clock has
    already given. *)
Definition fromClock (w : World) : Prop :=
  Forall (taskFromClock (clock w) (tick w)) (tasks (file w)).

(** A clock that never goes back. *)
Definition monotoneClock (clk : nat -> Timestamp) : Prop :=
  forall m n, (m <= n)%nat -> clk m <= clk n.

(** What a call does to the clock: it is the same clock, read further or
    not at all, and the instants in the file still come from it. *)
Definition keepsClock (w w' : World) : Prop :=
  clock w' = clock w /\ (tick w <= tick w')%nat /\ (fromClock w -> fromClock w').

(** ** Runs of [startTask] *)

(** A run of [startTask] calls: for each call its argument, its outcome
    and the host it leaves. *)
Fixpoint startSequence (ids : list Z) (w : World)
    : list (Z * Result (option Task) * World) :=
  match ids with
  | [] => []
  | i :: ids' =>
      let rw := taskManager.startTask i w in
      (i, fst rw, snd rw) :: startSequence ids' (snd rw)
  end.

Definition returned {A} (r : Result A) : Prop :=
  match r with Ok _ => True | Throw _ => False end.

(** After the call [c] of a run, the running tasks are exactly the task
    that was asked for. *)
Definition onlyTargetRuns (c : Z * Result (option Task) * World) : Prop :=
  exists t, filter isRunning (tasks (file (snd c))) = [t] /\ id t = fst (fst c)
            /\ snd (fst c) = Ok (Some t).

(** The host in which the [n]-th call of a run is made. *)
Fixpoint hostBefore (ids : list Z) (w : World) (n : nat) : World :=
  match n, ids with
  | S m, i :: ids' => hostBefore ids' (snd (taskManager.startTask i w)) m
  | _, _ => w
  end.

(** One task before and after the pauses made between the clock readings
    [lo] and [hi], of tasks whose id satisfies [P]: nothing happened to it,
    or it was running with its last session open and that session was
    closed at one of those readings. *)
Definition pausedDuring (clk : nat -> Timestamp) (lo hi : nat) (P : Z -> Prop)
    (t t' : Task) : Prop :=
  t' = t \/
  (P (id t) /\ status t = running /\
   exists k s, (lo <= k < hi)%nat /\ last (sessions t) = Some s /\ endTime s = None
               /\ t' = pausedTask (clk k) t s).

(** What a [startTask taskId] that returns has done to one stored task,
    [lo] being the number of clock readings taken before the call and [hi]
    the number taken before its last one: the target was not running and
    was started at reading [hi]; every other task that was running had its
    last session open and was paused at an earlier reading of the call; a
    task that was not running and is not the target is as it was. *)
Definition startEffect (clk : nat -> Timestamp) (lo hi : nat) (taskId : Z)
    (t t' : Task) : Prop :=
  (id t = taskId /\ status t <> running /\ t' = startedTask (clk hi) t)
  \/ (id t <> taskId /\ status t = running /\
      exists k s, (lo <= k < hi)%nat /\ last (sessions t) = Some s /\ endTime s = None
                  /\ t' = pausedTask (clk k) t s)
  \/ (id t <> taskId /\ status t <> running /\ t' = t).

(** The rule of the specification for a run of [startTask] calls on the
    store of [w]: after each call at most one task is running. *)
Definition singleRunningRule (ids : list Z) (w : World) : Prop :=
  Forall (fun c => (runningCount (file (snd c)) <= 1)%nat) (startSequence ids w).

(** ** Resolution and the [start] command *)

(** [r] is the first element of [l], in the order of [l], that satisfies
    [P]; [None] when there is none. *)
Definition firstMatch {A} (P : A -> Prop) (l : list A) (r : option A) : Prop :=
  match r with
  | Some x => exists l1 l2, l = l1 ++ x :: l2 /\ P x /\ Forall (fun y => ~ P y) l1
  | None => Forall (fun y => ~ P y) l
  end.

(** [needle] occurs in [hay] when letter case is ignored. *)
Definition containsIgnoringCase (hay needle : string) : Prop :=
  exists pre post : string,
    toLowerCase hay = (pre ++ toLowerCase needle ++ post)%string.

(** A non-empty string of decimal digits. *)
Definition purelyNumeric (s : string) : Prop :=
  s <> EmptyString /\ Forall (fun c => isDigit c = true) (list_ascii_of_string s).

Definition notStopped (s : Summary.t) : Prop := Summary.status s <> stopped.

(** What a query returned, [None] also when it threw. *)
Definition fst_ok {A} (rw : Result (option A) * World) : option A :=
  match fst rw with
  | Ok r => r
  | Throw _ => None
  end.

(** No listed task matches [taskName] in [startTaskByName]. *)
Definition noListedMatch (this : VisualMode.This) (taskName : string) : Prop :=
  list_find (fun task =>
    includes (toLowerCase (Summary.name task)) (toLowerCase taskName) = true)
    (VisualMode.this_tasks this) = None.

(** The store holds one task more than [d] did, it carries the id that was
    next in [d] and the given name, and it is the one running task. *)
Definition createdAndStarted (d : Data) (taskName : string) (d' : Data) : Prop :=
  exists b,
    filter isRunning (tasks d') = [b]
    /\ id b = nextId d /\ name b = taskName
    /\ length (tasks d') = S (length (tasks d)).

Definition typed (this : VisualMode.This) (line : string) : VisualMode.This :=
  VisualMode.mkThis (VisualMode.this_tasks this) (VisualMode.this_selectedIndex this)
    (VisualMode.this_isActive this) line (VisualMode.this_statusMessage this).

(** The rule of the specification for the line [start arg] committed in the
    visual mode: a purely numeric argument that resolves to no task gets a
    not-found error and no task is created. *)
Definition numericStartRule (this : VisualMode.This) (w : World) (arg : string) : Prop :=
  purelyNumeric arg ->
  fst (InteractiveMode.findTask arg w) = Ok None ->
  noListedMatch this arg ->
  tasks (file (snd (snd (VisualMode.processCommand
                           (typed this ("start " ++ arg)%string, w)))))
  = tasks (file w)
  /\ exists e,
       VisualMode.this_statusMessage
         (fst (snd (VisualMode.processCommand
                      (typed this ("start " ++ arg)%string, w))))
       = Some (ErrorLine e)
       /\ classify e = Some NotFoundError.

(** ** The current local calendar day *)

(** What is asked of a time zone: the local midnight before an instant is
    not after it, later instants do not have earlier midnights, and a
    midnight is its own midnight. *)
Definition zoneLaws (midnight : Timestamp -> Timestamp) : Prop :=
  (forall t, midnight t <= t)
  /\ (forall t t', t <= t' -> midnight t <= midnight t')
  /\ (forall t, midnight (midnight t) = midnight t).

(** [t] falls in the local calendar day of [today]. *)
Definition inLocalDayOf (w : World) (today t : Timestamp) : Prop :=
  localMidnight w t = localMidnight w today.

(** The instants at which a task records activity: [lastStarted],
    [lastPaused], and the start and end of each session. *)
Definition stamps (t : Task) : list Timestamp :=
  option_list (lastStarted t) ++ option_list (lastPaused t)
  ++ flat_map (fun s => startTime s :: option_list (endTime s)) (sessions t).

Definition activeToday (w : World) (today : Timestamp) (t : Task) : Prop :=
  Exists (inLocalDayOf w today) (stamps t).

(** No recorded instant lies after [today]: the clock is where they all
    came from. *)
Definition noneLaterThan (today : Timestamp) (d : Data) : Prop :=
  Forall (fun t => Forall (fun ts => ts <= today) (stamps t)) (tasks d).

#[global] Instance inLocalDayOf_dec w today t : Decision (inLocalDayOf w today t).
Proof. unfold inLocalDayOf. apply _. Defined.

#[global] Instance activeToday_dec w today t : Decision (activeToday w today t).
Proof. unfold activeToday. apply _. Defined.

(** ** The state of the visual mode *)

(** [m] keeps [P]: run in a state that satisfies [P], it leaves one that
    does, whether it returns or throws. *)
Definition keeps {S A} (P : S -> Prop) (m : St S A) : Prop :=
  forall s, P s -> P (snd (m s)).

(** A property of the object of a front end, as a property of the state. *)
Definition onThis {U} (Q : U -> Prop) : U * World -> Prop := fun s => Q (fst s).


(** [t] falls in the local calendar day of [today] or in a later one. *)
Definition inLocalDayOrLater (w : World) (today t : Timestamp) : Prop :=
  localMidnight w today <= localMidnight w t.

(** The task records activity today or on a later day. *)
Definition activeSinceToday (w : World) (today : Timestamp) (t : Task) : Prop :=
  Exists (inLocalDayOrLater w today) (stamps t).

#[global] Instance inLocalDayOrLater_dec w today t : Decision (inLocalDayOrLater w today t).
Proof. unfold inLocalDayOrLater. apply _. Defined.

#[global] Instance activeSinceToday_dec w today t : Decision (activeSinceToday w today t).
Proof. unfold activeSinceToday. apply _. Defined.

(** The rule of the specification for the today view, on the list the
    visual mode keeps: it holds exactly the tasks that are not stopped and
    have activity in the current local calendar day. *)
Definition todayRule (this : VisualMode.This) (w : World) : Prop :=
  VisualMode.this_tasks (fst (snd (VisualMode.refreshTasks (this, w))))
  = taskManager.getTaskSummary <$>
      filter (fun t => status t <> stopped /\ activeToday w (now w) t) (tasks (file w)).

(** ** Sample stores *)

(** Hosts used to run the model on concrete inputs: a clock that advances
    one second per reading and the UTC time zone. *)
Definition secondsClock (n : nat) : Timestamp := 1000 * Z.of_nat n.

Definition utcMidnight (t : Timestamp) : Timestamp := t - t `mod` 86400000.

Definition hostOf (d : Data) : World := mkWorld d secondsClock 0 utcMidnight.

Definition sampleTask (i : Z) (n : string) (st : Status) (ss : list Session)
    (total : Z) (started paused0 : option Timestamp) : Task :=
  {| id := i; name := n; url := EmptyString; status := st; sessions := ss;
     totalTime := total; createdAt := 0; lastStarted := started;
     lastPaused := paused0; stoppedAt := None |}.

Definition sampleOpenSession (start : Timestamp) : Session :=
  {| startTime := start; endTime := None; duration := 0 |}.

Definition emptyHost : World := hostOf (mkData [] 1 None).

Definition pausedSample : Task :=
  sampleTask 1 "write spec" paused
    [{| startTime := 0; endTime := Some 5000; duration := 5 |}] 5
    (Some 0) (Some 5000).

Definition pausedHost : World := hostOf (mkData [pausedSample] 2 (Some 1)).

(** A store that invariant 1 forbids: tasks 1 and 2 both running. *)
Definition twoRunningHost : World :=
  hostOf (mkData [sampleTask 1 "write spec" running [sampleOpenSession 0] 0 (Some 0) None;
                  sampleTask 2 "review" running [sampleOpenSession 10] 0 (Some 10) None;
                  sampleTask 3 "email" paused
                    [{| startTime := 0; endTime := Some 5000; duration := 5 |}] 5
                    (Some 0) (Some 5000)] 4 (Some 2)).

(** A store in which two tasks carry the id 2, the second one running. *)
Definition duplicateIdHost : World :=
  hostOf (mkData [sampleTask 2 "review" paused
                    [{| startTime := 0; endTime := Some 5000; duration := 5 |}] 5
                    (Some 0) (Some 5000);
                  sampleTask 2 "review" running [sampleOpenSession 10] 0 (Some 10) None]
                 3 None).

(** Starting task 3 on that store. *)
Definition firstStart : Z * Result (option Task) * World :=
  (3, fst (taskManager.startTask 3 twoRunningHost),
      snd (taskManager.startTask 3 twoRunningHost)).

(** Invariant 2 does not hold here: task 1 is running, its only session is
    closed. *)
Definition runningClosedSample : Task :=
  sampleTask 1 "write spec" running
    [{| startTime := 0; endTime := Some 5000; duration := 5 |}] 5
    (Some 0) (Some 5000).

Definition runningClosedHost : World :=
  hostOf (mkData [runningClosedSample] 2 (Some 1)).

Definition runningSample : Task :=
  sampleTask 1 "write spec" running [sampleOpenSession 2000] 65 (Some 2000) None.

(** A host whose clock has been read five times: it is now 5000. *)
Definition runningHost : World :=
  mkWorld (mkData [runningSample] 2 (Some 1)) secondsClock 5 utcMidnight.

(** A day of work seen at 10:00:05 UTC of day 1: task 1 was paused at
    09:00 that day, task 2 was last touched the day before, task 3 was
    worked on today and then stopped. *)
Definition dayHost : World :=
  mkWorld
    (mkData
       [sampleTask 1 "write spec" paused
          [{| startTime := 118000000; endTime := Some 118800000; duration := 800 |}]
          800 (Some 118000000) (Some 118800000);
        sampleTask 2 "review" paused
          [{| startTime := 3600000; endTime := Some 7200000; duration := 3600 |}]
          3600 (Some 3600000) (Some 7200000);
        sampleTask 3 "email" stopped
          [{| startTime := 119000000; endTime := Some 119500000; duration := 500 |}]
          500 (Some 119000000) (Some 119500000)]
       4 (Some 3))
    (fun n => 122405000 + 1000 * Z.of_nat n) 0 utcMidnight.

(** Seen at 10:00:05 UTC of day 1: a task whose only session lies in day
    2, as a clock that was set back leaves it. *)
Definition futureHost : World :=
  mkWorld
    (mkData
       [sampleTask 1 "tomorrow" paused
          [{| startTime := 200000000; endTime := Some 200500000; duration := 500 |}]
          500 (Some 200000000) (Some 200500000)]
       2 (Some 1))
    (fun n => 122405000 + 1000 * Z.of_nat n) 0 utcMidnight.

Definition idleThis : VisualMode.This := VisualMode.mkThis [] 0 true EmptyString None.

(** The visual mode with [start 42] typed, nothing listed. *)
Definition typedStart42 : VisualMode.This :=
  VisualMode.mkThis [] 0 true "start 42" None.

(** Task 1 running since 2000 and task 2 paused, the clock read five times. *)
Definition reviewSample : Task :=
  sampleTask 2 "review" paused
    [{| startTime := 0; endTime := Some 1000; duration := 1 |}] 1
    (Some 0) (Some 1000).

Definition switchHost : World :=
  mkWorld (mkData [runningSample; reviewSample] 3 (Some 1)) secondsClock 5 utcMidnight.

(** Tasks 1 and 2 both running, the only session of task 2 closed, task 3
    paused: the second pause of [startTask 3] cannot succeed. *)
Definition halfPausableHost : World :=
  hostOf (mkData [sampleTask 1 "write spec" running [sampleOpenSession 0] 0 (Some 0) None;
                  sampleTask 2 "review" running
                    [{| startTime := 0; endTime := Some 1000; duration := 1 |}] 1
                    (Some 0) (Some 1000);
                  sampleTask 3 "email" paused [] 0 None None] 4 None).

(** The visual mode showing the two tasks of [switchHost], the second row
    selected. *)
Definition twoRowsThis : VisualMode.This :=
  VisualMode.mkThis
    [taskManager.getTaskSummary runningSample; taskManager.getTaskSummary reviewSample]
    1 true EmptyString None.

(** The visual mode still showing task 1 as running. *)
Definition staleThis : VisualMode.This :=
  VisualMode.mkThis [taskManager.getTaskSummary runningSample] 0 true EmptyString None.

(** The navigation with an empty list, as a refresh can leave it. *)
Definition emptyNav : VisualNavigation.This := VisualNavigation.mkThis [] 0 true [].

(** * Properties *)

(** ** The engine calls as equations on the host *)

Lemma getTask_eq i w :
  storage.getTask i w = (Ok (snd <$> findById i (tasks (file w))), w).
Proof. reflexivity. Qed.

Lemma updateTask_eq i u w :
  storage.updateTask i u w =
  match findById i (tasks (file w)) with
  | None => (Ok None, w)
  | Some (k, t) =>
      (Ok (Some (applyUpdates t u)),
       withFile w (mkData (<[k := applyUpdates t u]> (tasks (file w)))
                          (nextId (file w)) (lastActiveTaskId (file w))))
  end.
Proof.
  unfold storage.updateTask, findById, bind, loadData. simpl.
  destruct (list_find _ _) as [[k t]|]; reflexivity.
Qed.

Lemma pauseTask_eq i w :
  taskManager.pauseTask i w =
  match findById i (tasks (file w)) with
  | None => (Throw (TaskNotFound i), w)
  | Some (k, t) =>
      if decide (status t <> running) then (Throw NotRunning, w) else
      match last (sessions t) with
      | Some s =>
          match endTime s with
          | None =>
              (Ok (Some (pausedTask (now w) t s)),
               withFile (ticked w)
                 (mkData (<[k := pausedTask (now w) t s]> (tasks (file w)))
                         (nextId (file w)) (Some i)))
          | Some _ => (Throw NoActiveSession, ticked w)
          end
      | None => (Throw NoActiveSession, ticked w)
      end
  end.
Proof.
  unfold taskManager.pauseTask, bind. rewrite getTask_eq.
  destruct (findById i (tasks (file w))) as [[k t]|] eqn:Hf; simpl; [|reflexivity].
  destruct (decide (status t <> running)); [reflexivity|].
  unfold newDate, bind. simpl.
  destruct (last (sessions t)) as [s|]; [|reflexivity].
  destruct (endTime s); [reflexivity|].
  unfold storage.setLastActiveTask, bind, loadData, saveData. simpl.
  rewrite updateTask_eq. simpl. rewrite Hf. reflexivity.
Qed.

(** ** Pausing a task that is not running *)

(** C5. When the task found under [taskId] is paused or created,
    [pauseTask taskId] throws 'Task is not currently running', an
    invalid-transition error, and the host, hence the whole record of the
    task, is exactly what it was before the call. *)
Theorem pauseTask_not_running_rejected (w : World) (taskId : Z) (t : Task) :
  fst (storage.getTask taskId w) = Ok (Some t) ->
  status t = paused \/ status t = created ->
  taskManager.pauseTask taskId w = (Throw NotRunning, w)
  /\ classify NotRunning = Some InvalidTransitionError
  /\ fst (storage.getTask taskId (snd (taskManager.pauseTask taskId w))) = Ok (Some t).
Proof.
  intros Hget Hst. rewrite getTask_eq in Hget. simpl in Hget.
  assert (Hp : taskManager.pauseTask taskId w = (Throw NotRunning, w)).
  { rewrite pauseTask_eq.
    destruct (findById taskId (tasks (file w))) as [[k t0]|]; [|discriminate].
    simpl in Hget. injection Hget as ->.
    destruct (decide (status t <> running)) as [|Hn]; [reflexivity|].
    exfalso. apply Hn. destruct Hst as [-> | ->]; discriminate. }
  split; [exact Hp|]. split; [reflexivity|].
  rewrite Hp, getTask_eq. simpl.
  destruct (findById taskId (tasks (file w))) as [[k t0]|]; [|discriminate].
  simpl in *. congruence.
Qed.

Lemma pauseTask_not_running_rejected_witness :
  fst (storage.getTask 1 pausedHost) = Ok (Some pausedSample)
  /\ (status pausedSample = paused \/ status pausedSample = created)
  /\ taskManager.pauseTask 1 pausedHost = (Throw NotRunning, pausedHost).
Proof.
  split; [reflexivity|]. split; [left; reflexivity|].
  apply (pauseTask_not_running_rejected pausedHost 1 pausedSample).
  - reflexivity.
  - left. reflexivity.
Defined.

(** ** Pointwise effect of pausing *)

Lemma findById_Some i l k t :
  findById i l = Some (k, t) ->
  l !! k = Some t /\ id t = i /\
  forall j y, l !! j = Some y -> (j < k)%nat -> id y <> i.
Proof. unfold findById. rewrite list_find_Some. tauto. Qed.

Lemma findById_update i (l : list Task) k t t' :
  findById i l = Some (k, t) -> id t' = i ->
  findById i (<[k := t']> l) = Some (k, t').
Proof.
  intros (Hk & Hid & Hmin)%findById_Some Hid'.
  unfold findById. apply list_find_Some.
  split; [apply list_lookup_insert_eq; eapply lookup_lt_Some; eauto|].
  split; [exact Hid'|].
  intros j y Hj Hlt. rewrite list_lookup_insert_ne in Hj by lia. eauto.
Qed.

Lemma Forall2_update {A} (R : A -> A -> Prop) (l : list A) k x y :
  (forall a, R a a) -> l !! k = Some x -> R x y -> Forall2 R l (<[k := y]> l).
Proof.
  intros Hrefl Hk Hxy.
  rewrite <- (list_insert_id l k x Hk) at 1.
  apply Forall2_insert; [|exact Hxy].
  apply Forall_Forall2_diag, Forall_forall. auto.
Qed.

Lemma pauseStepOn_refl P t : pauseStepOn P t t.
Proof. left. reflexivity. Qed.

Lemma pauseStepOn_trans P t1 t2 t3 :
  pauseStepOn P t1 t2 -> pauseStepOn P t2 t3 -> pauseStepOn P t1 t3.
Proof.
  intros [-> | H12] H23; [exact H23|].
  destruct H23 as [-> | (_ & Hrun & _)]; [right; exact H12|].
  destruct H12 as (_ & _ & now0 & s & _ & _ & ->). discriminate.
Qed.

Lemma pauseStepOn_weaken (P Q : Z -> Prop) t t' :
  (forall i, P i -> Q i) -> pauseStepOn P t t' -> pauseStepOn Q t t'.
Proof. intros HPQ [-> | (HP & ?)]; [left; reflexivity | right; auto]. Qed.

Lemma Forall2_pauseStepOn_trans P (l1 l2 l3 : list Task) :
  Forall2 (pauseStepOn P) l1 l2 -> Forall2 (pauseStepOn P) l2 l3 ->
  Forall2 (pauseStepOn P) l1 l3.
Proof.
  intros H12. revert l3. induction H12 as [|a b l1 l2 Hab _ IH]; intros l3 H23.
  - inversion H23. constructor.
  - inversion H23 as [|? c ? l3' Hbc H23' ]; subst.
    constructor; [eapply pauseStepOn_trans; eauto | auto].
Qed.

Lemma Forall2_pauseStepOn_refl P (l : list Task) : Forall2 (pauseStepOn P) l l.
Proof. apply Forall_Forall2_diag, Forall_forall. intros. apply pauseStepOn_refl. Qed.

Lemma sameHost_refl w : sameHost w w.
Proof. repeat split; lia. Qed.

Lemma sameHost_trans w1 w2 w3 : sameHost w1 w2 -> sameHost w2 w3 -> sameHost w1 w3.
Proof.
  intros (?&?&?&?) (?&?&?&?). repeat split; try congruence. lia.
Qed.

Lemma pauseTask_step i w r w' :
  taskManager.pauseTask i w = (r, w') ->
  Forall2 (pauseStepOn (eq i)) (tasks (file w)) (tasks (file w')) /\ sameHost w w'.
Proof.
  rewrite pauseTask_eq.
  destruct (findById i (tasks (file w))) as [[k t]|] eqn:Hf.
  2:{ intros [= <- <-]. split; [apply Forall2_pauseStepOn_refl | apply sameHost_refl]. }
  apply findById_Some in Hf as (Hk & Hid & _).
  destruct (decide (status t <> running)) as [|Hrun%dec_stable].
  { intros [= <- <-]. split; [apply Forall2_pauseStepOn_refl | apply sameHost_refl]. }
  assert (Htick : sameHost w (ticked w)) by (repeat split; simpl; lia).
  destruct (last (sessions t)) as [s|] eqn:Hlast.
  2:{ intros [= <- <-]. split; [apply Forall2_pauseStepOn_refl | exact Htick]. }
  destruct (endTime s) eqn:Hend.
  { intros [= <- <-]. split; [apply Forall2_pauseStepOn_refl | exact Htick]. }
  intros [= <- <-]. simpl. split; [|repeat split; simpl; lia].
  apply (Forall2_update _ _ k t); [apply pauseStepOn_refl | exact Hk |].
  right. split; [congruence|]. split; [exact Hrun|]. eauto.
Qed.

Lemma pauseStepOn_id P t t' : pauseStepOn P t t' -> id t' = id t.
Proof. intros [-> | (_ & _ & n & s & _ & _ & ->)]; reflexivity. Qed.

Lemma pauseStepOn_still_running P t t' :
  pauseStepOn P t t' -> status t' = running -> t' = t.
Proof. intros [-> | (_ & _ & n & s & _ & _ & ->)]; [reflexivity | discriminate]. Qed.

Lemma pauseStepOn_not_running P t t' :
  pauseStepOn P t t' -> status t <> running -> t' = t.
Proof. intros [-> | (_ & Hr & _)]; [reflexivity | contradiction]. Qed.

Lemma pauseStepOn_outside P t t' : pauseStepOn P t t' -> ~ P (id t) -> t' = t.
Proof. intros [-> | (HP & _)]; [reflexivity | contradiction]. Qed.

Lemma Forall2_pauseStepOn_ids P (l l' : list Task) :
  Forall2 (pauseStepOn P) l l' -> id <$> l' = id <$> l.
Proof.
  induction 1 as [|a b l l' Hab _ IH]; [reflexivity|].
  simpl. f_equal; [eapply pauseStepOn_id; eauto | exact IH].
Qed.

Lemma findById_pauseStepOn P i (l l' : list Task) k t :
  Forall2 (pauseStepOn P) l l' -> ~ P i ->
  findById i l = Some (k, t) -> findById i l' = Some (k, t).
Proof.
  intros HF HP (Hk & Hid & Hmin)%findById_Some.
  unfold findById. apply list_find_Some.
  destruct (Forall2_lookup_l _ _ _ _ _ HF Hk) as (t' & Hk' & Hstep).
  assert (t' = t) as ->.
  { eapply pauseStepOn_outside; [exact Hstep | congruence]. }
  split; [exact Hk'|]. split; [exact Hid|].
  intros j y Hj Hlt.
  destruct (Forall2_lookup_r _ _ _ _ _ HF Hj) as (y0 & Hj0 & Hstep0).
  rewrite (pauseStepOn_id _ _ _ Hstep0). eauto.
Qed.

Lemma runningCount_pauseStepOn P (l l' : list Task) :
  Forall2 (pauseStepOn P) l l' ->
  (length (filter isRunning l') <= length (filter isRunning l))%nat.
Proof.
  induction 1 as [|a b l l' Hab _ IH]; [reflexivity|].
  rewrite !filter_cons.
  destruct (decide (isRunning b)) as [Hb|Hb].
  - assert (b = a) as -> by exact (pauseStepOn_still_running _ _ _ Hab Hb).
    destruct (decide (isRunning a)); [simpl; lia | contradiction].
  - destruct (decide (isRunning a)); simpl; lia.
Qed.

Lemma pauseUnless_step taskId x w r w' :
  pauseUnless taskId x w = (r, w') ->
  Forall2 (pauseStepOn (fun i => i <> taskId)) (tasks (file w)) (tasks (file w'))
  /\ sameHost w w'.
Proof.
  unfold pauseUnless. destruct (decide (id x <> taskId)) as [Hne|].
  - unfold bind. destruct (taskManager.pauseTask (id x) w) as [r1 w1] eqn:Hp.
    apply pauseTask_step in Hp as [HF HS].
    assert (HF' : Forall2 (pauseStepOn (fun i => i <> taskId))
                    (tasks (file w)) (tasks (file w1))).
    { eapply Forall2_impl; [exact HF|]. intros a b.
      apply pauseStepOn_weaken. intros i <-. exact Hne. }
    destruct r1; intros [= <- <-]; auto.
  - intros [= <- <-]. split; [apply Forall2_pauseStepOn_refl | apply sameHost_refl].
Qed.

Lemma forEach_pause_step taskId rts w r w' :
  forEach rts (pauseUnless taskId) w = (r, w') ->
  Forall2 (pauseStepOn (fun i => i <> taskId)) (tasks (file w)) (tasks (file w'))
  /\ sameHost w w'.
Proof.
  revert w. induction rts as [|x rts IH]; intros w; simpl.
  - intros [= <- <-]. split; [apply Forall2_pauseStepOn_refl | apply sameHost_refl].
  - unfold bind at 1.
    destruct (pauseUnless taskId x w) as [r1 w1] eqn:Hx.
    apply pauseUnless_step in Hx as [HF1 HS1].
    destruct r1 as [[]|e].
    + intros Hrest. apply IH in Hrest as [HF2 HS2]. split.
      * eapply Forall2_pauseStepOn_trans; eauto.
      * eapply sameHost_trans; eauto.
    + intros [= <- <-]. auto.
Qed.

(** ** [startTask] as an equation *)

Lemma startTask_eq taskId w :
  taskManager.startTask taskId w =
  match findById taskId (tasks (file w)) with
  | None => (Throw (TaskNotFound taskId), w)
  | Some (k, t) =>
      if decide (status t = running) then (Throw AlreadyRunning, w) else
      match forEach (filter isRunning (tasks (file w))) (pauseUnless taskId) w with
      | (Throw e, w1) => (Throw e, w1)
      | (Ok _, w1) =>
          let t' := startedTask (now w1) t in
          (Ok (Some t'),
           withFile (ticked w1)
             (mkData (<[k := t']> (tasks (file w1))) (nextId (file w1))
                     (Some taskId)))
      end
  end.
Proof.
  unfold taskManager.startTask. unfold bind at 1. rewrite getTask_eq.
  destruct (findById taskId (tasks (file w))) as [[k t]|] eqn:Hf; simpl; [|reflexivity].
  destruct (decide (status t = running)); [reflexivity|].
  unfold bind at 1. unfold storage.getTasksByStatus at 1. unfold bind at 1. simpl.
  unfold bind at 1.
  change (forEach _ _ w) with
    (forEach (filter isRunning (tasks (file w))) (pauseUnless taskId) w).
  destruct (forEach _ _ w) as [[[]|e] w1] eqn:Hloop; [|reflexivity].
  apply forEach_pause_step in Hloop as [HF _].
  assert (Hf1 : findById taskId (tasks (file w1)) = Some (k, t)).
  { eapply findById_pauseStepOn; [exact HF | | exact Hf]. intros H. apply H. reflexivity. }
  unfold newDate, bind at 1. simpl.
  unfold storage.setLastActiveTask, bind, loadData, saveData. simpl.
  rewrite updateTask_eq. simpl. rewrite Hf1. reflexivity.
Qed.

(** ** At most one running task *)

Lemma uniqueIds_index (l : list Task) j k a b :
  NoDup (id <$> l) -> l !! j = Some a -> l !! k = Some b -> id a = id b -> j = k.
Proof.
  intros Hnd Hj Hk Hab.
  eapply NoDup_lookup; [exact Hnd | |].
  - rewrite list_lookup_fmap, Hj. reflexivity.
  - rewrite list_lookup_fmap, Hk. simpl. congruence.
Qed.

Lemma findById_unique (l : list Task) k t :
  NoDup (id <$> l) -> l !! k = Some t -> findById (id t) l = Some (k, t).
Proof.
  intros Hnd Hk. unfold findById. apply list_find_Some.
  split; [exact Hk|]. split; [reflexivity|].
  intros j y Hj Hlt Hid.
  assert (j = k) by (eapply uniqueIds_index; eauto). lia.
Qed.

(** Once the loop of [startTask] has run to its end, no task carrying the
    id of a snapshot entry other than the target is running any more. *)
Lemma forEach_pause_ok taskId rts w w' :
  uniqueIds (file w) ->
  forEach rts (pauseUnless taskId) w = (Ok tt, w') ->
  forall rt, rt ∈ rts -> id rt <> taskId ->
  forall j t', tasks (file w') !! j = Some t' -> id t' = id rt ->
  status t' <> running.
Proof.
  unfold uniqueIds. revert w. induction rts as [|x rts IH]; intros w Hnd Hrun rt Hin Hne j t' Hj Hid.
  { inversion Hin. }
  simpl in Hrun. unfold bind at 1 in Hrun.
  destruct (pauseUnless taskId x w) as [r1 w1] eqn:Hx.
  destruct r1 as [[]|e]; [|discriminate].
  pose proof (pauseUnless_step _ _ _ _ _ Hx) as [HF1 _].
  pose proof (forEach_pause_step _ _ _ _ _ Hrun) as [HF2 _].
  assert (Hnd1 : NoDup (id <$> tasks (file w1))).
  { rewrite (Forall2_pauseStepOn_ids _ _ _ HF1). exact Hnd. }
  apply elem_of_cons in Hin as [-> | Hin]; [|eapply IH; eauto].
  (* the head of the snapshot: its pause succeeded *)
  unfold pauseUnless in Hx.
  destruct (decide (id x <> taskId)); [|contradiction].
  unfold bind in Hx. rewrite pauseTask_eq in Hx.
  destruct (findById (id x) (tasks (file w))) as [[k t]|] eqn:Hf; [|discriminate].
  destruct (decide (status t <> running)); [discriminate|].
  destruct (last (sessions t)) as [s|]; [|discriminate].
  destruct (endTime s); [discriminate|].
  injection Hx as <-.
  apply findById_Some in Hf as (Hk & Hidt & _).
  destruct (Forall2_lookup_r _ _ _ _ _ HF2 Hj) as (t1 & Hj1 & Hstep).
  simpl in Hj1, Hnd1.
  assert (Hk1 : <[k := pausedTask (now w) t s]> (tasks (file w)) !! k
                = Some (pausedTask (now w) t s)).
  { apply list_lookup_insert_eq. eapply lookup_lt_Some; eauto. }
  assert (j = k).
  { eapply uniqueIds_index; [exact Hnd1 | exact Hj1 | exact Hk1 |].
    rewrite <- (pauseStepOn_id _ _ _ Hstep). simpl. congruence. }
  subst j. rewrite Hk1 in Hj1. injection Hj1 as <-.
  rewrite (pauseStepOn_not_running _ _ _ Hstep); simpl; discriminate.
Qed.

Lemma filter_update_only {A} (P : A -> Prop) `{forall x, Decision (P x)}
    (l : list A) k x y :
  Forall (fun a => ~ P a) l -> l !! k = Some x -> P y ->
  filter P (<[k := y]> l) = [y].
Proof.
  revert k. induction l as [|a l IH]; intros k HF Hk Hy; [discriminate|].
  inversion HF as [|? ? Ha HF']; subst.
  destruct k as [|k]; simpl.
  - rewrite filter_cons_True by exact Hy. f_equal.
    clear -HF'. induction l as [|b l IH]; [reflexivity|].
    inversion HF'; subst. rewrite filter_cons_False by assumption. auto.
  - rewrite filter_cons_False by exact Ha. apply IH; auto.
Qed.

Lemma uniqueIds_update (l : list Task) k t t' :
  l !! k = Some t -> id t' = id t -> id <$> <[k := t']> l = id <$> l.
Proof.
  intros Hk Hid. rewrite list_fmap_insert, Hid.
  apply list_insert_id. rewrite list_lookup_fmap, Hk. reflexivity.
Qed.

Lemma startTask_running taskId w r w' :
  uniqueIds (file w) ->
  taskManager.startTask taskId w = (r, w') ->
  uniqueIds (file w')
  /\ (returned r -> onlyTargetRuns (taskId, r, w'))
  /\ (runningCount (file w') <= Nat.max 1 (runningCount (file w)))%nat.
Proof.
  unfold uniqueIds, runningCount. intros Hnd. rewrite startTask_eq.
  destruct (findById taskId (tasks (file w))) as [[k t]|] eqn:Hf.
  2:{ intros [= <- <-]. repeat split; [exact Hnd | intros [] | lia]. }
  destruct (decide (status t = running)) as [|Hnr].
  { intros [= <- <-]. repeat split; [exact Hnd | intros [] | lia]. }
  destruct (forEach _ _ w) as [[[]|e] w1] eqn:Hloop.
  2:{ intros [= <- <-].
      apply forEach_pause_step in Hloop as [HF _]. split; [|split].
      - rewrite (Forall2_pauseStepOn_ids _ _ _ HF). exact Hnd.
      - intros [].
      - pose proof (runningCount_pauseStepOn _ _ _ HF). unfold isRunning in *. lia. }
  pose proof (forEach_pause_step _ _ _ _ _ Hloop) as [HF _].
  pose proof (findById_Some _ _ _ _ Hf) as (Hk & Hid & _).
  assert (Hk1 : tasks (file w1) !! k = Some t).
  { destruct (Forall2_lookup_l _ _ _ _ _ HF Hk) as (t1 & Hk1 & Hstep).
    rewrite (pauseStepOn_not_running _ _ _ Hstep Hnr) in Hk1. exact Hk1. }
  assert (Hnone : Forall (fun a => ~ isRunning a) (tasks (file w1))).
  { apply Forall_lookup. intros j t1 Hj Hr1.
    destruct (Forall2_lookup_r _ _ _ _ _ HF Hj) as (t0 & Hj0 & Hstep).
    assert (t1 = t0) as -> by exact (pauseStepOn_still_running _ _ _ Hstep Hr1).
    destruct (decide (id t0 = taskId)) as [Heq|Hne].
    - assert (j = k) by (eapply uniqueIds_index; eauto; congruence).
      subst j. rewrite Hk in Hj0. injection Hj0 as ->. contradiction.
    - refine (forEach_pause_ok taskId _ w w1 Hnd Hloop t0 _ Hne j t0 Hj eq_refl Hr1).
      apply list_elem_of_filter. split; [exact Hr1|].
      eapply list_elem_of_lookup_2; eauto. }
  intros [= <- <-]. simpl.
  assert (Hone : filter isRunning (<[k := startedTask (now w1) t]> (tasks (file w1)))
                 = [startedTask (now w1) t]).
  { eapply filter_update_only; [exact Hnone | exact Hk1 | reflexivity]. }
  split; [|split].
  - rewrite (uniqueIds_update _ _ t) by (exact Hk1 || reflexivity).
    rewrite (Forall2_pauseStepOn_ids _ _ _ HF). exact Hnd.
  - intros _. exists (startedTask (now w1) t). simpl. auto.
  - change (fun task : Task => status task = running) with isRunning.
    rewrite Hone. simpl. lia.
Qed.

Lemma startSequence_uniqueIds ids w n c :
  uniqueIds (file w) -> startSequence ids w !! n = Some c ->
  uniqueIds (file (snd c)).
Proof.
  revert w n. induction ids as [|i ids IH]; intros w n Hnd Hn; [discriminate|].
  simpl in Hn.
  destruct (taskManager.startTask i w) as [r w1] eqn:Hs.
  pose proof (startTask_running _ _ _ _ Hnd Hs) as (Hnd1 & _).
  destruct n as [|n]; simpl in Hn.
  - injection Hn as <-. exact Hnd1.
  - eapply IH; eauto.
Qed.

Lemma startSequence_returned ids w n c :
  uniqueIds (file w) -> startSequence ids w !! n = Some c ->
  returned (snd (fst c)) -> onlyTargetRuns c.
Proof.
  revert w n. induction ids as [|i ids IH]; intros w n Hnd Hn; [discriminate|].
  simpl in Hn.
  destruct (taskManager.startTask i w) as [r w1] eqn:Hs.
  pose proof (startTask_running _ _ _ _ Hnd Hs) as (Hnd1 & Hok & _).
  destruct n as [|n]; simpl in Hn.
  - injection Hn as <-. exact Hok.
  - eapply IH; eauto.
Qed.

Lemma startSequence_stays_single ids w n c :
  uniqueIds (file w) -> (runningCount (file w) <= 1)%nat ->
  startSequence ids w !! n = Some c ->
  (runningCount (file (snd c)) <= 1)%nat.
Proof.
  revert w n. induction ids as [|i ids IH]; intros w n Hnd Hle Hn; [discriminate|].
  simpl in Hn.
  destruct (taskManager.startTask i w) as [r w1] eqn:Hs.
  pose proof (startTask_running _ _ _ _ Hnd Hs) as (Hnd1 & _ & Hcount).
  destruct n as [|n]; simpl in Hn.
  - injection Hn as <-. simpl. lia.
  - eapply (IH w1); eauto. lia.
Qed.

Lemma startSequence_suffix ids w m c j :
  startSequence ids w !! m = Some c ->
  startSequence ids w !! (S m + j)%nat
  = startSequence (drop (S m) ids) (snd c) !! j.
Proof.
  revert w m. induction ids as [|i ids IH]; intros w m Hm; [discriminate|].
  simpl in Hm. destruct m as [|m]; simpl in Hm.
  - injection Hm as <-. reflexivity.
  - simpl. apply IH. exact Hm.
Qed.

Lemma onlyTargetRuns_count c : onlyTargetRuns c -> runningCount (file (snd c)) = 1%nat.
Proof.
  intros (t & Hf & _). unfold runningCount.
  change (fun task : Task => status task = running) with isRunning.
  rewrite Hf. reflexivity.
Qed.

Lemma pausedDuring_refl clk lo hi P t : pausedDuring clk lo hi P t t.
Proof. left. reflexivity. Qed.

Lemma pausedDuring_widen clk lo hi lo' hi' (P Q : Z -> Prop) t t' :
  (lo' <= lo)%nat -> (hi <= hi')%nat -> (forall i, P i -> Q i) ->
  pausedDuring clk lo hi P t t' -> pausedDuring clk lo' hi' Q t t'.
Proof.
  intros Hlo Hhi HPQ [-> | (HP & Hr & k & s & Hk & Hlast & Hend & ->)]; [left; reflexivity|].
  right. split; [auto|]. split; [exact Hr|]. exists k, s. repeat split; auto; lia.
Qed.

Lemma pausedDuring_trans clk lo mid hi P t1 t2 t3 :
  (lo <= mid)%nat -> (mid <= hi)%nat ->
  pausedDuring clk lo mid P t1 t2 -> pausedDuring clk mid hi P t2 t3 ->
  pausedDuring clk lo hi P t1 t3.
Proof.
  intros Hlo Hhi H12 H23. destruct H12 as [-> | H12].
  - eapply pausedDuring_widen; [| | |exact H23]; auto.
  - destruct H23 as [-> | (_ & Hr & _)].
    + eapply pausedDuring_widen; [| | |right; exact H12]; auto.
    + destruct H12 as (_ & _ & k & s & _ & _ & _ & ->). discriminate Hr.
Qed.

Lemma Forall2_pausedDuring_trans clk lo mid hi P (l1 l2 l3 : list Task) :
  (lo <= mid)%nat -> (mid <= hi)%nat ->
  Forall2 (pausedDuring clk lo mid P) l1 l2 ->
  Forall2 (pausedDuring clk mid hi P) l2 l3 ->
  Forall2 (pausedDuring clk lo hi P) l1 l3.
Proof.
  intros Hlo Hhi H12. revert l3.
  induction H12 as [|a b l1 l2 Hab _ IH]; intros l3 H23.
  - inversion H23. constructor.
  - inversion H23 as [|? c ? l3' Hbc H23']; subst.
    constructor; [eapply pausedDuring_trans; eauto | auto].
Qed.

Lemma Forall2_pausedDuring_refl clk lo hi P (l : list Task) :
  Forall2 (pausedDuring clk lo hi P) l l.
Proof. apply Forall_Forall2_diag, Forall_forall. intros. apply pausedDuring_refl. Qed.

(** [pauseTask] with the readings it takes. *)
Lemma pauseTask_during i w r w' :
  taskManager.pauseTask i w = (r, w') ->
  clock w' = clock w /\ (tick w <= tick w')%nat
  /\ Forall2 (pausedDuring (clock w) (tick w) (tick w') (eq i))
       (tasks (file w)) (tasks (file w')).
Proof.
  rewrite pauseTask_eq.
  destruct (findById i (tasks (file w))) as [[k t]|] eqn:Hf.
  2:{ intros [= <- <-]. repeat split; [lia | apply Forall2_pausedDuring_refl]. }
  apply findById_Some in Hf as (Hk & Hid & _).
  destruct (decide (status t <> running)) as [|Hrun%dec_stable].
  { intros [= <- <-]. repeat split; [lia | apply Forall2_pausedDuring_refl]. }
  destruct (last (sessions t)) as [s|] eqn:Hlast.
  2:{ intros [= <- <-]. repeat split; [simpl; lia | apply Forall2_pausedDuring_refl]. }
  destruct (endTime s) eqn:Hend.
  { intros [= <- <-]. repeat split; [simpl; lia | apply Forall2_pausedDuring_refl]. }
  intros [= <- <-]. simpl. repeat split; [lia|].
  apply (Forall2_update _ _ k t); [intros; apply pausedDuring_refl | exact Hk |].
  right. split; [congruence|]. split; [exact Hrun|].
  exists (tick w), s. repeat split; auto; lia.
Qed.

Lemma forEach_pause_during taskId rts w r w' :
  forEach rts (pauseUnless taskId) w = (r, w') ->
  clock w' = clock w /\ (tick w <= tick w')%nat
  /\ Forall2 (pausedDuring (clock w) (tick w) (tick w') (fun i => i <> taskId))
       (tasks (file w)) (tasks (file w')).
Proof.
  revert w. induction rts as [|x rts IH]; intros w; simpl.
  { intros [= <- <-]. repeat split; [lia | apply Forall2_pausedDuring_refl]. }
  unfold bind at 1.
  assert (Hx : forall r1 w1, pauseUnless taskId x w = (r1, w1) ->
            clock w1 = clock w /\ (tick w <= tick w1)%nat
            /\ Forall2 (pausedDuring (clock w) (tick w) (tick w1) (fun i => i <> taskId))
                 (tasks (file w)) (tasks (file w1))).
  { intros r1 w1. unfold pauseUnless.
    destruct (decide (id x <> taskId)) as [Hne|].
    - unfold bind. destruct (taskManager.pauseTask (id x) w) as [r0 w0] eqn:Hp.
      apply pauseTask_during in Hp as (Hc & Ht & HF).
      assert (HF' : Forall2 (pausedDuring (clock w) (tick w) (tick w0)
                               (fun i => i <> taskId))
                      (tasks (file w)) (tasks (file w0))).
      { eapply Forall2_impl; [exact HF|]. intros a b.
        apply pausedDuring_widen; [lia | lia |]. intros i <-. exact Hne. }
      destruct r0; intros [= <- <-]; auto.
    - intros [= <- <-]. repeat split; [lia | apply Forall2_pausedDuring_refl]. }
  destruct (pauseUnless taskId x w) as [[[]|e] w1] eqn:Hp.
  - destruct (Hx _ _ eq_refl) as (Hc1 & Ht1 & HF1).
    intros Hrest. apply IH in Hrest as (Hc2 & Ht2 & HF2).
    split; [congruence|]. split; [lia|]. rewrite Hc1 in HF2.
    eapply Forall2_pausedDuring_trans; [exact Ht1 | exact Ht2 | exact HF1 | exact HF2].
  - intros [= <- <-]. apply (Hx _ _ eq_refl).
Qed.

(** What a [startTask] that returns has done, task by task. *)
Lemma startTask_effect taskId w r w' :
  uniqueIds (file w) ->
  taskManager.startTask taskId w = (Ok r, w') ->
  exists hi,
    tick w' = S hi /\ (tick w <= hi)%nat /\ clock w' = clock w
    /\ Forall2 (startEffect (clock w) (tick w) hi taskId)
         (tasks (file w)) (tasks (file w')).
Proof.
  intros Hnd. rewrite startTask_eq.
  destruct (findById taskId (tasks (file w))) as [[k t]|] eqn:Hf; [|discriminate].
  destruct (decide (status t = running)) as [|Hnr]; [discriminate|].
  destruct (forEach _ _ w) as [[[]|e] w1] eqn:Hloop; [|discriminate].
  pose proof (forEach_pause_during _ _ _ _ _ Hloop) as (Hc & Ht & HF).
  pose proof (findById_Some _ _ _ _ Hf) as (Hk & Hid & _).
  cbv zeta. intros [= <- <-]. exists (tick w1). simpl.
  split; [reflexivity|]. split; [exact Ht|]. split; [exact Hc|].
  apply Forall2_same_length_lookup_2.
  { rewrite length_insert. eapply Forall2_length; eauto. }
  intros j a b Hja Hjb.
  destruct (Forall2_lookup_l _ _ _ _ _ HF Hja) as (a1 & Hj1 & Hstep).
  destruct (decide (j = k)) as [->|Hjk].
  - rewrite list_lookup_insert_eq in Hjb by (eapply lookup_lt_Some; eauto).
    injection Hjb as <-. rewrite Hk in Hja. injection Hja as <-.
    left. split; [exact Hid|]. split; [exact Hnr|].
    unfold now. rewrite Hc. reflexivity.
  - rewrite list_lookup_insert_ne in Hjb by congruence.
    rewrite Hj1 in Hjb. injection Hjb as <-.
    assert (Hne : id a <> taskId).
    { intros Heq. apply Hjk. eapply uniqueIds_index; eauto. congruence. }
    right. destruct Hstep as [-> | (_ & Hr & Hex)].
    + destruct (decide (status a = running)) as [Hr|Hr]; [|right; auto].
      exfalso.
      refine (forEach_pause_ok taskId _ w w1 Hnd Hloop a _ Hne j a Hj1 eq_refl Hr).
      apply list_elem_of_filter. split; [exact Hr|].
      eapply list_elem_of_lookup_2; eauto.
    + left. auto.
Qed.

Lemma startSequence_call ids w n c :
  startSequence ids w !! n = Some c ->
  taskManager.startTask (fst (fst c)) (hostBefore ids w n) = (snd (fst c), snd c).
Proof.
  revert w n c. induction ids as [|i ids IH]; intros w n c Hn; [discriminate|].
  simpl in Hn. destruct n as [|n]; simpl in Hn.
  - injection Hn as <-. simpl. apply surjective_pairing.
  - simpl. apply IH. exact Hn.
Qed.

Lemma hostBefore_uniqueIds ids w n :
  uniqueIds (file w) -> uniqueIds (file (hostBefore ids w n)).
Proof.
  revert w n. induction ids as [|i ids IH]; intros w n Hnd; [destruct n; exact Hnd|].
  destruct n as [|n]; [exact Hnd|]. simpl. apply IH.
  destruct (taskManager.startTask i w) as [r w1] eqn:Hs.
  exact (proj1 (startTask_running _ _ _ _ Hnd Hs)).
Qed.

(** C1, as stated, fails.  On a store in which two tasks carry the same
    id, [startTask 2] returns and leaves both running: the loop skips the
    running one, whose id is the target's.  And on a store in which two
    tasks are running already, a call that throws leaves them running. *)
Lemma startTask_leaves_two_running :
  ~ singleRunningRule [2] duplicateIdHost /\ ~ singleRunningRule [1] twoRunningHost.
Proof.
  split; intros H; apply Forall_cons in H as [H _]; vm_compute in H; lia.
Qed.

(** C1. In a run of [startTask] calls on a store whose ids are unique,
    with any clock.  A call that returns has paused every other task that
    was running, at clock readings taken before the one at which it starts
    its target, and has touched no other task; it leaves exactly one
    running task, the one it was asked to start.  A call that throws
    starts nothing: it never leaves more running tasks than there were
    (or than one).  So once at most one task is running -- from the
    outset, or after the first call that returns -- at most one task is
    running after every later call. *)
Theorem startTask_sequence_single_running (ids : list Z) (w : World) :
  uniqueIds (file w) ->
  forall n c, startSequence ids w !! n = Some c ->
  let before := hostBefore ids w n in
  (returned (snd (fst c)) ->
     onlyTargetRuns c
     /\ exists hi,
          tick (snd c) = S hi /\ (tick before <= hi)%nat
          /\ Forall2 (startEffect (clock before) (tick before) hi (fst (fst c)))
               (tasks (file before)) (tasks (file (snd c))))
  /\ (runningCount (file (snd c)) <= Nat.max 1 (runningCount (file before)))%nat
  /\ ((runningCount (file w) <= 1)%nat \/
      (exists m c', (m <= n)%nat /\ startSequence ids w !! m = Some c'
                    /\ returned (snd (fst c'))) ->
      (runningCount (file (snd c)) <= 1)%nat).
Proof.
  intros Hnd n c Hn. cbv zeta.
  pose proof (startSequence_call _ _ _ _ Hn) as Hcall.
  pose proof (hostBefore_uniqueIds ids w n Hnd) as Hndb.
  split; [|split].
  - intros Hret. split; [exact (startSequence_returned _ _ _ _ Hnd Hn Hret)|].
    destruct (snd (fst c)) as [r|e] eqn:Hr; [|destruct Hret].
    destruct (startTask_effect _ _ _ _ Hndb Hcall) as (hi & H1 & H2 & _ & H3).
    exists hi. auto.
  - exact (proj2 (proj2 (startTask_running _ _ _ _ Hndb Hcall))).
  - intros [Hle | (m & c' & Hmn & Hm & Hret)].
    + exact (startSequence_stays_single _ _ _ _ Hnd Hle Hn).
    + pose proof (startSequence_returned _ _ _ _ Hnd Hm Hret) as Hone.
      apply onlyTargetRuns_count in Hone.
      destruct (decide (m = n)) as [->|Hne].
      * rewrite Hm in Hn. injection Hn as <-. lia.
      * assert (Hsplit : n = (S m + (n - S m))%nat) by lia.
        rewrite Hsplit, (startSequence_suffix _ _ _ _ _ Hm) in Hn.
        refine (startSequence_stays_single _ _ _ _ _ _ Hn).
        -- exact (startSequence_uniqueIds _ _ _ _ Hnd Hm).
        -- lia.
Qed.

Lemma startTask_sequence_single_running_witness :
  uniqueIds (file twoRunningHost)
  /\ startSequence [3] twoRunningHost !! 0%nat = Some firstStart
  /\ returned (snd (fst firstStart))
  /\ (runningCount (file (snd firstStart)) <= 1)%nat
  /\ status <$> tasks (file twoRunningHost) = [running; running; paused]
  /\ status <$> tasks (file (snd firstStart)) = [paused; paused; running].
Proof.
  assert (Hu : uniqueIds (file twoRunningHost)).
  { unfold uniqueIds. apply (bool_decide_unpack _). vm_compute. exact I. }
  assert (Hl : startSequence [3] twoRunningHost !! 0%nat = Some firstStart)
    by reflexivity.
  assert (Hr : returned (snd (fst firstStart))) by (vm_compute; exact I).
  split; [exact Hu|]. split; [exact Hl|]. split; [exact Hr|].
  split; [|split; vm_compute; reflexivity].
  apply (proj2 (proj2 (startTask_sequence_single_running [3] twoRunningHost Hu
                         0%nat firstStart Hl))).
  right. exists 0%nat, firstStart.
  split; [lia|]. split; [exact Hl | exact Hr].
Defined.

(** ** The other engine calls as equations *)

Lemma stopTask_eq i w :
  taskManager.stopTask i w =
  match findById i (tasks (file w)) with
  | None => (Throw (TaskNotFound i), w)
  | Some (k, t) =>
      if decide (status t = running) then
        match taskManager.pauseTask i w with
        | (Ok _, w1) => stopWrite i w1
        | (Throw e, w1) => (Throw e, w1)
        end
      else stopWrite i w
  end.
Proof.
  unfold taskManager.stopTask. unfold bind at 1. rewrite getTask_eq.
  destruct (findById i (tasks (file w))) as [[k t]|] eqn:Hf; simpl; [|reflexivity].
  assert (Hw : forall w1,
    (now0 <- newDate ;;
     storage.updateTask i
       {| u_status := Some stopped; u_sessions := None; u_totalTime := None;
          u_lastStarted := None; u_lastPaused := None;
          u_stoppedAt := Some (Some now0) |}) w1 = stopWrite i w1).
  { intros w1. unfold bind, newDate, stopWrite. simpl. rewrite updateTask_eq. simpl.
    destruct (findById i (tasks (file w1))) as [[k1 t1]|]; reflexivity. }
  destruct (decide (status t = running)) as [Hr|Hr].
  - unfold bind at 1. unfold bind at 1.
    destruct (taskManager.pauseTask i w) as [[r1|e] w1]; [|reflexivity].
    simpl. apply Hw.
  - unfold bind at 1. simpl. apply Hw.
Qed.

Lemma unstopTask_eq i w :
  taskManager.unstopTask i w =
  match findById i (tasks (file w)) with
  | None => (Throw (TaskNotFound i), w)
  | Some (k, t) =>
      if decide (status t <> stopped) then (Throw NotStopped, w) else
      (Ok (Some (unstoppedTask t)),
       withFile w (mkData (<[k := unstoppedTask t]> (tasks (file w)))
                          (nextId (file w)) (lastActiveTaskId (file w))))
  end.
Proof.
  unfold taskManager.unstopTask, bind. rewrite getTask_eq.
  destruct (findById i (tasks (file w))) as [[k t]|] eqn:Hf; simpl; [|reflexivity].
  destruct (decide (status t <> stopped)); [reflexivity|].
  rewrite updateTask_eq, Hf. reflexivity.
Qed.

Lemma createTask_eq name0 url0 w :
  taskManager.createTask name0 url0 w =
  if decide (name0 = EmptyString \/ trim name0 = EmptyString)
  then (Throw NameRequired, w)
  else
    let newTask :=
      {| id := nextId (file w); name := trim name0; url := trim url0;
         status := created; sessions := []; totalTime := 0; createdAt := now w;
         lastStarted := None; lastPaused := None; stoppedAt := None |} in
    (Ok newTask,
     withFile (ticked w)
       (mkData (tasks (file w) ++ [newTask]) (nextId (file w) + 1)
               (lastActiveTaskId (file w)))).
Proof.
  unfold taskManager.createTask.
  destruct (decide (name0 = EmptyString \/ trim name0 = EmptyString)); reflexivity.
Qed.

(** ** Accounted time *)

Lemma Forall2_update_r {A} (R : A -> A -> Prop) (l l' : list A) k x y :
  Forall2 R l l' -> l !! k = Some x -> R x y -> Forall2 R l (<[k := y]> l').
Proof.
  intros HF Hk Hxy. rewrite <- (list_insert_id l k x Hk).
  apply Forall2_insert; assumption.
Qed.

Lemma closedTime_app l l' : closedTime (l ++ l') = closedTime l + closedTime l'.
Proof. induction l as [|s l IH]; simpl; [reflexivity | rewrite IH; lia]. Qed.

Lemma close_last (l : list Session) s s' :
  last l = Some s -> exists l0, l = l0 ++ [s] /\ <[pred (length l) := s']> l = l0 ++ [s'].
Proof.
  intros (l0 & ->)%last_Some. exists l0. split; [reflexivity|].
  rewrite length_app. simpl.
  replace (pred (length l0 + 1)) with (length l0 + 0)%nat by lia.
  rewrite insert_app_r. reflexivity.
Qed.

Lemma totalTimeOk_paused n t s :
  last (sessions t) = Some s -> endTime s = None ->
  totalTimeOk t -> totalTimeOk (pausedTask n t s).
Proof.
  unfold totalTimeOk. intros Hlast Hend Hok. simpl.
  destruct (close_last _ _
              {| startTime := startTime s; endTime := Some n;
                 duration := (n - startTime s) / 1000 |} Hlast) as (l0 & Hl & ->).
  rewrite Hok, Hl, !closedTime_app. simpl. rewrite Hend. lia.
Qed.

Lemma totalTimeOk_started n t : totalTimeOk t -> totalTimeOk (startedTask n t).
Proof.
  unfold totalTimeOk. simpl. intros ->. rewrite closedTime_app. simpl. lia.
Qed.

Lemma pauseStepOn_opStep P o t t' :
  closesSession o -> pauseStepOn P t t' -> opStep o t t'.
Proof.
  intros Ho [-> | (_ & Hr & n & s & Hlast & Hend & ->)];
    [apply step_same | apply step_pause; assumption].
Qed.

Lemma Forall2_opStep_refl o (l : list Task) : Forall2 (opStep o) l l.
Proof. apply Forall_Forall2_diag, Forall_forall. intros. apply step_same. Qed.

Lemma Forall2_pauseStepOn_opStep P o (l l' : list Task) :
  closesSession o -> Forall2 (pauseStepOn P) l l' -> Forall2 (opStep o) l l'.
Proof.
  intros Ho HF. eapply Forall2_impl; [exact HF|]. intros a b.
  apply pauseStepOn_opStep. exact Ho.
Qed.

Lemma stopWrite_opStep i w k t :
  findById i (tasks (file w)) = Some (k, t) -> status t <> running ->
  Forall2 (opStep (StopTask i)) (tasks (file w)) (tasks (file (snd (stopWrite i w))))
  /\ nextId (file (snd (stopWrite i w))) = nextId (file w).
Proof.
  intros Hf Hnr. unfold stopWrite. rewrite Hf. simpl. split; [|reflexivity].
  apply findById_Some in Hf as (Hk & Hid & _).
  eapply Forall2_update; [intros; apply step_same | exact Hk |].
  apply step_stop; [congruence | exact Hnr].
Qed.

(** A call that ends without having written: every task is where it was. *)
Ltac unchanged Hsame :=
  intros [= <- <-]; apply Hsame; [apply Forall2_opStep_refl | reflexivity].

(** The tasks after an operation: the tasks before, each one step on, and
    behind them the task that [createTask] made, if it made one. *)
Lemma runOp_opStep o w r w' :
  runOp o w = (r, w') ->
  exists front extra,
    tasks (file w') = front ++ extra
    /\ Forall2 (opStep o) (tasks (file w)) front
    /\ ((extra = [] /\ nextId (file w') = nextId (file w))
        \/ (exists n u, extra = [createdTask (nextId (file w)) n u (now w)]
                        /\ nextId (file w') = nextId (file w) + 1)).
Proof.
  assert (Hsame : forall l n, Forall2 (opStep o) (tasks (file w)) l ->
            n = nextId (file w) ->
            exists front extra, l = front ++ extra
              /\ Forall2 (opStep o) (tasks (file w)) front
              /\ ((extra = [] /\ n = nextId (file w))
                  \/ (exists n0 u, extra = [createdTask (nextId (file w)) n0 u (now w)]
                                   /\ n = nextId (file w) + 1))).
  { intros l n Hl Hn. exists l, []. rewrite app_nil_r. auto. }
  destruct o as [n u|i|i|i|i]; unfold runOp, bind.
  - rewrite createTask_eq.
    destruct (decide (n = EmptyString \/ trim n = EmptyString)).
    + unchanged Hsame.
    + intros [= <- <-]. simpl. eexists _, [_].
      split; [reflexivity|]. split; [apply Forall2_opStep_refl|].
      right. exists (trim n), (trim u). split; reflexivity.
  - rewrite startTask_eq.
    destruct (findById i (tasks (file w))) as [[k t]|] eqn:Hf.
    2:{ unchanged Hsame. }
    destruct (decide (status t = running)) as [|Hnr].
    { unchanged Hsame. }
    destruct (forEach _ _ w) as [[[]|e] w1] eqn:Hloop;
      apply forEach_pause_step in Hloop as [HF (_ & _ & _ & Hnext)];
      intros [= <- <-]; simpl; (apply Hsame; [|exact Hnext]).
    + apply findById_Some in Hf as (Hk & Hid & _).
      eapply Forall2_update_r; [| exact Hk |].
      * eapply Forall2_pauseStepOn_opStep; [exact I | exact HF].
      * apply step_start; [congruence | exact Hnr].
    + eapply Forall2_pauseStepOn_opStep; [exact I | exact HF].
  - destruct (taskManager.pauseTask i w) as [r1 w1] eqn:Hp.
    apply pauseTask_step in Hp as [HF (_ & _ & _ & Hnext)].
    intros Hr. assert (w' = w1) as -> by (destruct r1; unfold ret in Hr; congruence).
    apply Hsame; [|exact Hnext].
    eapply Forall2_pauseStepOn_opStep; [exact I | exact HF].
  - rewrite stopTask_eq.
    destruct (findById i (tasks (file w))) as [[k t]|] eqn:Hf.
    2:{ unchanged Hsame. }
    destruct (decide (status t = running)) as [Hr|Hnr].
    + rewrite pauseTask_eq, Hf.
      destruct (decide (status t <> running)); [contradiction|].
      destruct (last (sessions t)) as [s|] eqn:Hlast.
      2:{ unchanged Hsame. }
      destruct (endTime s) eqn:Hend.
      { unchanged Hsame. }
      set (w1 := withFile (ticked w) _).
      assert (Hf1 : findById i (tasks (file w1)) = Some (k, pausedTask (now w) t s)).
      { simpl. apply (findById_update _ _ _ t); [exact Hf|].
        apply findById_Some in Hf. simpl. tauto. }
      unfold stopWrite. rewrite Hf1. unfold ret. intros [= <- <-]. simpl.
      apply Hsame; [|reflexivity].
      rewrite list_insert_insert_eq.
      apply findById_Some in Hf as (Hk & Hid & _).
      eapply Forall2_update; [intros; apply step_same | exact Hk |].
      apply step_pause_stop; [congruence | assumption..].
    + pose proof (stopWrite_opStep i w k t Hf Hnr) as [HF Hnext].
      destruct (stopWrite i w) as [r2 w2].
      intros Hres. assert (w' = w2) as -> by (destruct r2; unfold ret in Hres; congruence).
      apply Hsame; [exact HF | exact Hnext].
  - rewrite unstopTask_eq.
    destruct (findById i (tasks (file w))) as [[k t]|] eqn:Hf.
    2:{ unchanged Hsame. }
    destruct (decide (status t <> stopped)) as [|Hst%dec_stable].
    { unchanged Hsame. }
    intros [= <- <-]. simpl. apply Hsame; [|reflexivity].
    apply findById_Some in Hf as (Hk & Hid & _).
    eapply Forall2_update; [intros; apply step_same | exact Hk |].
    apply step_unstop; [congruence | exact Hst].
Qed.

Lemma opStep_okStep o t t' : opStep o t t' -> okStep o t t'.
Proof.
  intros [ | n s Ho Hr Hlast Hend | n Ho Hnr | n Ho Hnr
         | n n' s Ho Hr Hlast Hend | Ho Hst ].
  - repeat split; auto.
  - split.
    + split; [reflexivity|]. right. split; [exact Hr|]. split; [discriminate | exact Ho].
    + apply totalTimeOk_paused; assumption.
  - split; [split; [reflexivity | left; reflexivity]|]. apply totalTimeOk_started.
  - split; [split; [reflexivity | left; reflexivity]|]. intros H; exact H.
  - split.
    + split; [reflexivity|]. right. split; [exact Hr|].
      split; [discriminate | rewrite Ho; exact I].
    + intros H. exact (totalTimeOk_paused n t s Hlast Hend H).
  - split; [split; [reflexivity | left; reflexivity]|]. intros H; exact H.
Qed.

Lemma runOp_okStep o w r w' :
  runOp o w = (r, w') ->
  exists front extra,
    tasks (file w') = front ++ extra
    /\ Forall2 (okStep o) (tasks (file w)) front
    /\ Forall totalTimeOk extra.
Proof.
  intros (front & extra & Htasks & HF & Hextra)%runOp_opStep.
  exists front, extra. split; [exact Htasks|]. split.
  - eapply Forall2_impl; [exact HF|]. intros a b. apply opStep_okStep.
  - destruct Hextra as [[-> _] | (n & u & -> & _)]; repeat constructor.
Qed.

Lemma startTask_target_totalTime i w k t :
  findById i (tasks (file w)) = Some (k, t) ->
  exists t', tasks (file (snd (taskManager.startTask i w))) !! k = Some t'
             /\ totalTime t' = totalTime t.
Proof.
  intros Hf. rewrite startTask_eq, Hf.
  pose proof (findById_Some _ _ _ _ Hf) as (Hk & _).
  destruct (decide (status t = running)) as [|Hnr]; [simpl; eauto|].
  destruct (forEach _ _ w) as [[[]|e] w1] eqn:Hloop;
    apply forEach_pause_step in Hloop as [HF _];
    destruct (Forall2_lookup_l _ _ _ _ _ HF Hk) as (t1 & Hk1 & Hstep);
    rewrite (pauseStepOn_not_running _ _ _ Hstep Hnr) in Hk1; simpl.
  - exists (startedTask (now w1) t). split; [|reflexivity].
    apply list_lookup_insert_eq. eapply lookup_lt_Some; eauto.
  - eauto.
Qed.

(** C2, as stated, fails for [startTask]: on [switchHost], where task 1 has
    been running for three seconds, [startTask 2] pauses task 1 and takes
    its [totalTime] from 65 to 68. *)
Lemma startTask_changes_totalTime :
  ~ totalTimeUntouchedBy (StartTask 2) switchHost.
Proof.
  intros H.
  assert (Hafter : tasks (file (snd (runOp (StartTask 2) switchHost))) !! 0%nat
                   = Some (pausedTask 5000 runningSample (sampleOpenSession 2000)))
    by reflexivity.
  specialize (H 0%nat runningSample _ eq_refl Hafter). discriminate H.
Qed.

(** C2. Every operation of the engine keeps, for every task, [totalTime]
    equal to the sum of the durations of its closed sessions (an open
    session contributes nothing to [closedTime]).  A task's [totalTime]
    differs after an operation only if the task was running before it and
    is not running after it, and the operation is [pauseTask], [stopTask]
    or [startTask] (which pauses the other running tasks through
    [pauseTask]); [createTask] and [unstopTask] change no [totalTime], and
    [startTask] does not change the [totalTime] of the task it starts. *)
Theorem totalTime_closed_sessions_only (o : Op) (w : World) :
  Forall totalTimeOk (tasks (file w)) ->
  Forall totalTimeOk (tasks (file (snd (runOp o w))))
  /\ (forall k t, tasks (file w) !! k = Some t ->
        exists t', tasks (file (snd (runOp o w))) !! k = Some t' /\ timeStep o t t')
  /\ (forall i k t, o = StartTask i -> findById i (tasks (file w)) = Some (k, t) ->
        exists t', tasks (file (snd (runOp o w))) !! k = Some t'
                   /\ totalTime t' = totalTime t).
Proof.
  intros Hok.
  destruct (runOp o w) as [r w'] eqn:Hrun.
  pose proof (runOp_okStep _ _ _ _ Hrun) as (front & extra & Htasks & HF & Hextra).
  simpl. split; [|split].
  - rewrite Htasks. apply Forall_app. split; [|exact Hextra].
    clear -HF Hok. induction HF as [|a b l l' [_ Hab] _ IH]; [constructor|].
    inversion Hok; subst. constructor; auto.
  - intros k t Hk.
    destruct (Forall2_lookup_l _ _ _ _ _ HF Hk) as (t' & Hk' & [Hstep _]).
    exists t'. split; [|exact Hstep].
    rewrite Htasks. apply lookup_app_l_Some. exact Hk'.
  - intros i k t -> Hf.
    pose proof (startTask_target_totalTime _ _ _ _ Hf) as (t' & Hk' & Ht').
    exists t'. split; [|exact Ht'].
    unfold runOp, bind in Hrun.
    destruct (taskManager.startTask i w) as [[r1|e] w1]; unfold ret in Hrun;
      simpl in Hk'; congruence.
Qed.

Lemma totalTime_closed_sessions_only_witness :
  Forall totalTimeOk (tasks (file twoRunningHost))
  /\ Forall totalTimeOk (tasks (file (snd (runOp (StartTask 3) twoRunningHost)))).
Proof.
  assert (H : Forall totalTimeOk (tasks (file twoRunningHost)))
    by (repeat constructor).
  split; [exact H|].
  exact (proj1 (totalTime_closed_sessions_only (StartTask 3) twoRunningHost H)).
Defined.

(** ** Create, start, wait, pause *)

Lemma uniqueIds_filter (P : Task -> Prop) `{forall t, Decision (P t)} (l : list Task) :
  NoDup (id <$> l) -> NoDup (id <$> filter P l).
Proof.
  induction l as [|a l IH]; [intros; constructor|].
  simpl. intros [Hnotin Hnd]%NoDup_cons. rewrite filter_cons.
  destruct (decide (P a)); [|auto].
  simpl. apply NoDup_cons. split; [|auto].
  intros (b & Hab & Hb)%list_elem_of_fmap. apply Hnotin.
  apply list_elem_of_fmap. exists b. split; [exact Hab|].
  apply list_elem_of_filter in Hb. tauto.
Qed.

Lemma pauseTask_succeeds (w : World) k t :
  uniqueIds (file w) -> tasks (file w) !! k = Some t ->
  status t = running -> lastSessionOpen t ->
  exists s, last (sessions t) = Some s /\ endTime s = None /\
    taskManager.pauseTask (id t) w =
    (Ok (Some (pausedTask (now w) t s)),
     withFile (ticked w)
       (mkData (<[k := pausedTask (now w) t s]> (tasks (file w)))
               (nextId (file w)) (Some (id t)))).
Proof.
  intros Hnd Hk Hr (s & Hlast & Hend). exists s. split; [exact Hlast|].
  split; [exact Hend|].
  rewrite pauseTask_eq, (findById_unique _ _ _ Hnd Hk).
  destruct (decide (status t <> running)); [contradiction|].
  rewrite Hlast, Hend. reflexivity.
Qed.

Lemma forEach_pause_succeeds taskId rts w :
  uniqueIds (file w) -> NoDup (id <$> rts) ->
  (forall rt, rt ∈ rts -> id rt <> taskId ->
     rt ∈ tasks (file w) /\ status rt = running /\ lastSessionOpen rt) ->
  exists w', forEach rts (pauseUnless taskId) w = (Ok tt, w').
Proof.
  revert w. induction rts as [|x rts IH]; intros w Hnd Hrts Hall; simpl.
  { eexists. reflexivity. }
  apply NoDup_cons in Hrts as [Hx Hrts].
  unfold bind at 1. unfold pauseUnless at 1.
  destruct (decide (id x <> taskId)) as [Hne|Heq].
  - destruct (Hall x) as (Hin & Hr & Hopen); [left | exact Hne |].
    apply list_elem_of_lookup in Hin as [k Hk].
    destruct (pauseTask_succeeds w k x Hnd Hk Hr Hopen) as (s & _ & _ & Hp).
    unfold bind at 1. rewrite Hp. simpl.
    apply IH; [| exact Hrts |].
    + unfold uniqueIds. simpl.
      rewrite (uniqueIds_update _ _ x) by (exact Hk || reflexivity). exact Hnd.
    + intros rt Hrt Hrtne.
      destruct (Hall rt) as (Hin & Hr' & Hopen'); [right; exact Hrt | exact Hrtne |].
      split; [|auto]. simpl.
      apply list_elem_of_lookup in Hin as [k' Hk'].
      apply list_elem_of_lookup. exists k'.
      rewrite list_lookup_insert_ne; [exact Hk'|].
      intros ->. rewrite Hk in Hk'. injection Hk' as ->.
      apply Hx. apply list_elem_of_fmap. eauto.
  - simpl. apply IH; [exact Hnd | exact Hrts |].
    intros rt Hrt. apply Hall. right. exact Hrt.
Qed.

(** On a store where every running task can be paused, [startTask] of a
    task that is not running returns. *)
Lemma startTask_succeeds (w : World) k t :
  uniqueIds (file w) -> runningHaveOpenSession (file w) ->
  tasks (file w) !! k = Some t -> status t <> running ->
  exists w1,
    forEach (filter isRunning (tasks (file w))) (pauseUnless (id t)) w = (Ok tt, w1)
    /\ taskManager.startTask (id t) w =
       (Ok (Some (startedTask (now w1) t)),
        withFile (ticked w1)
          (mkData (<[k := startedTask (now w1) t]> (tasks (file w1)))
                  (nextId (file w1)) (Some (id t)))).
Proof.
  intros Hnd Hopen Hk Hnr.
  destruct (forEach_pause_succeeds (id t) (filter isRunning (tasks (file w))) w)
    as [w1 Hloop].
  - exact Hnd.
  - apply uniqueIds_filter. exact Hnd.
  - intros rt [Hr Hin]%list_elem_of_filter _.
    split; [exact Hin|]. split; [exact Hr|].
    unfold runningHaveOpenSession in Hopen. rewrite Forall_forall in Hopen. auto.
  - exists w1. split; [exact Hloop|].
    rewrite startTask_eq, (findById_unique _ _ _ Hnd Hk).
    destruct (decide (status t = running)); [contradiction|].
    rewrite Hloop. reflexivity.
Qed.

(** C3. On a store with unique ids, a fresh [nextId] and every running task
    pausable: [createTask(name)] (any non-blank name, "A" included), then
    [startTask(id)] of the new task, then [pauseTask(id)] all return; if
    [tStart] and [tPause] are the clock readings taken by the start and by
    the pause (so that the wait is [tPause - tStart] milliseconds), the task
    ends with [totalTime = floor((tPause - tStart) / 1000)] and exactly one
    session, closed, whose duration is that [totalTime]. *)
Theorem create_start_pause_round_trip (w : World) (name0 : string) :
  uniqueIds (file w) ->
  freshNextId (file w) ->
  runningHaveOpenSession (file w) ->
  trim name0 <> EmptyString ->
  let i := nextId (file w) in
  let w1 := snd (taskManager.createTask name0 EmptyString w) in
  let w2 := snd (taskManager.startTask i w1) in
  let w3 := snd (taskManager.pauseTask i w2) in
  let tStart := clock w (tick w2 - 1) in
  let tPause := clock w (tick w2) in
  (exists a, fst (taskManager.createTask name0 EmptyString w) = Ok a /\ id a = i)
  /\ returned (fst (taskManager.startTask i w1))
  /\ exists t3,
       fst (taskManager.pauseTask i w2) = Ok (Some t3)
       /\ fst (storage.getTask i w3) = Ok (Some t3)
       /\ status t3 = paused
       /\ totalTime t3 = (tPause - tStart) / 1000
       /\ sessions t3 = [{| startTime := tStart; endTime := Some tPause;
                            duration := totalTime t3 |}].
Proof.
  intros Hnd Hfresh Hopen Hname. cbv zeta.
  rewrite createTask_eq.
  destruct (decide (name0 = EmptyString \/ trim name0 = EmptyString)) as [[->|Hb]|_];
    [exfalso; apply Hname; reflexivity | contradiction |].
  cbv zeta. cbn [fst snd].
  set (i := nextId (file w)).
  set (a := {| id := i; name := trim name0; url := trim EmptyString;
               status := created; sessions := []; totalTime := 0;
               createdAt := now w; lastStarted := None; lastPaused := None;
               stoppedAt := None |}).
  set (w1 := withFile (ticked w)
               (mkData (tasks (file w) ++ [a]) (i + 1) (lastActiveTaskId (file w)))).
  split; [exists a; split; reflexivity|].
  set (k := length (tasks (file w))).
  assert (Hk : tasks (file w1) !! k = Some a).
  { simpl. unfold k. rewrite lookup_app_r by lia. rewrite Nat.sub_diag. reflexivity. }
  assert (Hnd1 : uniqueIds (file w1)).
  { unfold uniqueIds. simpl. rewrite fmap_app. apply NoDup_app.
    split; [exact Hnd|]. split; [|apply NoDup_singleton].
    intros x (t & -> & Ht)%list_elem_of_fmap Hx.
    simpl in Hx. apply list_elem_of_singleton in Hx.
    unfold freshNextId in Hfresh. rewrite Forall_forall in Hfresh.
    exact (Hfresh t Ht Hx). }
  assert (Hopen1 : runningHaveOpenSession (file w1)).
  { unfold runningHaveOpenSession. simpl. apply Forall_app. split; [exact Hopen|].
    constructor; [discriminate | constructor]. }
  destruct (startTask_succeeds w1 k a Hnd1 Hopen1 Hk) as (w1' & Hloop & Hstart);
    [discriminate|].
  change (id a) with i in Hstart, Hloop.
  rewrite Hstart. cbn [fst snd].
  split; [exact I|].
  pose proof (forEach_pause_step _ _ _ _ _ Hloop) as (HF & Hclock & _ & _ & _).
  set (b := startedTask (now w1') a).
  set (w2 := withFile (ticked w1')
               (mkData (<[k := b]> (tasks (file w1'))) (nextId (file w1')) (Some i))).
  assert (Hlen : (k < length (tasks (file w1')))%nat).
  { rewrite <- (Forall2_length _ _ _ HF). eapply lookup_lt_Some; eauto. }
  assert (Hk2 : tasks (file w2) !! k = Some b).
  { simpl. apply list_lookup_insert_eq. exact Hlen. }
  assert (Hk1' : tasks (file w1') !! k = Some a).
  { destruct (Forall2_lookup_l _ _ _ _ _ HF Hk) as (a' & Hk' & Hstep).
    rewrite (pauseStepOn_not_running _ _ _ Hstep) in Hk'; [exact Hk' | discriminate]. }
  assert (Hnd2 : uniqueIds (file w2)).
  { unfold uniqueIds. simpl.
    rewrite (uniqueIds_update _ _ a) by (exact Hk1' || reflexivity).
    rewrite (Forall2_pauseStepOn_ids _ _ _ HF). exact Hnd1. }
  destruct (pauseTask_succeeds w2 k b Hnd2 Hk2 eq_refl) as (s & Hlast & Hend & Hpause).
  { eexists. split; [apply last_snoc | reflexivity]. }
  change (id b) with i in Hpause.
  simpl in Hlast. injection Hlast as <-.
  rewrite Hpause. cbn [fst snd].
  set (t3 := pausedTask (now w2) b _).
  exists t3. split; [reflexivity|].
  assert (HtS : clock w (tick w2 - 1) = now w1').
  { unfold now. simpl. rewrite Hclock, Nat.sub_0_r. reflexivity. }
  assert (HtP : clock w (tick w2) = now w2).
  { unfold now. simpl. rewrite Hclock. reflexivity. }
  split; [|split; [reflexivity|]].
  - rewrite getTask_eq. cbn [fst].
    assert (Hf : findById (id t3) (<[k := t3]> (tasks (file w2))) = Some (k, t3)).
    { apply findById_unique.
      - rewrite (uniqueIds_update _ _ b) by (exact Hk2 || reflexivity). exact Hnd2.
      - apply list_lookup_insert_eq. simpl. rewrite length_insert. exact Hlen. }
    change (id t3) with i in Hf.
    change (tasks (file _)) with (<[k := t3]> (tasks (file w2))).
    rewrite Hf. reflexivity.
  - rewrite HtS, HtP. simpl. split; [lia|]. repeat f_equal; lia.
Qed.

Lemma create_start_pause_round_trip_witness :
  uniqueIds (file twoRunningHost)
  /\ freshNextId (file twoRunningHost)
  /\ runningHaveOpenSession (file twoRunningHost)
  /\ trim "A" <> EmptyString
  /\ returned (fst (taskManager.startTask (nextId (file twoRunningHost))
                      (snd (taskManager.createTask "A" EmptyString twoRunningHost)))).
Proof.
  assert (H1 : uniqueIds (file twoRunningHost)).
  { unfold uniqueIds. apply (bool_decide_unpack _). vm_compute. exact I. }
  assert (H2 : freshNextId (file twoRunningHost)).
  { unfold freshNextId. apply (bool_decide_unpack _). vm_compute. exact I. }
  assert (H3 : runningHaveOpenSession (file twoRunningHost)).
  { unfold runningHaveOpenSession. simpl.
    repeat (constructor;
            [first [discriminate | intros _; eexists; split; reflexivity]|]).
    constructor. }
  assert (H4 : trim "A" <> EmptyString) by discriminate.
  split; [exact H1|]. split; [exact H2|]. split; [exact H3|]. split; [exact H4|].
  exact (proj1 (proj2 (create_start_pause_round_trip twoRunningHost "A" H1 H2 H3 H4))).
Defined.

(** ** Stopping *)

Lemma stopWrite_found i w k t :
  findById i (tasks (file w)) = Some (k, t) ->
  fst (stopWrite i w) = Ok (Some (stoppedTask (now w) t))
  /\ fst (storage.getTask i (snd (stopWrite i w))) = Ok (Some (stoppedTask (now w) t))
  /\ tick (snd (stopWrite i w)) = S (tick w)
  /\ clock (snd (stopWrite i w)) = clock w.
Proof.
  intros Hf. unfold stopWrite. rewrite Hf. cbn [fst snd].
  split; [reflexivity|]. split; [|split; reflexivity].
  rewrite getTask_eq. cbn [fst file withFile tasks].
  rewrite (findById_update _ _ _ _ (stoppedTask (now w) t) Hf); [reflexivity|].
  apply findById_Some in Hf. simpl. tauto.
Qed.

(** C10, as stated, fails for a running task none of whose sessions is
    open: on [runningClosedHost] the pause inside [stopTask] throws 'No
    active session found', and the task is not stopped. *)
Lemma stopTask_running_without_open_session :
  ~ stopRule runningClosedHost 1.
Proof.
  intros H. destruct (H runningClosedSample eq_refl) as (t' & Hs & _).
  assert (Hthrow : fst (taskManager.stopTask 1 runningClosedHost) = Throw NoActiveSession)
    by reflexivity.
  rewrite Hthrow in Hs. discriminate Hs.
Qed.

(** C10. For the task found under [taskId]: when it is not running --
    also when it is [stopped] already or still [created] -- or is running
    with its last session open, [stopTask taskId] returns the updated
    task, which is the one now stored: its status is [stopped] and its
    [stoppedAt] is the clock reading the call took last; a running task is
    paused first, and a task that is not running keeps its sessions and its
    [totalTime].  When the task is running and its last session is not
    open, the pause inside [stopTask] throws 'No active session found':
    the data file is as it was and the task is still running. *)
Theorem stopTask_any_status (w : World) (taskId : Z) (t : Task) :
  fst (storage.getTask taskId w) = Ok (Some t) ->
  let w' := snd (taskManager.stopTask taskId w) in
  ((status t = running -> lastSessionOpen t) ->
   exists t',
     fst (taskManager.stopTask taskId w) = Ok (Some t')
     /\ fst (storage.getTask taskId w') = Ok (Some t')
     /\ status t' = stopped
     /\ stoppedAt t' = Some (clock w (tick w' - 1))
     /\ (status t <> running ->
         sessions t' = sessions t /\ totalTime t' = totalTime t
         /\ tick w' = S (tick w)))
  /\ (status t = running -> ~ lastSessionOpen t ->
      fst (taskManager.stopTask taskId w) = Throw NoActiveSession
      /\ file w' = file w
      /\ fst (storage.getTask taskId w') = Ok (Some t)).
Proof.
  intros Hget. cbv zeta. rewrite getTask_eq in Hget. simpl in Hget.
  rewrite stopTask_eq.
  destruct (findById taskId (tasks (file w))) as [[k t0]|] eqn:Hf; [|discriminate].
  simpl in Hget. injection Hget as ->.
  split.
  - intros Hopen.
    destruct (decide (status t = running)) as [Hr|Hnr].
    + destruct (Hopen Hr) as (s & Hlast & Hend).
      rewrite pauseTask_eq, Hf.
      destruct (decide (status t <> running)); [contradiction|].
      rewrite Hlast, Hend.
      set (w1 := withFile (ticked w) _).
      assert (Hf1 : findById taskId (tasks (file w1)) = Some (k, pausedTask (now w) t s)).
      { simpl. apply (findById_update _ _ _ t); [exact Hf|].
        apply findById_Some in Hf. simpl. tauto. }
      destruct (stopWrite_found _ _ _ _ Hf1) as (H1 & H2 & H3 & H4).
      exists (stoppedTask (now w1) (pausedTask (now w) t s)).
      split; [exact H1|]. split; [exact H2|]. split; [reflexivity|].
      split; [|contradiction].
      rewrite H3. replace (S (tick w1) - 1)%nat with (tick w1) by lia. reflexivity.
    + destruct (stopWrite_found _ _ _ _ Hf) as (H1 & H2 & H3 & H4).
      exists (stoppedTask (now w) t).
      split; [exact H1|]. split; [exact H2|]. split; [reflexivity|].
      split; [|intros _; repeat split; exact H3].
      rewrite H3. replace (S (tick w) - 1)%nat with (tick w) by lia. reflexivity.
  - intros Hr Hclosed.
    destruct (decide (status t = running)); [|contradiction].
    rewrite pauseTask_eq, Hf.
    destruct (decide (status t <> running)); [contradiction|].
    assert (Hsame : fst (storage.getTask taskId (ticked w)) = Ok (Some t))
      by (rewrite getTask_eq; simpl; rewrite Hf; reflexivity).
    destruct (last (sessions t)) as [s|] eqn:Hlast; [|auto].
    destruct (endTime s) eqn:Hend; [auto|].
    exfalso. apply Hclosed. exists s. auto.
Qed.

Lemma stopTask_any_status_witness :
  fst (storage.getTask 1 pausedHost) = Ok (Some pausedSample)
  /\ (status pausedSample = running -> lastSessionOpen pausedSample)
  /\ (exists t',
       fst (taskManager.stopTask 1 pausedHost) = Ok (Some t')
       /\ fst (storage.getTask 1 (snd (taskManager.stopTask 1 pausedHost))) = Ok (Some t')
       /\ status t' = stopped
       /\ stoppedAt t' = Some (clock pausedHost
                                 (tick (snd (taskManager.stopTask 1 pausedHost)) - 1))
       /\ (status pausedSample <> running ->
           sessions t' = sessions pausedSample /\ totalTime t' = totalTime pausedSample
           /\ tick (snd (taskManager.stopTask 1 pausedHost)) = S (tick pausedHost)))
  /\ (exists t', fst (taskManager.stopTask 1 runningHost) = Ok (Some t')
                 /\ status t' = stopped)
  /\ fst (taskManager.stopTask 1 runningClosedHost) = Throw NoActiveSession.
Proof.
  assert (H : status pausedSample = running -> lastSessionOpen pausedSample)
    by discriminate.
  assert (Hopen : status runningSample = running -> lastSessionOpen runningSample)
    by (intros _; exists (sampleOpenSession 2000); split; reflexivity).
  assert (Hclosed : ~ lastSessionOpen runningClosedSample)
    by (intros (s & [= <-] & Hs); discriminate Hs).
  split; [reflexivity|]. split; [exact H|].
  split; [exact (proj1 (stopTask_any_status pausedHost 1 pausedSample eq_refl) H)|].
  split.
  - destruct (proj1 (stopTask_any_status runningHost 1 runningSample eq_refl) Hopen)
      as (t' & H1 & _ & H2 & _).
    exists t'. split; [exact H1 | exact H2].
  - exact (proj1 (proj2 (stopTask_any_status runningClosedHost 1 runningClosedSample
                           eq_refl) eq_refl Hclosed)).
Defined.

(** ** Elapsed time on display *)

(** On its own [getCurrentRunningTime] answers 0 for a task that is not
    running; [render] does not call it for such a task. *)
Remark getCurrentRunningTime_not_running (w : World) (task : Task) :
  status task <> running ->
  taskManager.getCurrentRunningTime (Some (taskManager.getTaskSummary task)) w
  = (Ok 0, w).
Proof.
  intros Hnr. unfold taskManager.getCurrentRunningTime.
  change (Summary.status (taskManager.getTaskSummary task)) with (status task).
  destruct (decide (status task <> running)); [reflexivity | contradiction].
Qed.

(** C4. The time [render] shows for a task, given its summary: for a
    running task (whose [lastStarted] is set, as [startTask] sets it) it is
    [totalTime + floor((now - lastStarted) / 1000 ms)], computed by
    [getCurrentRunningTime] from one clock reading; for a task of any other
    status it is exactly [totalTime], and the clock is not read.  Both are
    shown through [formatDuration]. *)
Theorem displayed_elapsed_time (w : World) (task : Task) :
  (forall started, status task = running -> lastStarted task = Some started ->
     taskManager.getCurrentRunningTime (Some (taskManager.getTaskSummary task)) w
     = (Ok (totalTime task + (now w - started) / 1000), ticked w)
     /\ VisualMode.timeDisplay (taskManager.getTaskSummary task) w
        = (Ok (taskManager.formatDuration
                 (totalTime task + (now w - started) / 1000)), ticked w))
  /\ (status task <> running ->
      VisualMode.timeDisplay (taskManager.getTaskSummary task) w
      = (Ok (taskManager.formatDuration (totalTime task)), w)).
Proof.
  split.
  - intros started Hr Hs.
    assert (Hg : taskManager.getCurrentRunningTime
                   (Some (taskManager.getTaskSummary task)) w
                 = (Ok (totalTime task + (now w - started) / 1000), ticked w)).
    { unfold taskManager.getCurrentRunningTime. simpl.
      destruct (decide (status task <> running)); [contradiction|].
      rewrite Hs. reflexivity. }
    split; [exact Hg|].
    unfold VisualMode.timeDisplay.
    change (Summary.status (taskManager.getTaskSummary task)) with (status task).
    destruct (decide (status task = running)); [|contradiction].
    unfold bind. rewrite Hg. reflexivity.
  - intros Hnr. unfold VisualMode.timeDisplay.
    change (Summary.status (taskManager.getTaskSummary task)) with (status task).
    destruct (decide (status task = running)); [contradiction | reflexivity].
Qed.

Lemma displayed_elapsed_time_witness :
  status runningSample = running
  /\ lastStarted runningSample = Some 2000
  /\ fst (VisualMode.timeDisplay (taskManager.getTaskSummary runningSample) runningHost)
     = Ok "1m 8s"%string.
Proof.
  split; [reflexivity|]. split; [reflexivity|].
  rewrite (proj2 (proj1 (displayed_elapsed_time runningHost runningSample)
                    2000 eq_refl eq_refl)).
  reflexivity.
Defined.

(** ** Resolving what the user typed *)

Lemma append_nil_l (s : string) : (EmptyString ++ s)%string = s.
Proof. reflexivity. Qed.

Lemma append_cons (c : ascii) (a b : string) :
  (String c a ++ b)%string = String c (a ++ b).
Proof. reflexivity. Qed.

Lemma append_nil_r (s : string) : (s ++ EmptyString)%string = s.
Proof. induction s as [|c s IH]; [reflexivity|]. rewrite append_cons, IH. reflexivity. Qed.

Lemma prefix_spec (a b : string) :
  String.prefix a b = true <-> exists post, b = (a ++ post)%string.
Proof.
  revert b. induction a as [|c a IH]; intros b.
  - split; [intros _; exists b; reflexivity | intros _; destruct b; reflexivity].
  - destruct b as [|d b]; [split; [discriminate | intros [? [=]]]|].
    cbn [String.prefix]. destruct (ascii_dec c d) as [->|Hne].
    + rewrite IH. split; intros [post H]; exists post.
      * rewrite append_cons. congruence.
      * rewrite append_cons in H. congruence.
    + split; [discriminate|]. intros [post H]. rewrite append_cons in H.
      injection H as H _. congruence.
Qed.

Lemma includes_spec (hay needle : string) :
  includes hay needle = true <->
  exists pre post : string, hay = (pre ++ needle ++ post)%string.
Proof.
  induction hay as [|c hay IH].
  - cbn [includes]. rewrite orb_false_r, prefix_spec. split.
    + intros [post H]. exists EmptyString, post. exact H.
    + intros (pre & post & H). destruct pre; [exists post; exact H|discriminate].
  - cbn [includes]. rewrite orb_true_iff, IH, prefix_spec. split.
    + intros [[post H] | (pre & post & H)].
      * exists EmptyString, post. exact H.
      * exists (String c pre), post. rewrite append_cons. congruence.
    + intros (pre & post & H). destruct pre as [|d pre].
      * left. exists post. exact H.
      * right. rewrite append_cons in H. injection H as _ H. eauto.
Qed.

Lemma allDigits_spec (s : string) : allDigits s = true <-> purelyNumeric s.
Proof.
  unfold purelyNumeric.
  assert (H : allDigitChars s = true
              <-> Forall (fun c => isDigit c = true) (list_ascii_of_string s)).
  { induction s as [|c s IH]; simpl.
    - split; [constructor | reflexivity].
    - rewrite andb_true_iff, Forall_cons, IH. reflexivity. }
  destruct s as [|c s]; unfold allDigits.
  - split; [discriminate | intros [Hne _]; exfalso; apply Hne; reflexivity].
  - rewrite H. split; [intros; split; [discriminate | assumption] | tauto].
Qed.

Lemma find_filter_firstMatch {A} (P Q : A -> Prop)
    `{forall x, Decision (P x)} `{forall x, Decision (Q x)} (l : list A) :
  firstMatch (fun x => Q x /\ P x) l (snd <$> list_find P (filter Q l)).
Proof.
  induction l as [|a l IH]; [constructor|].
  rewrite filter_cons. destruct (decide (Q a)) as [Hq|Hq].
  - cbn [list_find]. destruct (decide (P a)) as [Hp|Hp].
    + exists [], l. simpl. auto.
    + destruct (list_find P (filter Q l)) as [[k x]|]; simpl in *.
      * destruct IH as (l1 & l2 & -> & Hx & Hl1).
        exists (a :: l1), l2. split; [reflexivity|]. split; [exact Hx|].
        constructor; [tauto | exact Hl1].
      * constructor; [tauto | exact IH].
  - destruct (list_find P (filter Q l)) as [[k x]|]; simpl in *.
    + destruct IH as (l1 & l2 & -> & Hx & Hl1).
      exists (a :: l1), l2. split; [reflexivity|]. split; [exact Hx|].
      constructor; [tauto | exact Hl1].
    + constructor; [tauto | exact IH].
Qed.

Lemma firstMatch_iff {A} (P Q : A -> Prop) l r :
  (forall x, P x <-> Q x) -> firstMatch P l r -> firstMatch Q l r.
Proof.
  intros HPQ. destruct r as [x|]; simpl.
  - intros (l1 & l2 & -> & Hx & Hl1). exists l1, l2.
    split; [reflexivity|]. split; [apply HPQ; exact Hx|].
    eapply Forall_impl; [exact Hl1|]. intros y Hy HQ. apply Hy, HPQ, HQ.
  - intros Hl. eapply Forall_impl; [exact Hl|]. intros y Hy HQ. apply Hy, HPQ, HQ.
Qed.

(** [findTask] only reads. *)
Lemma findTask_reads (w : World) (input : string) :
  exists r, InteractiveMode.findTask input w = (Ok r, w).
Proof.
  unfold InteractiveMode.findTask, taskManager.getAllTasksSummary,
    storage.getAllTasks, bind, loadData, ret. simpl.
  destruct (allDigits input); eexists; reflexivity.
Qed.

(** C8. [findTask] looks only at tasks that are not stopped, in store
    order.  If and only if the input is a non-empty string of digits it
    takes the first of them whose id is the number typed; otherwise it
    takes the first whose name contains the input when case is ignored
    (equality being a special case of containment).  The file is not
    changed. *)
Theorem findTask_resolution (w : World) (input : string) :
  exists r,
    InteractiveMode.findTask input w = (Ok r, w)
    /\ (purelyNumeric input ->
        firstMatch (fun s => notStopped s /\ Summary.id s = parseInt input)
          (taskManager.getTaskSummary <$> tasks (file w)) r)
    /\ (~ purelyNumeric input ->
        firstMatch (fun s => notStopped s /\ containsIgnoringCase (Summary.name s) input)
          (taskManager.getTaskSummary <$> tasks (file w)) r)
    /\ (forall s, r = Some s -> Summary.status s <> stopped).
Proof.
  unfold InteractiveMode.findTask, taskManager.getAllTasksSummary,
    storage.getAllTasks, bind, loadData, ret. simpl.
  set (all := taskManager.getTaskSummary <$> tasks (file w)).
  destruct (allDigits input) eqn:Hd.
  - eexists. split; [reflexivity|].
    pose proof (find_filter_firstMatch
                  (fun s => Summary.id s = parseInt input) notStopped all) as Hfm.
    split; [intros _; exact Hfm|]. split.
    + intros Hn. exfalso. apply Hn, allDigits_spec, Hd.
    + intros s Hs. unfold notStopped in Hfm. rewrite Hs in Hfm.
      destruct Hfm as (_ & _ & _ & [Hns _] & _). exact Hns.
  - eexists. split; [reflexivity|].
    pose proof (find_filter_firstMatch
                  (fun s => includes (toLowerCase (Summary.name s)) (toLowerCase input) = true
                            \/ toLowerCase (Summary.name s) = toLowerCase input)
                  notStopped all) as Hfm.
    split; [|split].
    + intros Hn%allDigits_spec. congruence.
    + intros _. eapply firstMatch_iff; [|exact Hfm].
      intros s. unfold containsIgnoringCase. rewrite <- includes_spec.
      split; [|tauto]. intros [Hns [Hi | He]]; [tauto|].
      split; [exact Hns|]. rewrite He. apply includes_spec.
      exists EmptyString, EmptyString.
      rewrite append_nil_l, append_nil_r. reflexivity.
    + intros s Hs. unfold notStopped in Hfm. rewrite Hs in Hfm.
      destruct Hfm as (_ & _ & _ & [Hns _] & _). exact Hns.
Qed.

Example findTask_by_id :
  Summary.name <$> fst_ok (InteractiveMode.findTask "2" dayHost) = Some "review"%string.
Proof. reflexivity. Qed.

Example findTask_by_name :
  Summary.name <$> fst_ok (InteractiveMode.findTask "ITE" dayHost)
  = Some "write spec"%string.
Proof. reflexivity. Qed.

Example findTask_skips_stopped :
  fst_ok (InteractiveMode.findTask "3" dayHost) = None
  /\ fst_ok (InteractiveMode.findTask "email" dayHost) = None.
Proof. split; reflexivity. Qed.

(** ** The today view *)

Lemma filter_fmap {A B} (f : A -> B) (P : B -> Prop) `{forall y, Decision (P y)}
    (l : list A) :
  filter P (f <$> l) = f <$> filter (fun x => P (f x)) l.
Proof.
  induction l as [|a l IH]; [reflexivity|].
  rewrite fmap_cons, !filter_cons.
  destruct (decide (P (f a))); [rewrite fmap_cons|]; rewrite IH; reflexivity.
Qed.

Lemma filter_ext_in {A} (P Q : A -> Prop)
    `{forall x, Decision (P x)} `{forall x, Decision (Q x)} (l : list A) :
  Forall (fun x => P x <-> Q x) l -> filter P l = filter Q l.
Proof.
  induction 1 as [|a l Ha _ IH]; [reflexivity|].
  rewrite !filter_cons.
  destruct (decide (P a)), (decide (Q a)); try tauto; congruence.
Qed.

Lemma utcMidnight_zoneLaws : zoneLaws utcMidnight.
Proof.
  unfold zoneLaws, utcMidnight. split; [|split].
  - intros t. pose proof (Z.mod_pos_bound t 86400000). lia.
  - intros t t' Hle.
    rewrite (Z.div_mod t 86400000) at 1 by lia.
    rewrite (Z.div_mod t' 86400000) at 1 by lia.
    pose proof (Z.div_le_mono t t' 86400000). lia.
  - intros t.
    replace (t - t `mod` 86400000) with (86400000 * (t / 86400000))
      by (rewrite (Z.div_mod t 86400000) at 2 by lia; lia).
    rewrite Z.mul_comm, Z.mod_mul by lia. lia.
Qed.

(** For an instant that is not in the future, "at or after today's local
    midnight" and "in today's local calendar day" are the same. *)
Lemma since_midnight_iff_today (w : World) (today ts : Timestamp) :
  zoneLaws (localMidnight w) -> ts <= today ->
  ts >= localMidnight w today <-> inLocalDayOf w today ts.
Proof.
  intros (Hle & Hmono & Hidem) Hts. unfold inLocalDayOf. split.
  - intros Hge.
    pose proof (Hmono _ _ Hts). pose proof (Hmono (localMidnight w today) ts).
    rewrite Hidem in *. lia.
  - intros <-. pose proof (Hle ts). lia.
Qed.

Lemma workedOnSince_stamps (todayStart : Timestamp) (t : Task) :
  taskManager.workedOnSince todayStart t = true
  <-> Exists (fun ts => ts >= todayStart) (stamps t).
Proof.
  unfold taskManager.workedOnSince, stamps.
  rewrite !Exists_app.
  assert (Hopt : forall o : option Timestamp,
            match o with Some x => bool_decide (x >= todayStart) | None => false end = true
            <-> Exists (fun ts => ts >= todayStart) (option_list o)).
  { intros [x|]; simpl.
    - rewrite bool_decide_eq_true, Exists_cons, Exists_nil. tauto.
    - rewrite Exists_nil. split; [discriminate | tauto]. }
  assert (Hss : match sessions t with
                | [] => false
                | _ :: _ =>
                    existsb (fun session =>
                      bool_decide (startTime session >= todayStart) ||
                      match endTime session with
                      | Some e => bool_decide (e >= todayStart)
                      | None => false
                      end) (sessions t)
                end = true
                <-> Exists (fun ts => ts >= todayStart)
                      (flat_map (fun s => startTime s :: option_list (endTime s))
                                (sessions t))).
  { transitivity (existsb (fun session =>
                      bool_decide (startTime session >= todayStart) ||
                      match endTime session with
                      | Some e => bool_decide (e >= todayStart)
                      | None => false
                      end) (sessions t) = true).
    { destruct (sessions t); reflexivity. }
    induction (sessions t) as [|s ss IH]; simpl.
    - rewrite Exists_nil. split; [discriminate | tauto].
    - rewrite !orb_true_iff, IH, Exists_cons, Exists_app, Hopt,
        bool_decide_eq_true. tauto. }
  rewrite <- Hopt, <- Hopt, <- Hss.
  destruct (match lastStarted t with Some _ => _ | None => _ end);
    destruct (match lastPaused t with Some _ => _ | None => _ end);
    intuition congruence.
Qed.

Lemma refreshTasks_view (this : VisualMode.This) (w : World) :
  VisualMode.this_tasks (fst (snd (VisualMode.refreshTasks (this, w))))
  = filter notStopped
      (taskManager.getTaskSummary <$>
         filter (fun t => taskManager.workedOnSince (localMidnight w (now w)) t = true)
                (tasks (file w)))
  /\ file (snd (snd (VisualMode.refreshTasks (this, w)))) = file w.
Proof. split; reflexivity. Qed.

(** [getTodaysTasks] on its own does not look at the status: on the sample
    day it returns the stopped task 3 as well.  Stopped tasks are dropped by
    its callers, [refreshTasks] among them. *)
Example getTodaysTasks_keeps_stopped :
  match fst (taskManager.getTodaysTasks dayHost) with
  | Ok l => Summary.name <$> l
  | Throw _ => []
  end = ["write spec"%string; "email"%string].
Proof. vm_compute. reflexivity. Qed.

Lemma since_midnight_iff_today_or_later (w : World) (today ts : Timestamp) :
  zoneLaws (localMidnight w) ->
  ts >= localMidnight w today <-> inLocalDayOrLater w today ts.
Proof.
  intros (Hle & Hmono & Hidem). unfold inLocalDayOrLater. split.
  - intros Hge. pose proof (Hmono (localMidnight w today) ts ltac:(lia)) as H.
    rewrite Hidem in H. exact H.
  - intros H. pose proof (Hle ts). lia.
Qed.

(** C7, as stated, fails on a store that holds an instant of a later day:
    seen from day 1, the task of [futureHost] has no activity in the
    current calendar day, and [refreshTasks] lists it. *)
Lemma todays_view_lists_later_day :
  ~ todayRule idleThis futureHost.
Proof.
  unfold todayRule. intros H. vm_compute in H. discriminate H.
Qed.

(** C7. The list the visual mode keeps after [refreshTasks] is, in store
    order, the summaries of exactly the tasks that are not stopped and have
    an activity instant -- the start or end of a session, [lastStarted] or
    [lastPaused] -- in the local calendar day of the clock reading or in a
    later day: the code compares each instant with the local midnight of
    that reading and has no upper end.  No entry of the list is stopped.
    On a store none of whose instants is later than the reading, the list
    holds exactly the tasks that are not stopped and have activity in the
    current local calendar day. *)
Theorem todays_view (this : VisualMode.This) (w : World) :
  zoneLaws (localMidnight w) ->
  let view := VisualMode.this_tasks (fst (snd (VisualMode.refreshTasks (this, w)))) in
  view = taskManager.getTaskSummary <$>
           filter (fun t => status t <> stopped /\ activeSinceToday w (now w) t)
                  (tasks (file w))
  /\ Forall notStopped view
  /\ (noneLaterThan (now w) (file w) ->
      view = taskManager.getTaskSummary <$>
               filter (fun t => status t <> stopped /\ activeToday w (now w) t)
                      (tasks (file w))).
Proof.
  intros Hzone view.
  assert (Hcode : view = taskManager.getTaskSummary <$>
            filter (fun t => status t <> stopped
                             /\ taskManager.workedOnSince (localMidnight w (now w)) t = true)
                   (tasks (file w))).
  { unfold view. rewrite (proj1 (refreshTasks_view this w)).
    rewrite filter_fmap, list_filter_filter. reflexivity. }
  assert (Hview : view = taskManager.getTaskSummary <$>
           filter (fun t => status t <> stopped /\ activeSinceToday w (now w) t)
                  (tasks (file w))).
  { rewrite Hcode. f_equal. apply filter_ext_in, Forall_forall. intros t _.
    unfold activeSinceToday. rewrite workedOnSince_stamps, !Exists_exists.
    split; intros [Hs (ts & Hin & Hts)]; (split; [exact Hs|]); exists ts;
      (split; [exact Hin|]);
      apply (since_midnight_iff_today_or_later w (now w) ts Hzone); exact Hts. }
  split; [exact Hview|]. split.
  - rewrite Hview. apply Forall_fmap, Forall_forall.
    intros t [[Hs _] _]%list_elem_of_filter. exact Hs.
  - intros Hpast. rewrite Hcode. f_equal. apply filter_ext_in.
    unfold noneLaterThan in Hpast.
    eapply Forall_impl; [exact Hpast|]. intros t Ht.
    unfold activeToday. rewrite workedOnSince_stamps, !Exists_exists.
    rewrite Forall_forall in Ht.
    split; intros [Hs (ts & Hin & Hts)]; (split; [exact Hs|]); exists ts;
      (split; [exact Hin|]);
      apply (since_midnight_iff_today w (now w) ts Hzone (Ht ts Hin)); exact Hts.
Qed.

Lemma todays_view_witness :
  zoneLaws (localMidnight dayHost)
  /\ noneLaterThan (now dayHost) (file dayHost)
  /\ Summary.name <$>
       VisualMode.this_tasks (fst (snd (VisualMode.refreshTasks (idleThis, dayHost))))
     = ["write spec"%string].
Proof.
  assert (H1 : zoneLaws (localMidnight dayHost)) by exact utcMidnight_zoneLaws.
  assert (H2 : noneLaterThan (now dayHost) (file dayHost)).
  { unfold noneLaterThan. apply (bool_decide_unpack _). vm_compute. exact I. }
  split; [exact H1|]. split; [exact H2|].
  rewrite (proj2 (proj2 (todays_view idleThis dayHost H1)) H2).
  vm_compute. reflexivity.
Defined.

(** ** [start <arg>] in the two front ends *)

Lemma create_then_start (w : World) (name0 : string) :
  uniqueIds (file w) -> freshNextId (file w) -> runningHaveOpenSession (file w) ->
  trim name0 <> EmptyString ->
  exists a b w1 w2,
    taskManager.createTask name0 EmptyString w = (Ok a, w1)
    /\ id a = nextId (file w)
    /\ taskManager.startTask (id a) w1 = (Ok (Some b), w2)
    /\ id b = nextId (file w) /\ name b = trim name0 /\ status b = running
    /\ filter isRunning (tasks (file w2)) = [b]
    /\ length (tasks (file w2)) = S (length (tasks (file w))).
Proof.
  intros Hnd Hfresh Hopen Hname.
  rewrite createTask_eq.
  destruct (decide (name0 = EmptyString \/ trim name0 = EmptyString)) as [[->|Hb]|_];
    [exfalso; apply Hname; reflexivity | contradiction |].
  cbv zeta.
  set (a := {| id := nextId (file w); name := trim name0; url := trim EmptyString;
               status := created; sessions := []; totalTime := 0;
               createdAt := now w; lastStarted := None; lastPaused := None;
               stoppedAt := None |}).
  set (w1 := withFile (ticked w) _).
  set (k := length (tasks (file w))).
  assert (Hk : tasks (file w1) !! k = Some a).
  { simpl. unfold k. rewrite lookup_app_r by lia. rewrite Nat.sub_diag. reflexivity. }
  assert (Hnd1 : uniqueIds (file w1)).
  { unfold uniqueIds. simpl. rewrite fmap_app. apply NoDup_app.
    split; [exact Hnd|]. split; [|apply NoDup_singleton].
    intros x (t & -> & Ht)%list_elem_of_fmap Hx.
    simpl in Hx. apply list_elem_of_singleton in Hx.
    unfold freshNextId in Hfresh. rewrite Forall_forall in Hfresh.
    exact (Hfresh t Ht Hx). }
  assert (Hopen1 : runningHaveOpenSession (file w1)).
  { unfold runningHaveOpenSession. simpl. apply Forall_app. split; [exact Hopen|].
    constructor; [discriminate | constructor]. }
  destruct (startTask_succeeds w1 k a Hnd1 Hopen1 Hk) as (w1' & Hloop & Hstart);
    [discriminate|].
  pose proof (startTask_running _ _ _ _ Hnd1 Hstart) as (_ & Honly & _).
  destruct (Honly I) as (t & Hfilter & _ & Ht). simpl in Hfilter, Ht.
  injection Ht as <-.
  pose proof (forEach_pause_step _ _ _ _ _ Hloop) as (HF & _).
  eexists a, _, w1, _. split; [reflexivity|]. split; [reflexivity|].
  split; [exact Hstart|].
  split; [reflexivity|]. split; [reflexivity|]. split; [reflexivity|].
  split; [exact Hfilter|].
  simpl. rewrite length_insert, <- (Forall2_length _ _ _ HF). simpl.
  rewrite length_app. simpl. lia.
Qed.

Lemma refreshTasks_frame (this : VisualMode.This) (w : World) :
  fst (VisualMode.refreshTasks (this, w)) = Ok tt
  /\ file (snd (snd (VisualMode.refreshTasks (this, w)))) = file w
  /\ VisualMode.this_statusMessage (fst (snd (VisualMode.refreshTasks (this, w))))
     = VisualMode.this_statusMessage this.
Proof. repeat split; reflexivity. Qed.

Lemma bind_ok {S A B} (m : St S A) (k : A -> St S B) s a s' :
  m s = (Ok a, s') -> bind m k s = k a s'.
Proof. unfold bind. intros ->. reflexivity. Qed.

Lemma engine_eq {U A} (m : M A) (u : U) w r w' :
  m w = (r, w') -> engine m (u, w) = (r, (u, w')).
Proof. unfold engine. simpl. intros ->. reflexivity. Qed.

Lemma summaryOf_eq {S} (t : Task) (s : S) :
  summaryOf (Some t) s = (Ok (taskManager.getTaskSummary t), s).
Proof. reflexivity. Qed.

Lemma getThis_eq {U} (u : U) (w : World) : getThis (u, w) = (Ok u, (u, w)).
Proof. reflexivity. Qed.

Lemma log_eq (l : Line) (console : InteractiveMode.Console) (w : World) :
  InteractiveMode.log l (console, w) = (Ok tt, (console ++ [l], w)).
Proof. reflexivity. Qed.

Lemma showMessage_eq (message : Line) (this : VisualMode.This) (w : World) :
  VisualMode.showMessage message (this, w)
  = (Ok tt, (VisualMode.mkThis (VisualMode.this_tasks this)
                (VisualMode.this_selectedIndex this) (VisualMode.this_isActive this)
                (VisualMode.this_inputBuffer this) (Some message), w)).
Proof. reflexivity. Qed.

Lemma interactive_start_numeric_unresolved (console : InteractiveMode.Console)
    (w : World) (input : string) :
  purelyNumeric input ->
  fst (InteractiveMode.findTask input w) = Ok None ->
  InteractiveMode.startTask input (console, w)
  = (Ok tt, (console ++ [TaskWithIdNotFound input; UseListHint], w)).
Proof.
  intros Hnum Hfind.
  destruct (findTask_reads w input) as (r & Heq).
  rewrite Heq in Hfind. simpl in Hfind. injection Hfind as ->.
  unfold InteractiveMode.startTask.
  destruct (decide (input = EmptyString)) as [->|_];
    [destruct Hnum as [Hne _]; exfalso; apply Hne; reflexivity|].
  rewrite (bind_ok _ _ _ _ _ (engine_eq _ console _ _ _ Heq)).
  apply allDigits_spec in Hnum. rewrite Hnum.
  rewrite (bind_ok _ _ _ _ _ (log_eq _ _ _)), log_eq, <- app_assoc.
  reflexivity.
Qed.

Lemma interactive_start_name_unresolved (console : InteractiveMode.Console)
    (w : World) (input : string) :
  ~ purelyNumeric input ->
  fst (InteractiveMode.findTask input w) = Ok None ->
  uniqueIds (file w) -> freshNextId (file w) -> runningHaveOpenSession (file w) ->
  trim input <> EmptyString ->
  fst (InteractiveMode.startTask input (console, w)) = Ok tt
  /\ fst (snd (InteractiveMode.startTask input (console, w)))
     = console ++ [CreatingNewTask input; Started (trim input)]
  /\ createdAndStarted (file w) (trim input)
       (file (snd (snd (InteractiveMode.startTask input (console, w))))).
Proof.
  intros Hnum Hfind Hnd Hfresh Hopen Hname.
  destruct (findTask_reads w input) as (r & Heq).
  rewrite Heq in Hfind. simpl in Hfind. injection Hfind as ->.
  destruct (create_then_start w input Hnd Hfresh Hopen Hname)
    as (a & b & w1 & w2 & Hc & Hida & Hs & Hidb & Hnb & Hrb & Hfilter & Hlen).
  unfold InteractiveMode.startTask.
  destruct (decide (input = EmptyString)) as [->|_]; [exfalso; apply Hname; reflexivity|].
  rewrite (bind_ok _ _ _ _ _ (engine_eq _ console _ _ _ Heq)).
  destruct (allDigits input) eqn:Hd; [exfalso; apply Hnum, allDigits_spec, Hd|].
  rewrite (bind_ok _ _ _ _ _ (log_eq _ _ _)).
  rewrite (bind_ok _ _ _ _ _ (engine_eq _ _ _ _ _ Hc)).
  change (Summary.id (taskManager.getTaskSummary a)) with (id a).
  rewrite (bind_ok _ _ _ _ _ (engine_eq _ _ _ _ _ Hs)).
  rewrite (bind_ok _ _ _ _ _ (summaryOf_eq _ _)), log_eq.
  change (Summary.name (taskManager.getTaskSummary b)) with (name b). rewrite Hnb.
  cbn [fst snd].
  split; [reflexivity|]. split; [rewrite <- app_assoc; reflexivity|].
  exists b. auto.
Qed.

Lemma visual_start_unresolved (this : VisualMode.This) (w : World) (taskName : string) :
  noListedMatch this taskName ->
  uniqueIds (file w) -> freshNextId (file w) -> runningHaveOpenSession (file w) ->
  trim taskName <> EmptyString ->
  fst (VisualMode.startTaskByName taskName (this, w)) = Ok tt
  /\ VisualMode.this_statusMessage
       (fst (snd (VisualMode.startTaskByName taskName (this, w))))
     = Some (CreatedAndStarted taskName)
  /\ createdAndStarted (file w) (trim taskName)
       (file (snd (snd (VisualMode.startTaskByName taskName (this, w))))).
Proof.
  intros Hnone Hnd Hfresh Hopen Hname.
  destruct (create_then_start w taskName Hnd Hfresh Hopen Hname)
    as (a & b & w1 & w2 & Hc & Hida & Hs & Hidb & Hnb & Hrb & Hfilter & Hlen).
  unfold VisualMode.startTaskByName.
  rewrite (bind_ok _ _ _ _ _ (getThis_eq this w)).
  unfold noListedMatch in Hnone. rewrite Hnone. cbn [fmap option_fmap option_map].
  unfold VisualMode.createAndStartTask.
  set (this1 := VisualMode.mkThis (VisualMode.this_tasks this)
                  (VisualMode.this_selectedIndex this) (VisualMode.this_isActive this)
                  (VisualMode.this_inputBuffer this) (Some (CreatedAndStarted taskName))).
  pose proof (refreshTasks_frame this1 w2) as (Hr1 & Hf1 & Hm1).
  destruct (VisualMode.refreshTasks (this1, w2)) as [r1 [this2 w3]] eqn:Hrefresh1.
  simpl in Hr1, Hf1, Hm1. subst r1.
  pose proof (refreshTasks_frame this2 w3) as (Hr2 & Hf2 & Hm2).
  destruct (VisualMode.refreshTasks (this2, w3)) as [r2 [this3 w4]] eqn:Hrefresh2.
  simpl in Hr2, Hf2, Hm2. subst r2.
  assert (Hcas :
    (task <- engine (taskManager.createTask taskName EmptyString) ;;
     engine (taskManager.startTask (id task)) ;;;
     VisualMode.showMessage (CreatedAndStarted taskName) ;;;
     VisualMode.refreshTasks) (this, w) = (Ok tt, (this2, w3))).
  { rewrite (bind_ok _ _ _ _ _ (engine_eq _ _ _ _ _ Hc)).
    rewrite (bind_ok _ _ _ _ _ (engine_eq _ _ _ _ _ Hs)).
    rewrite (bind_ok _ _ _ _ _ (showMessage_eq _ _ _)).
    exact Hrefresh1. }
  rewrite (bind_ok _ _ _ _ _ Hcas), Hrefresh2. cbn [fst snd].
  split; [reflexivity|]. split; [rewrite Hm2, Hm1; reflexivity|].
  rewrite Hf2, Hf1. exists b. auto.
Qed.

(** ** The invariants hold in every store the engine can reach *)

Lemma taskOk_all_closed t :
  taskOk t -> status t <> running -> Forall (fun x => endTime x <> None) (sessions t).
Proof.
  intros (Hiff & Honly & _) Hnr.
  destruct (sessions t) as [|x l] eqn:Hss using rev_ind; [constructor|].
  clear IHl. apply Forall_app. split; [eapply Honly; eauto|].
  constructor; [|constructor]. intros Hend. apply Hnr, Hiff.
  exists x. rewrite Hss, last_snoc. auto.
Qed.

Lemma opStep_taskOk o t t' : opStep o t t' -> taskOk t -> taskOk t'.
Proof.
  intros Hstep Hok. pose proof Hok as (Hiff & Honly & Htime).
  assert (Hpaused : forall n s, status t = running ->
            last (sessions t) = Some s -> endTime s = None ->
            taskOk (pausedTask n t s)).
  { intros n s Hr Hlast Hend.
    destruct (close_last (sessions t) s
                {| startTime := startTime s; endTime := Some n;
                   duration := (n - startTime s) / 1000 |} Hlast) as (l0 & Hl & Hins).
    split; [|split].
    - split; [|discriminate].
      intros (s' & Hlast' & Hend'). simpl in Hlast'. rewrite Hins, last_snoc in Hlast'.
      injection Hlast' as <-. discriminate.
    - intros l x Hx. simpl in Hx. rewrite Hins in Hx.
      apply app_inj_tail in Hx as [<- _]. eapply Honly; eauto.
    - apply totalTimeOk_paused; assumption. }
  destruct Hstep as [ | n s Ho Hr Hlast Hend | n Ho Hnr | n Ho Hnr
                    | n n' s Ho Hr Hlast Hend | Ho Hst ].
  - exact Hok.
  - apply Hpaused; assumption.
  - split; [|split].
    + split; [reflexivity|]. intros _. eexists. simpl. rewrite last_snoc. auto.
    + intros l x Hx. simpl in Hx. apply app_inj_tail in Hx as [<- _].
      apply taskOk_all_closed; assumption.
    + apply totalTimeOk_started. exact Htime.
  - split; [|split; [exact Honly | exact Htime]].
    split; [|discriminate]. intros H. exfalso. apply Hnr, Hiff, H.
  - destruct (Hpaused n s Hr Hlast Hend) as (Hiff' & Honly' & Htime').
    split; [|split; [exact Honly' | exact Htime']].
    split; [|discriminate]. intros H. apply Hiff' in H. discriminate.
  - split; [|split; [exact Honly | exact Htime]].
    split; [|discriminate]. intros H. apply Hiff in H. congruence.
Qed.

Lemma opStep_id o t t' : opStep o t t' -> id t' = id t.
Proof. destruct 1; reflexivity. Qed.

Lemma opStep_running o t t' :
  opStep o t t' -> (forall i, o <> StartTask i) ->
  status t' = running -> status t = running.
Proof.
  intros [ | n s Ho Hr Hlast Hend | n Ho Hnr | n Ho Hnr
         | n n' s Ho Hr Hlast Hend | Ho Hst ] Hns; try discriminate; auto.
  exfalso. eapply Hns; eauto.
Qed.

Lemma runningCount_opStep o (l l' : list Task) :
  (forall i, o <> StartTask i) -> Forall2 (opStep o) l l' ->
  (length (filter isRunning l') <= length (filter isRunning l))%nat.
Proof.
  intros Hns. induction 1 as [|a b l l' Hab _ IH]; [reflexivity|].
  rewrite !filter_cons.
  destruct (decide (isRunning b)) as [Hb|Hb].
  - pose proof (opStep_running _ _ _ Hab Hns Hb).
    destruct (decide (isRunning a)); [simpl; lia | contradiction].
  - destruct (decide (isRunning a)); simpl; lia.
Qed.

Lemma wellFormed_runOp (o : Op) (w : World) :
  wellFormed (file w) -> wellFormed (file (snd (runOp o w))).
Proof.
  intros (Hnd & Hnext & Hok & Hcount).
  destruct (runOp o w) as [r w'] eqn:Hrun. simpl.
  pose proof (runOp_opStep _ _ _ _ Hrun) as (front & extra & Htasks & HF & Hextra).
  assert (Hids : id <$> front = id <$> tasks (file w)).
  { clear -HF. induction HF as [|a b l l' Hab _ IH]; [reflexivity|].
    simpl. f_equal; [eapply opStep_id; eauto | exact IH]. }
  assert (Hokf : Forall taskOk front).
  { clear -HF Hok. induction HF as [|a b l l' Hab _ IH]; [constructor|].
    inversion Hok; subst. constructor; [eapply opStep_taskOk; eauto | auto]. }
  unfold wellFormed, uniqueIds, runningCount. rewrite Htasks.
  split; [|split; [|split]].
  - rewrite fmap_app, Hids.
    destruct Hextra as [[-> _] | (n & u & -> & _)]; [rewrite app_nil_r; exact Hnd|].
    apply NoDup_app. split; [exact Hnd|]. split; [|apply NoDup_singleton].
    intros x (t & -> & Ht)%list_elem_of_fmap Hx. simpl in Hx.
    apply list_elem_of_singleton in Hx.
    rewrite Forall_forall in Hnext. specialize (Hnext t Ht). lia.
  - assert (Hfront : forall n', nextId (file w) <= n' -> Forall (fun t => id t < n') front).
    { intros n' Hn'. apply Forall_lookup. intros j t' Hj.
      destruct (Forall2_lookup_r _ _ _ _ _ HF Hj) as (t & Ht & Hstep).
      rewrite (opStep_id _ _ _ Hstep).
      rewrite Forall_lookup in Hnext. specialize (Hnext j t Ht). lia. }
    destruct Hextra as [[-> ->] | (n & u & -> & ->)].
    + rewrite app_nil_r. apply Hfront. lia.
    + apply Forall_app. split; [apply Hfront; lia|].
      constructor; [simpl; lia | constructor].
  - apply Forall_app. split; [exact Hokf|].
    destruct Hextra as [[-> _] | (n & u & -> & _)]; [constructor|].
    constructor; [|constructor]. split; [|split].
    + split; [intros (s & Hs & _); discriminate | discriminate].
    + intros l s Hs. simpl in Hs. destruct l; discriminate.
    + reflexivity.
  - rewrite filter_app, length_app.
    assert (Hex : length (filter (fun task => status task = running) extra) = 0%nat).
    { destruct Hextra as [[-> _] | (n & u & -> & _)]; reflexivity. }
    rewrite Hex, Nat.add_0_r. unfold runningCount in Hcount.
    assert (Hcase : (exists i, o = StartTask i) \/ (forall i, o <> StartTask i)).
    { destruct o; [right; discriminate | left; eauto | right; discriminate..]. }
    destruct Hcase as [[i ->]|Hns].
    + unfold runOp, bind in Hrun.
      destruct (taskManager.startTask i w) as [r1 w1] eqn:Hs.
      pose proof (startTask_running _ _ _ _ Hnd Hs) as (_ & _ & Hc).
      assert (w' = w1) as -> by (destruct r1; unfold ret in Hrun; congruence).
      unfold runningCount in Hc. rewrite Htasks, filter_app, length_app in Hc.
      fold isRunning in Hc. unfold isRunning in Hc. lia.
    + pose proof (runningCount_opStep o _ _ Hns HF) as Hle.
      unfold isRunning in Hle. lia.
Qed.

(** Starting from the empty data file, whatever operations are run (those
    that throw included) and whatever the clock says, the data file
    satisfies the invariants. *)
Theorem wellFormed_reachable (ops : list Op) (w : World) :
  file w = initialData -> wellFormed (file (runOps ops w)).
Proof.
  intros Hinit.
  assert (H0 : wellFormed (file w)).
  { rewrite Hinit. unfold wellFormed, uniqueIds, runningCount. simpl.
    split; [constructor|]. split; [constructor|]. split; [constructor | lia]. }
  clear Hinit. revert w H0. induction ops as [|o ops IH]; intros w H0; [exact H0|].
  simpl. apply IH, wellFormed_runOp, H0.
Qed.

Lemma wellFormed_hypotheses (d : Data) :
  wellFormed d ->
  uniqueIds d /\ freshNextId d /\ runningHaveOpenSession d
  /\ openSessionIffRunning d /\ Forall totalTimeOk (tasks d).
Proof.
  intros (Hnd & Hnext & Hok & _).
  split; [exact Hnd|]. split; [|split; [|split]].
  - eapply Forall_impl; [exact Hnext|]. simpl. intros t Ht. lia.
  - eapply Forall_impl; [exact Hok|]. intros t ((_ & H) & _). exact H.
  - eapply Forall_impl; [exact Hok|]. intros t (H & _). exact H.
  - eapply Forall_impl; [exact Hok|]. intros t (_ & _ & H). exact H.
Qed.

(** ** The defensive branch of [pauseTask] *)

Lemma allSessionsClosed_last t :
  allSessionsClosed t ->
  match last (sessions t) with
  | Some s => endTime s <> None
  | None => True
  end.
Proof.
  unfold allSessionsClosed. intros H.
  destruct (last (sessions t)) as [s|] eqn:Hl; [|exact I].
  apply last_Some in Hl as [l Hl]. rewrite Hl in H.
  apply Forall_app in H as [_ H]. inversion H; assumption.
Qed.

Lemma open_session_is_last (t : Task) :
  onlyLastOpen t -> (hasOpenSession t <-> lastSessionOpen t).
Proof.
  intros Honly. split.
  - intros (s & Hin & Hend).
    destruct (sessions t) as [|x l _] eqn:Hss using rev_ind; [inversion Hin|].
    apply elem_of_app in Hin as [Hin | Hin%list_elem_of_singleton].
    + specialize (Honly l x Hss). rewrite Forall_forall in Honly.
      exfalso. exact (Honly s Hin Hend).
    + subst x. exists s. unfold lastSessionOpen. rewrite Hss, last_snoc. auto.
  - intros (s & Hlast & Hend). exists s. split; [|exact Hend].
    apply last_Some in Hlast as [l Hl]. rewrite Hl.
    apply elem_of_app. right. apply list_elem_of_singleton. reflexivity.
Qed.

(** In a store the engine can reach, invariant 2 holds in the words of the
    specification as well: a task has an open session, anywhere in its
    list, if and only if it is running. *)
Lemma reachable_open_iff_running (ops : list Op) (w : World) (t : Task) :
  file w = initialData -> t ∈ tasks (file (runOps ops w)) ->
  (hasOpenSession t <-> status t = running).
Proof.
  intros Hinit Hin.
  destruct (wellFormed_reachable ops w Hinit) as (_ & _ & Hok & _).
  rewrite Forall_forall in Hok. destruct (Hok t Hin) as (Hiff & Honly & _).
  rewrite (open_session_is_last t Honly). exact Hiff.
Qed.

Lemma pauseTask_returns_when_open (w : World) (taskId : Z) (t : Task) :
  fst (storage.getTask taskId w) = Ok (Some t) ->
  status t = running -> openSessionIffRunning (file w) ->
  exists t', fst (taskManager.pauseTask taskId w) = Ok (Some t')
             /\ status t' = paused.
Proof.
  intros Hget Hr Hs. rewrite getTask_eq in Hget. simpl in Hget.
  rewrite pauseTask_eq.
  destruct (findById taskId (tasks (file w))) as [[k t0]|] eqn:Hf; [|discriminate].
  simpl in Hget. injection Hget as ->.
  destruct (decide (status t <> running)); [contradiction|].
  apply findById_Some in Hf as (Hk & _).
  unfold openSessionIffRunning in Hs. rewrite Forall_lookup in Hs.
  destruct (proj2 (Hs k t Hk) Hr) as (s & -> & ->).
  eexists. split; reflexivity.
Qed.

(** C9. If the task found under [taskId] is running and all its sessions
    are closed (or it has none), [pauseTask taskId] throws 'No active
    session found' and the data file is left exactly as it was (only the
    clock has been read).  When invariant 2 holds -- every task has an open
    session, its last one, if and only if it is running -- [pauseTask] on a
    running task returns, so the branch is not taken; and in no store that
    the engine reaches from the empty file is it ever taken. *)
Theorem pauseTask_no_active_session :
  (forall w taskId t,
     fst (storage.getTask taskId w) = Ok (Some t) ->
     status t = running -> allSessionsClosed t ->
     taskManager.pauseTask taskId w = (Throw NoActiveSession, ticked w)
     /\ file (snd (taskManager.pauseTask taskId w)) = file w)
  /\
  (forall w taskId t,
     fst (storage.getTask taskId w) = Ok (Some t) ->
     status t = running -> openSessionIffRunning (file w) ->
     exists t', fst (taskManager.pauseTask taskId w) = Ok (Some t')
                /\ status t' = paused)
  /\
  (forall ops w taskId,
     file w = initialData ->
     fst (taskManager.pauseTask taskId (runOps ops w)) <> Throw NoActiveSession).
Proof.
  split; [|split].
  - intros w taskId t Hget Hr Hs. rewrite getTask_eq in Hget. simpl in Hget.
    rewrite pauseTask_eq.
    destruct (findById taskId (tasks (file w))) as [[k t0]|] eqn:Hf; [|discriminate].
    simpl in Hget. injection Hget as ->.
    destruct (decide (status t <> running)); [contradiction|].
    pose proof (allSessionsClosed_last _ Hs) as Hl.
    destruct (last (sessions t)) as [s|]; [|split; reflexivity].
    destruct (endTime s); [split; reflexivity | contradiction].
  - exact pauseTask_returns_when_open.
  - intros ops w taskId Hinit.
    pose proof (wellFormed_reachable ops w Hinit) as Hwf.
    apply wellFormed_hypotheses in Hwf as (_ & _ & _ & Hiff & _).
    set (w1 := runOps ops w) in *.
    destruct (fst (storage.getTask taskId w1)) as [[t|]|e] eqn:Hget.
    + destruct (decide (status t = running)) as [Hr|Hnr].
      * destruct (pauseTask_returns_when_open w1 taskId t Hget Hr Hiff) as (t' & -> & _).
        discriminate.
      * rewrite getTask_eq in Hget. simpl in Hget. rewrite pauseTask_eq.
        destruct (findById taskId (tasks (file w1))) as [[k t0]|]; [|discriminate].
        simpl in Hget. injection Hget as ->.
        destruct (decide (status t <> running)); [discriminate | tauto].
    + rewrite getTask_eq in Hget. simpl in Hget. rewrite pauseTask_eq.
      destruct (findById taskId (tasks (file w1))) as [[k t0]|]; discriminate.
    + rewrite getTask_eq in Hget. discriminate.
Qed.

Lemma pauseTask_no_active_session_witness :
  fst (storage.getTask 1 runningClosedHost) = Ok (Some runningClosedSample)
  /\ status runningClosedSample = running
  /\ allSessionsClosed runningClosedSample
  /\ taskManager.pauseTask 1 runningClosedHost
     = (Throw NoActiveSession, ticked runningClosedHost).
Proof.
  assert (H : allSessionsClosed runningClosedSample)
    by (repeat constructor; discriminate).
  split; [reflexivity|]. split; [reflexivity|]. split; [exact H|].
  exact (proj1 (proj1 pauseTask_no_active_session
                  runningClosedHost 1 runningClosedSample eq_refl eq_refl H)).
Defined.

(** ** From the committed line to [startTaskByName] *)

Lemma split_not_nil (sep : ascii) (s : string) : split sep s <> [].
Proof.
  destruct s as [|c s]; simpl; [discriminate|].
  destruct (decide (c = sep)); [discriminate|].
  destruct (split sep s); discriminate.
Qed.

Lemma join_cons (sep a b : string) (l : list string) :
  join sep (a :: b :: l) = (a ++ sep ++ join sep (b :: l))%string.
Proof. reflexivity. Qed.

(** [s.split(' ').join(' ')] gives [s] back. *)
Lemma join_split (sep : ascii) (s : string) :
  join (String sep EmptyString) (split sep s) = s.
Proof.
  induction s as [|c s IH]; [reflexivity|].
  cbn [split]. pose proof (split_not_nil sep s) as Hne.
  destruct (decide (c = sep)) as [->|Hc].
  - destruct (split sep s) as [|p ps]; [contradiction|].
    rewrite join_cons, IH. reflexivity.
  - destruct (split sep s) as [|p [|q ps]]; [contradiction | |].
    + cbn [join] in *. congruence.
    + rewrite join_cons in *. rewrite append_cons, IH. reflexivity.
Qed.

Lemma trimEnd_append (p s : string) :
  s <> EmptyString -> trimEnd s = s -> trimEnd (p ++ s) = (p ++ s)%string.
Proof.
  intros Hne Hs. induction p as [|c p IH]; [exact Hs|].
  rewrite append_cons. cbn [trimEnd]. rewrite IH.
  destruct (p ++ s)%string eqn:Hps; [|reflexivity].
  destruct p; [rewrite append_nil_l in Hps; contradiction | discriminate].
Qed.

Lemma trim_start_line (arg : string) :
  arg <> EmptyString -> trimEnd arg = arg ->
  trim ("start " ++ arg) = ("start " ++ arg)%string.
Proof.
  intros Hne Hend. unfold trim.
  change (trimStart ("start " ++ arg)) with ("start " ++ arg)%string.
  apply trimEnd_append; assumption.
Qed.

(** A committed line [start <arg>] is handed to [startTaskByName] with
    exactly [<arg>]; an error it throws is turned into a message, and the
    input line is cleared. *)
Lemma processCommand_start (this : VisualMode.This) (w : World) (arg : string) :
  arg <> EmptyString -> trimEnd arg = arg ->
  VisualMode.processCommand (typed this ("start " ++ arg)%string, w)
  = (returned <-
       tryCatch (VisualMode.startTaskByName arg ;;; ret false)
         (fun error => VisualMode.showMessage (ErrorLine error) ;;; ret false) ;;
     if returned : bool then ret tt else VisualMode.clearInput)
      (typed this ("start " ++ arg)%string, w).
Proof.
  intros Hne Hend. unfold VisualMode.processCommand.
  rewrite (bind_ok _ _ _ _ _ (getThis_eq _ w)).
  cbn [VisualMode.this_inputBuffer typed].
  rewrite (trim_start_line arg Hne Hend).
  change (split " " ("start " ++ arg)) with ("start"%string :: split " " arg).
  cbv beta iota zeta.
  change (toLowerCase "start") with "start"%string.
  destruct (decide ("start"%string = "start"%string)) as [_|Hn]; [|contradiction].
  pose proof (join_split " " arg) as Hjoin.
  pose proof (split_not_nil " " arg) as Hnil.
  destruct (split " " arg) as [|p ps]; [contradiction|].
  rewrite Hjoin. reflexivity.
Qed.

(** ** [start <arg>]: what the specification says and what the two modes do *)

(** On an empty store the line [start 42], whose argument is purely
    numeric and resolves to no task, makes the visual mode create a task
    named "42", start it and report success. *)
Lemma visual_start_42 :
  fst (VisualMode.processCommand (typedStart42, emptyHost)) = Ok tt
  /\ VisualMode.this_statusMessage
       (fst (snd (VisualMode.processCommand (typedStart42, emptyHost))))
     = Some (CreatedAndStarted "42")
  /\ (fun t => (id t, name t, status t)) <$>
       tasks (file (snd (snd (VisualMode.processCommand (typedStart42, emptyHost)))))
     = [(1, "42"%string, running)].
Proof.
  split; [vm_compute; reflexivity|].
  split; vm_compute; reflexivity.
Qed.

(** C6, as stated, fails in the keystroke-driven loop: at the line
    [start 42] on an empty store the rule for numeric arguments does not
    hold, a task is created. *)
Lemma visual_start_numeric_creates_task :
  ~ numericStartRule idleThis emptyHost "42".
Proof.
  intros Hrule. destruct Hrule as [Htasks _].
  - apply allDigits_spec. reflexivity.
  - reflexivity.
  - reflexivity.
  - pose proof visual_start_42 as (_ & _ & Hcreated).
    change (typed idleThis ("start " ++ "42")%string) with typedStart42 in Htasks.
    rewrite Htasks in Hcreated. discriminate Hcreated.
Qed.

Lemma visual_start_line_unresolved (this : VisualMode.This) (w : World) (arg : string) :
  trimEnd arg = arg -> trim arg <> EmptyString ->
  noListedMatch this arg ->
  uniqueIds (file w) -> freshNextId (file w) -> runningHaveOpenSession (file w) ->
  fst (VisualMode.processCommand (typed this ("start " ++ arg)%string, w)) = Ok tt
  /\ VisualMode.this_statusMessage
       (fst (snd (VisualMode.processCommand (typed this ("start " ++ arg)%string, w))))
     = Some (CreatedAndStarted arg)
  /\ createdAndStarted (file w) (trim arg)
       (file (snd (snd (VisualMode.processCommand
                          (typed this ("start " ++ arg)%string, w))))).
Proof.
  intros Hend Hname Hnone Hnd Hfresh Hopen.
  assert (Hne : arg <> EmptyString) by (intros ->; apply Hname; reflexivity).
  rewrite (processCommand_start this w arg Hne Hend).
  set (s0 := (typed this ("start " ++ arg)%string, w)).
  destruct (visual_start_unresolved (typed this ("start " ++ arg)%string) w arg
              Hnone Hnd Hfresh Hopen Hname) as (Hr & Hm & Hc).
  fold s0 in Hr, Hm, Hc.
  destruct (VisualMode.startTaskByName arg s0) as [r [this' w']] eqn:Hs.
  simpl in Hr, Hm, Hc. subst r.
  assert (Htry : tryCatch (VisualMode.startTaskByName arg ;;; ret false)
                   (fun error => VisualMode.showMessage (ErrorLine error) ;;; ret false) s0
                 = (Ok false, (this', w'))).
  { unfold tryCatch. rewrite (bind_ok _ _ _ _ _ Hs). reflexivity. }
  rewrite (bind_ok _ _ _ _ _ Htry).
  split; [reflexivity|]. split; [exact Hm | exact Hc].
Qed.

(** C6, amended.  In the line-oriented interactive mode, when [findTask]
    resolves the argument of [start] to no task: a purely numeric argument
    gets the two not-found lines and the host is untouched, so no task is
    created; any other (non-blank) argument gets a new task of that name,
    created and started.  In the keystroke-driven visual mode the argument
    of a committed line [start <arg>] is only looked up by name among the
    listed tasks, and when none matches a new task of that name is created
    and started, whether the argument is numeric or not. *)
Theorem start_command_resolution :
  (forall console w input,
     fst (InteractiveMode.findTask input w) = Ok None ->
     (purelyNumeric input ->
      InteractiveMode.startTask input (console, w)
      = (Ok tt, (console ++ [TaskWithIdNotFound input; UseListHint], w)))
     /\ (~ purelyNumeric input ->
         uniqueIds (file w) -> freshNextId (file w) ->
         runningHaveOpenSession (file w) -> trim input <> EmptyString ->
         fst (InteractiveMode.startTask input (console, w)) = Ok tt
         /\ fst (snd (InteractiveMode.startTask input (console, w)))
            = console ++ [CreatingNewTask input; Started (trim input)]
         /\ createdAndStarted (file w) (trim input)
              (file (snd (snd (InteractiveMode.startTask input (console, w)))))))
  /\
  (forall this w arg,
     trimEnd arg = arg -> trim arg <> EmptyString ->
     noListedMatch this arg ->
     uniqueIds (file w) -> freshNextId (file w) -> runningHaveOpenSession (file w) ->
     fst (VisualMode.processCommand (typed this ("start " ++ arg)%string, w)) = Ok tt
     /\ VisualMode.this_statusMessage
          (fst (snd (VisualMode.processCommand
                       (typed this ("start " ++ arg)%string, w))))
        = Some (CreatedAndStarted arg)
     /\ createdAndStarted (file w) (trim arg)
          (file (snd (snd (VisualMode.processCommand
                             (typed this ("start " ++ arg)%string, w)))))).
Proof.
  split.
  - intros console w input Hfind. split.
    + intros Hnum. apply interactive_start_numeric_unresolved; assumption.
    + intros. apply interactive_start_name_unresolved; assumption.
  - intros. apply visual_start_line_unresolved; assumption.
Qed.

Lemma start_command_resolution_witness :
  fst (InteractiveMode.findTask "42" emptyHost) = Ok None
  /\ purelyNumeric "42"
  /\ InteractiveMode.startTask "42" ([], emptyHost)
     = (Ok tt, ([TaskWithIdNotFound "42"; UseListHint], emptyHost)).
Proof.
  assert (H : purelyNumeric "42") by (apply allDigits_spec; reflexivity).
  split; [reflexivity|]. split; [exact H|].
  exact (proj1 (proj1 start_command_resolution [] emptyHost "42" eq_refl) H).
Defined.

(** * Further properties of the engine *)

(** ** Stopping a running task, and undoing a stop *)

Lemma getTask_found i w t :
  fst (storage.getTask i w) = Ok (Some t) ->
  exists k, findById i (tasks (file w)) = Some (k, t).
Proof.
  rewrite getTask_eq. simpl.
  destruct (findById i (tasks (file w))) as [[k t0]|]; [|discriminate].
  simpl. intros [= ->]. eauto.
Qed.

(** X1. [stopTask] on a running task whose last session is open is
    [pauseTask] followed by the write of [stopped]: the session is closed
    at the first clock reading, its whole seconds are added to [totalTime],
    and [stoppedAt] is the second reading.  The task returned is the one
    stored, at the place it had, and the last-active pointer is the task. *)
Theorem stopTask_running_pauses_then_stops (w : World) (taskId : Z) (t : Task) (s : Session) :
  fst (storage.getTask taskId w) = Ok (Some t) ->
  status t = running -> last (sessions t) = Some s -> endTime s = None ->
  let tPause := clock w (tick w) in
  let tStop := clock w (S (tick w)) in
  let t' := stoppedTask tStop (pausedTask tPause t s) in
  fst (taskManager.pauseTask taskId w) = Ok (Some (pausedTask tPause t s))
  /\ fst (taskManager.stopTask taskId w) = Ok (Some t')
  /\ totalTime t' = totalTime t + (tPause - startTime s) / 1000
  /\ length (sessions t') = length (sessions t)
  /\ (exists k, tasks (file w) !! k = Some t
        /\ tasks (file (snd (taskManager.stopTask taskId w)))
           = <[k := t']> (tasks (file w)))
  /\ lastActiveTaskId (file (snd (taskManager.stopTask taskId w))) = Some taskId
  /\ tick (snd (taskManager.stopTask taskId w)) = S (S (tick w)).
Proof.
  intros [k Hf]%getTask_found Hr Hlast Hend. cbv zeta.
  pose proof (findById_Some _ _ _ _ Hf) as (Hk & Hid & _).
  assert (Hp : taskManager.pauseTask taskId w
               = (Ok (Some (pausedTask (now w) t s)),
                  withFile (ticked w)
                    (mkData (<[k := pausedTask (now w) t s]> (tasks (file w)))
                            (nextId (file w)) (Some taskId)))).
  { rewrite pauseTask_eq, Hf.
    destruct (decide (status t <> running)); [contradiction|].
    rewrite Hlast, Hend. reflexivity. }
  rewrite stopTask_eq, Hf.
  destruct (decide (status t = running)); [|contradiction].
  rewrite Hp. cbn [fst snd].
  unfold stopWrite. cbn [file withFile tasks].
  rewrite (findById_update _ _ _ _ (pausedTask (now w) t s) Hf) by exact Hid.
  cbn [fst snd file tasks withFile lastActiveTaskId tick ticked].
  split; [reflexivity|]. split; [reflexivity|]. split; [reflexivity|].
  split; [simpl; rewrite length_insert; reflexivity|].
  split; [|split; reflexivity].
  exists k. split; [exact Hk|]. rewrite list_insert_insert_eq. reflexivity.
Qed.


Lemma stopTask_running_pauses_then_stops_witness :
  fst (storage.getTask 1 runningHost) = Ok (Some runningSample)
  /\ status runningSample = running
  /\ fst (taskManager.stopTask 1 runningHost)
     = Ok (Some (stoppedTask 6000
                   (pausedTask 5000 runningSample (sampleOpenSession 2000))))
  /\ totalTime (stoppedTask 6000
                  (pausedTask 5000 runningSample (sampleOpenSession 2000))) = 65 + 3.
Proof.
  split; [reflexivity|]. split; [reflexivity|].
  pose proof (stopTask_running_pauses_then_stops runningHost 1 runningSample
                (sampleOpenSession 2000) eq_refl eq_refl eq_refl eq_refl)
    as (_ & H & Ht & _).
  split; [exact H | exact Ht].
Defined.

Lemma unstopped_stopped n t : unstoppedTask (stoppedTask n t) = unstoppedTask t.
Proof. destruct t. reflexivity. Qed.

Lemma unstoppedTask_paused t :
  status t = paused -> stoppedAt t = None -> unstoppedTask t = t.
Proof. destruct t. simpl. intros -> ->. reflexivity. Qed.

(** X2. [stopTask] then [unstopTask] on a task that is not running: both
    return, and the store ends as it was except that the task is [paused]
    with no [stoppedAt] (so a task that was [created] does not come back
    as [created]); the sessions, the total, the other tasks, the id counter
    and the last-active pointer are untouched, and when the task was
    [paused] with no [stoppedAt] the data file is exactly what it was. *)
Theorem stop_then_unstop (w : World) (taskId : Z) (t : Task) :
  fst (storage.getTask taskId w) = Ok (Some t) ->
  status t <> running ->
  let w1 := snd (taskManager.stopTask taskId w) in
  let w2 := snd (taskManager.unstopTask taskId w1) in
  fst (taskManager.stopTask taskId w) = Ok (Some (stoppedTask (now w) t))
  /\ fst (taskManager.unstopTask taskId w1) = Ok (Some (unstoppedTask t))
  /\ (exists k, tasks (file w) !! k = Some t
        /\ tasks (file w2) = <[k := unstoppedTask t]> (tasks (file w)))
  /\ nextId (file w2) = nextId (file w)
  /\ lastActiveTaskId (file w2) = lastActiveTaskId (file w)
  /\ (status t = paused -> stoppedAt t = None -> file w2 = file w).
Proof.
  intros [k Hf]%getTask_found Hnr. cbv zeta.
  pose proof (findById_Some _ _ _ _ Hf) as (Hk & Hid & _).
  assert (Hs : taskManager.stopTask taskId w
               = (Ok (Some (stoppedTask (now w) t)),
                  withFile (ticked w)
                    (mkData (<[k := stoppedTask (now w) t]> (tasks (file w)))
                            (nextId (file w)) (lastActiveTaskId (file w))))).
  { rewrite stopTask_eq, Hf.
    destruct (decide (status t = running)); [contradiction|].
    unfold stopWrite. rewrite Hf. reflexivity. }
  rewrite Hs. cbn [fst snd].
  rewrite unstopTask_eq. cbn [file withFile tasks].
  rewrite (findById_update _ _ _ _ (stoppedTask (now w) t) Hf) by exact Hid.
  destruct (decide (status (stoppedTask (now w) t) <> stopped)) as [Hn|_];
    [exfalso; apply Hn; reflexivity|].
  rewrite unstopped_stopped, list_insert_insert_eq.
  cbn [fst snd file withFile tasks nextId lastActiveTaskId].
  split; [reflexivity|]. split; [reflexivity|].
  split; [exists k; split; [exact Hk | reflexivity]|].
  split; [reflexivity|]. split; [reflexivity|].
  intros Hp Hnone. rewrite (unstoppedTask_paused _ Hp Hnone), (list_insert_id _ _ _ Hk).
  destruct (file w). reflexivity.
Qed.

Lemma stop_then_unstop_witness :
  fst (storage.getTask 1 pausedHost) = Ok (Some pausedSample)
  /\ status pausedSample <> running
  /\ file (snd (taskManager.unstopTask 1 (snd (taskManager.stopTask 1 pausedHost))))
     = file pausedHost.
Proof.
  assert (Hnr : status pausedSample <> running) by discriminate.
  split; [reflexivity|]. split; [exact Hnr|].
  exact (proj2 (proj2 (proj2 (proj2 (proj2
           (stop_then_unstop pausedHost 1 pausedSample eq_refl Hnr)))))
         eq_refl eq_refl).
Defined.

(** X3. [stopTask] then [unstopTask] on a running task whose last session
    is open leaves in the store exactly what [pauseTask] alone leaves, when
    the task carried no [stoppedAt]: stopping and reopening a running task
    is a pause. *)
Theorem stop_unstop_running_is_pause (w : World) (taskId : Z) (t : Task) (s : Session) :
  fst (storage.getTask taskId w) = Ok (Some t) ->
  status t = running -> last (sessions t) = Some s -> endTime s = None ->
  stoppedAt t = None ->
  let w1 := snd (taskManager.stopTask taskId w) in
  let w2 := snd (taskManager.unstopTask taskId w1) in
  fst (taskManager.unstopTask taskId w1) = fst (taskManager.pauseTask taskId w)
  /\ file w2 = file (snd (taskManager.pauseTask taskId w)).
Proof.
  intros [k Hf]%getTask_found Hr Hlast Hend Hnone. cbv zeta.
  pose proof (findById_Some _ _ _ _ Hf) as (Hk & Hid & _).
  assert (Hp : taskManager.pauseTask taskId w
               = (Ok (Some (pausedTask (now w) t s)),
                  withFile (ticked w)
                    (mkData (<[k := pausedTask (now w) t s]> (tasks (file w)))
                            (nextId (file w)) (Some taskId)))).
  { rewrite pauseTask_eq, Hf.
    destruct (decide (status t <> running)); [contradiction|].
    rewrite Hlast, Hend. reflexivity. }
  rewrite stopTask_eq, Hf.
  destruct (decide (status t = running)); [|contradiction].
  rewrite Hp. cbn [fst snd].
  set (tp := pausedTask (now w) t s).
  assert (Hf1 : findById taskId (<[k := tp]> (tasks (file w))) = Some (k, tp))
    by (apply (findById_update _ _ _ t); [exact Hf | exact Hid]).
  unfold stopWrite. cbn [file withFile tasks]. rewrite Hf1. cbn [fst snd].
  rewrite unstopTask_eq. cbn [file withFile tasks].
  set (n1 := now _).
  rewrite (findById_update _ _ _ _ (stoppedTask n1 tp) Hf1) by exact Hid.
  destruct (decide (status (stoppedTask n1 tp) <> stopped)) as [Hn|_];
    [exfalso; apply Hn; reflexivity|].
  rewrite unstopped_stopped.
  assert (Htp : unstoppedTask tp = tp).
  { apply unstoppedTask_paused; [reflexivity|]. exact Hnone. }
  rewrite Htp, !list_insert_insert_eq.
  cbn [fst snd file withFile tasks nextId lastActiveTaskId]. split; reflexivity.
Qed.

Lemma stop_unstop_running_is_pause_witness :
  fst (storage.getTask 1 runningHost) = Ok (Some runningSample)
  /\ file (snd (taskManager.unstopTask 1 (snd (taskManager.stopTask 1 runningHost))))
     = file (snd (taskManager.pauseTask 1 runningHost)).
Proof.
  split; [reflexivity|].
  exact (proj2 (stop_unstop_running_is_pause runningHost 1 runningSample
                  (sampleOpenSession 2000) eq_refl eq_refl eq_refl eq_refl eq_refl)).
Defined.


(** ** A call that throws *)

Lemma pauseTask_throw_file i w e :
  fst (taskManager.pauseTask i w) = Throw e ->
  file (snd (taskManager.pauseTask i w)) = file w.
Proof.
  rewrite pauseTask_eq.
  destruct (findById i (tasks (file w))) as [[k t]|]; [|reflexivity].
  destruct (decide (status t <> running)); [reflexivity|].
  destruct (last (sessions t)) as [s|]; [|reflexivity].
  destruct (endTime s); [reflexivity|discriminate].
Qed.

Lemma stopWrite_returns i w : exists r, fst (stopWrite i w) = Ok r.
Proof.
  unfold stopWrite. destruct (findById i (tasks (file w))) as [[k t]|]; eauto.
Qed.

Lemma runOp_fst o w :
  fst (runOp o w) =
  match o with
  | CreateTask name0 url0 =>
      match fst (taskManager.createTask name0 url0 w) with
      | Ok _ => Ok tt | Throw e => Throw e end
  | StartTask i =>
      match fst (taskManager.startTask i w) with
      | Ok _ => Ok tt | Throw e => Throw e end
  | PauseTask i =>
      match fst (taskManager.pauseTask i w) with
      | Ok _ => Ok tt | Throw e => Throw e end
  | StopTask i =>
      match fst (taskManager.stopTask i w) with
      | Ok _ => Ok tt | Throw e => Throw e end
  | UnstopTask i =>
      match fst (taskManager.unstopTask i w) with
      | Ok _ => Ok tt | Throw e => Throw e end
  end.
Proof.
  destruct o; unfold runOp, bind;
    match goal with |- context [?f w] => destruct (f w) as [[?|?] ?] end; reflexivity.
Qed.

Lemma runOp_snd o w :
  snd (runOp o w) =
  match o with
  | CreateTask name0 url0 => snd (taskManager.createTask name0 url0 w)
  | StartTask i => snd (taskManager.startTask i w)
  | PauseTask i => snd (taskManager.pauseTask i w)
  | StopTask i => snd (taskManager.stopTask i w)
  | UnstopTask i => snd (taskManager.unstopTask i w)
  end.
Proof.
  destruct o; unfold runOp, bind;
    match goal with |- context [?f w] => destruct (f w) as [[?|?] ?] end; reflexivity.
Qed.

(** X4. An engine call that throws leaves the data file as it was:
    [createTask], [pauseTask], [stopTask] and [unstopTask] always, and
    [startTask] on a store with unique ids in which every running task has
    its last session open (there the pauses it performs first cannot fail;
    [startTask_can_fail_half_way] shows a store where they do). *)
Theorem throwing_call_keeps_file (o : Op) (w : World) (e : Error) :
  fst (runOp o w) = Throw e ->
  (forall i, o <> StartTask i)
  \/ (uniqueIds (file w) /\ runningHaveOpenSession (file w)) ->
  file (snd (runOp o w)) = file w.
Proof.
  rewrite runOp_fst, runOp_snd. intros Hthrow Hside. destruct o as [n u|i|i|i|i].
  - rewrite createTask_eq in *.
    destruct (decide (n = EmptyString \/ trim n = EmptyString)); [reflexivity|].
    discriminate.
  - destruct Hside as [Hno|[Hnd Hopen]]; [exfalso; exact (Hno i eq_refl)|].
    destruct (findById i (tasks (file w))) as [[k t]|] eqn:Hf.
    + destruct (decide (status t = running)) as [Hr|Hnr].
      * rewrite startTask_eq, Hf.
        destruct (decide (status t = running)); [reflexivity|contradiction].
      * pose proof (findById_Some _ _ _ _ Hf) as (Hk & Hid & _).
        destruct (startTask_succeeds w k t Hnd Hopen Hk Hnr) as (w1 & _ & Hs).
        rewrite Hid in Hs. rewrite Hs in Hthrow. discriminate.
    + rewrite startTask_eq, Hf. reflexivity.
  - destruct (fst (taskManager.pauseTask i w)) as [r|e'] eqn:Hp; [discriminate|].
    exact (pauseTask_throw_file _ _ _ Hp).
  - rewrite stopTask_eq in *.
    destruct (findById i (tasks (file w))) as [[k t]|]; [|reflexivity].
    destruct (decide (status t = running)).
    + destruct (taskManager.pauseTask i w) as [[r|e'] w1] eqn:Hp.
      * destruct (stopWrite_returns i w1) as [r' Hr']. rewrite Hr' in Hthrow.
        discriminate.
      * change w1 with (snd (Throw (A:=option Task) e', w1)). rewrite <- Hp.
        apply (pauseTask_throw_file _ _ e'). rewrite Hp. reflexivity.
    + destruct (stopWrite_returns i w) as [r' Hr']. rewrite Hr' in Hthrow.
      discriminate.
  - rewrite unstopTask_eq in *.
    destruct (findById i (tasks (file w))) as [[k t]|]; [|reflexivity].
    destruct (decide (status t <> stopped)); [reflexivity|discriminate].
Qed.

Lemma throwing_call_keeps_file_witness :
  fst (runOp (StartTask 1) runningHost) = Throw AlreadyRunning
  /\ file (snd (runOp (StartTask 1) runningHost)) = file runningHost.
Proof.
  assert (H : fst (runOp (StartTask 1) runningHost) = Throw AlreadyRunning)
    by reflexivity.
  split; [exact H|].
  apply (throwing_call_keeps_file (StartTask 1) runningHost AlreadyRunning H).
  right. split.
  - apply (bool_decide_unpack _). vm_compute. exact I.
  - repeat constructor. intros _. exists (sampleOpenSession 2000). split; reflexivity.
Defined.

(** Without that hypothesis [startTask] is not all-or-nothing: on
    [halfPausableHost] it pauses task 1, throws while pausing task 2, and
    task 1 stays paused. *)
Example startTask_can_fail_half_way :
  fst (taskManager.startTask 3 halfPausableHost) = Throw NoActiveSession
  /\ status <$> tasks (file halfPausableHost) = [running; running; paused]
  /\ status <$> tasks (file (snd (taskManager.startTask 3 halfPausableHost)))
     = [paused; running; paused].
Proof. vm_compute. auto. Qed.


(** ** Switching from one task to another *)

(** X5. Starting a task while another one is the only running task: the
    running task is paused at the first clock reading (its open session
    closed, the whole seconds added to its [totalTime]), the task asked for
    is started at the second reading with a new open session, the
    last-active pointer is the task asked for, and every other task stays
    as it was. *)
Theorem startTask_switches (w : World) (ki kj : nat) (ti tj : Task) (s : Session) :
  uniqueIds (file w) ->
  tasks (file w) !! ki = Some ti -> tasks (file w) !! kj = Some tj ->
  filter isRunning (tasks (file w)) = [ti] ->
  last (sessions ti) = Some s -> endTime s = None ->
  status tj <> running ->
  let tPause := clock w (tick w) in
  let tStart := clock w (S (tick w)) in
  let w' := snd (taskManager.startTask (id tj) w) in
  fst (taskManager.startTask (id tj) w) = Ok (Some (startedTask tStart tj))
  /\ tasks (file w')
     = <[kj := startedTask tStart tj]> (<[ki := pausedTask tPause ti s]> (tasks (file w)))
  /\ filter isRunning (tasks (file w')) = [startedTask tStart tj]
  /\ lastActiveTaskId (file w') = Some (id tj)
  /\ tick w' = S (S (tick w)).
Proof.
  intros Hnd Hki Hkj Hrun Hlast Hend Hnr. cbv zeta.
  assert (Hri : status ti = running).
  { assert (Hin : ti ∈ filter isRunning (tasks (file w)))
      by (rewrite Hrun; apply list_elem_of_singleton; reflexivity).
    apply list_elem_of_filter in Hin. tauto. }
  assert (Hne : ki <> kj) by (intros ->; congruence).
  assert (Hidne : id ti <> id tj).
  { intros Heq. apply Hne. eapply uniqueIds_index; eauto. }
  destruct (pauseTask_succeeds w ki ti Hnd Hki Hri) as (s' & Hlast' & _ & Hp).
  { exists s. auto. }
  assert (s' = s) as -> by congruence.
  rewrite startTask_eq, (findById_unique _ _ _ Hnd Hkj).
  destruct (decide (status tj = running)); [contradiction|].
  assert (Hloop : forEach [ti] (pauseUnless (id tj)) w
                  = (Ok tt, snd (taskManager.pauseTask (id ti) w))).
  { simpl. unfold pauseUnless, bind.
    destruct (decide (id ti <> id tj)); [|contradiction].
    rewrite Hp. reflexivity. }
  rewrite Hrun, Hloop, Hp.
  cbn [fst snd file withFile tasks ticked tick clock now lastActiveTaskId].
  split; [reflexivity|]. split; [reflexivity|]. split; [|split; reflexivity].
  set (tp := pausedTask _ ti s). set (ts := startedTask _ tj).
  assert (Hkj' : <[ki := tp]> (tasks (file w)) !! kj = Some tj)
    by (rewrite list_lookup_insert_ne by exact Hne; exact Hkj).
  apply (filter_update_only isRunning _ kj tj ts); [|exact Hkj'|reflexivity].
  apply Forall_lookup. intros j y Hj Hy.
  destruct (decide (j = ki)) as [->|Hjki].
  - rewrite list_lookup_insert_eq in Hj by (eapply lookup_lt_Some; eauto).
    injection Hj as <-. discriminate Hy.
  - rewrite list_lookup_insert_ne in Hj by congruence.
    assert (Hin : y ∈ filter isRunning (tasks (file w))).
    { apply list_elem_of_filter. split; [exact Hy|].
      apply list_elem_of_lookup. eauto. }
    rewrite Hrun in Hin. apply list_elem_of_singleton in Hin. subst y.
    apply Hjki. eapply uniqueIds_index; eauto.
Qed.


Lemma startTask_switches_witness :
  filter isRunning (tasks (file switchHost)) = [runningSample]
  /\ status reviewSample <> running
  /\ fst (taskManager.startTask 2 switchHost)
     = Ok (Some (startedTask 6000 reviewSample))
  /\ tasks (file (snd (taskManager.startTask 2 switchHost)))
     = [pausedTask 5000 runningSample (sampleOpenSession 2000);
        startedTask 6000 reviewSample].
Proof.
  assert (Hnd : uniqueIds (file switchHost))
    by (apply (bool_decide_unpack _); vm_compute; exact I).
  assert (Hnr : status reviewSample <> running) by discriminate.
  split; [reflexivity|]. split; [exact Hnr|].
  pose proof (startTask_switches switchHost 0 1 runningSample reviewSample
                (sampleOpenSession 2000) Hnd eq_refl eq_refl eq_refl eq_refl
                eq_refl Hnr) as (H1 & H2 & _).
  split; [exact H1 | exact H2].
Defined.

(** ** Creating a task *)

Lemma findById_app_fresh i (l : list Task) a :
  id a = i -> Forall (fun t => id t <> i) l ->
  findById i (l ++ [a]) = Some (length l, a).
Proof.
  intros Hid HF. unfold findById. apply list_find_Some.
  split; [apply list_lookup_middle; reflexivity|]. split; [exact Hid|].
  intros j y Hj Hlt. rewrite lookup_app_l in Hj by exact Hlt.
  rewrite Forall_lookup in HF. eauto.
Qed.

Lemma findById_app_other i (l : list Task) a :
  id a <> i -> findById i (l ++ [a]) = findById i l.
Proof.
  intros Hne. unfold findById.
  destruct (list_find _ l) as [[k t]|] eqn:Hl.
  - apply list_find_app_l. exact Hl.
  - apply list_find_app_None. split; [exact Hl|].
    apply list_find_None. repeat constructor. exact Hne.
Qed.

(** X6. [createTask]: a name that is empty or blank is refused with 'Task
    name is required' and nothing changes; any other name returns a task
    in status [created], with the trimmed name and url, no session and no
    time, under the id that was next; the task is appended after the
    existing ones, which keep their places, the id counter goes up by one
    and the last-active pointer stays.  When the ids in the store are below
    the counter, as they are in every reachable store, the new id is not
    one of theirs, the new task is the one found under its id, and every
    other id finds what it found before. *)
Theorem createTask_appends_fresh (w : World) (name0 url0 : string) :
  let rw := taskManager.createTask name0 url0 w in
  (trim name0 = EmptyString -> rw = (Throw NameRequired, w))
  /\ (trim name0 <> EmptyString ->
      exists a,
        fst rw = Ok a
        /\ a = createdTask (nextId (file w)) (trim name0) (trim url0) (now w)
        /\ tasks (file (snd rw)) = tasks (file w) ++ [a]
        /\ nextId (file (snd rw)) = nextId (file w) + 1
        /\ lastActiveTaskId (file (snd rw)) = lastActiveTaskId (file w)
        /\ (Forall (fun t => id t < nextId (file w)) (tasks (file w)) ->
            (id a ∉ id <$> tasks (file w))
            /\ fst (storage.getTask (id a) (snd rw)) = Ok (Some a)
            /\ Forall (fun t => id t < nextId (file (snd rw))) (tasks (file (snd rw)))
            /\ forall j, j <> id a ->
                 fst (storage.getTask j (snd rw)) = fst (storage.getTask j w))).
Proof.
  cbv zeta. rewrite createTask_eq. split.
  - intros Hblank.
    destruct (decide (name0 = EmptyString \/ trim name0 = EmptyString)) as [|Hn];
      [reflexivity|]. exfalso. apply Hn. right. exact Hblank.
  - intros Hname.
    destruct (decide (name0 = EmptyString \/ trim name0 = EmptyString)) as [[->|Hb]|_];
      [exfalso; apply Hname; reflexivity | contradiction |].
    cbv zeta. eexists. split; [reflexivity|]. split; [reflexivity|].
    cbn [fst snd file withFile tasks nextId lastActiveTaskId].
    split; [reflexivity|]. split; [reflexivity|]. split; [reflexivity|].
    intros Hlt. rewrite !getTask_eq. cbn [fst snd file withFile tasks id].
    split; [|split; [|split]].
    + intros (t & Hid & Hin)%list_elem_of_fmap.
      rewrite Forall_forall in Hlt. specialize (Hlt t Hin). simpl in Hid. lia.
    + rewrite (findById_app_fresh (nextId (file w))); [reflexivity|reflexivity|].
      eapply Forall_impl; [exact Hlt|]. simpl. intros t Ht. lia.
    + apply Forall_app. split.
      * eapply Forall_impl; [exact Hlt|]. simpl. intros t Ht. lia.
      * repeat constructor. simpl. lia.
    + intros j Hj. rewrite !getTask_eq. cbn [fst snd file withFile tasks].
      rewrite findById_app_other; [reflexivity|].
      simpl. congruence.
Qed.

Lemma createTask_appends_fresh_witness :
  trim "  plan week " <> EmptyString
  /\ exists a,
       fst (taskManager.createTask "  plan week " EmptyString pausedHost) = Ok a
       /\ name a = "plan week" /\ id a = 2.
Proof.
  assert (Hn : trim "  plan week " <> EmptyString) by discriminate.
  split; [exact Hn|].
  destruct (proj2 (createTask_appends_fresh pausedHost "  plan week " EmptyString) Hn)
    as (a & Ha & -> & _).
  exists (createdTask (nextId (file pausedHost)) (trim "  plan week ") (trim EmptyString)
            (now pausedHost)).
  split; [exact Ha|]. split; reflexivity.
Defined.


(** ** The last-active pointer *)

Lemma startTask_Ok_inv taskId w t' :
  fst (taskManager.startTask taskId w) = Ok (Some t') ->
  exists k t w1,
    findById taskId (tasks (file w)) = Some (k, t)
    /\ status t <> running
    /\ forEach (filter isRunning (tasks (file w))) (pauseUnless taskId) w = (Ok tt, w1)
    /\ findById taskId (tasks (file w1)) = Some (k, t)
    /\ t' = startedTask (now w1) t
    /\ snd (taskManager.startTask taskId w)
       = withFile (ticked w1)
           (mkData (<[k := t']> (tasks (file w1))) (nextId (file w1)) (Some taskId)).
Proof.
  rewrite startTask_eq.
  destruct (findById taskId (tasks (file w))) as [[k t]|] eqn:Hf; [|discriminate].
  destruct (decide (status t = running)) as [|Hnr]; [discriminate|].
  destruct (forEach _ _ w) as [[[]|e] w1] eqn:Hloop; [|discriminate].
  cbv zeta. cbn [fst snd]. intros [= <-].
  exists k, t, w1. repeat split; try reflexivity; try assumption.
  apply forEach_pause_step in Hloop as [HF _].
  eapply findById_pauseStepOn; [exact HF | | exact Hf]. intros H. apply H. reflexivity.
Qed.

Lemma pauseTask_Ok_inv i w r :
  fst (taskManager.pauseTask i w) = Ok r ->
  exists k t s,
    findById i (tasks (file w)) = Some (k, t)
    /\ status t = running /\ last (sessions t) = Some s /\ endTime s = None
    /\ r = Some (pausedTask (now w) t s)
    /\ snd (taskManager.pauseTask i w)
       = withFile (ticked w)
           (mkData (<[k := pausedTask (now w) t s]> (tasks (file w)))
                   (nextId (file w)) (Some i)).
Proof.
  rewrite pauseTask_eq.
  destruct (findById i (tasks (file w))) as [[k t]|] eqn:Hf; [|discriminate].
  destruct (decide (status t <> running)) as [|Hr%dec_stable]; [discriminate|].
  destruct (last (sessions t)) as [s|] eqn:Hlast; [|discriminate].
  destruct (endTime s) eqn:Hend; [discriminate|].
  cbn [fst snd]. intros [= <-]. exists k, t, s. repeat split; assumption.
Qed.

Lemma getLastActiveTask_eq w :
  taskManager.getLastActiveTask w =
  (Ok (match lastActiveTaskId (file w) with
       | Some i => if decide (i = 0) then None
                   else taskManager.getTaskSummary <$> (snd <$> findById i (tasks (file w)))
       | None => None
       end), w).
Proof.
  unfold taskManager.getLastActiveTask, storage.getLastActiveTask, bind, loadData.
  simpl. destruct (lastActiveTaskId (file w)) as [i|]; [|reflexivity].
  destruct (decide (i = 0)); reflexivity.
Qed.

(** X7. The last-active pointer.  For calls that pass the task id as a
    number (the visual mode, the navigation and the interactive mode pass
    the [id] of a stored task): a [startTask] or a [pauseTask] that returns
    leaves the pointer on its task, and [getLastActiveTask] then answers
    with the summary of the task just returned, unless the id is 0, which
    the truth test of [storage.getLastActiveTask] takes for no pointer at
    all.  [createTask] and [unstopTask] never move the pointer, and
    [stopTask] moves it only when it has to pause the task.  On the stored
    value as the caller passes it ([lastActivePointer]): a number is found
    again as the engine model says, and a text, which is what [index.js]
    passes, is stored as that text and [getLastActiveTask] then finds no
    task, whatever the text and the tasks. *)
Theorem lastActive_pointer (w : World) (taskId : Z) :
  (forall t', fst (taskManager.startTask taskId w) = Ok (Some t') ->
     let w' := snd (taskManager.startTask taskId w) in
     lastActiveTaskId (file w') = Some taskId
     /\ fst (taskManager.getLastActiveTask w')
        = Ok (if decide (taskId = 0) then None else Some (taskManager.getTaskSummary t')))
  /\ (forall t', fst (taskManager.pauseTask taskId w) = Ok (Some t') ->
     let w' := snd (taskManager.pauseTask taskId w) in
     lastActiveTaskId (file w') = Some taskId
     /\ fst (taskManager.getLastActiveTask w')
        = Ok (if decide (taskId = 0) then None else Some (taskManager.getTaskSummary t')))
  /\ (forall name0 url0,
        lastActiveTaskId (file (snd (taskManager.createTask name0 url0 w)))
        = lastActiveTaskId (file w))
  /\ lastActiveTaskId (file (snd (taskManager.unstopTask taskId w)))
     = lastActiveTaskId (file w)
  /\ (lastActiveTaskId (file (snd (taskManager.stopTask taskId w)))
      = lastActiveTaskId (file w)
      \/ (lastActiveTaskId (file (snd (taskManager.stopTask taskId w))) = Some taskId
          /\ exists t, fst (storage.getTask taskId w) = Ok (Some t)
                       /\ status t = running))
  /\ (forall d,
        lastActivePointer.getLastActiveTask
          (lastActivePointer.setLastActiveTask (lastActivePointer.Number taskId) d)
        = (if decide (taskId = 0) then None
           else snd <$> list_find (fun task => id task = taskId)
                                  (lastActivePointer.tasks d))
        /\ (lastActivePointer.tasks d = tasks (file w) ->
            Ok (lastActivePointer.getLastActiveTask
                  (lastActivePointer.setLastActiveTask (lastActivePointer.Number taskId) d))
            = fst (storage.getLastActiveTask (snd (storage.setLastActiveTask taskId w)))))
  /\ (forall d s,
        lastActivePointer.lastActiveTaskId
          (lastActivePointer.setLastActiveTask (lastActivePointer.Text s) d)
        = Some (lastActivePointer.Text s)
        /\ lastActivePointer.getLastActiveTask
             (lastActivePointer.setLastActiveTask (lastActivePointer.Text s) d)
           = None).
Proof.
  split; [|split; [|split; [|split; [|split; [|split]]]]].
  - intros t' (k & t & w1 & Hf & _ & _ & Hf1 & -> & Hw)%startTask_Ok_inv. cbv zeta.
    rewrite Hw, getLastActiveTask_eq.
    cbn [fst snd file withFile tasks lastActiveTaskId].
    split; [reflexivity|]. destruct (decide (taskId = 0)); [reflexivity|].
    rewrite (findById_update _ _ _ _ (startedTask (now w1) t) Hf1); [reflexivity|].
    apply findById_Some in Hf. simpl. tauto.
  - intros t' (k & t & s & Hf & _ & _ & _ & [= ->] & Hw)%pauseTask_Ok_inv. cbv zeta.
    rewrite Hw, getLastActiveTask_eq.
    cbn [fst snd file withFile tasks lastActiveTaskId].
    split; [reflexivity|]. destruct (decide (taskId = 0)); [reflexivity|].
    rewrite (findById_update _ _ _ _ (pausedTask (now w) t s) Hf); [reflexivity|].
    apply findById_Some in Hf. simpl. tauto.
  - intros name0 url0. rewrite createTask_eq.
    destruct (decide (name0 = EmptyString \/ trim name0 = EmptyString)); reflexivity.
  - rewrite unstopTask_eq.
    destruct (findById taskId (tasks (file w))) as [[k t]|]; [|reflexivity].
    destruct (decide (status t <> stopped)); reflexivity.
  - rewrite stopTask_eq, getTask_eq.
    destruct (findById taskId (tasks (file w))) as [[k t]|] eqn:Hf; [|left; reflexivity].
    assert (Hsw : forall w0, lastActiveTaskId (file (snd (stopWrite taskId w0)))
                             = lastActiveTaskId (file w0)).
    { intros w0. unfold stopWrite.
      destruct (findById taskId (tasks (file w0))) as [[k0 t0]|]; reflexivity. }
    destruct (decide (status t = running)) as [Hr|Hnr]; [|left; apply Hsw].
    destruct (taskManager.pauseTask taskId w) as [[r|e] w1] eqn:Hp.
    + right. split; [|exists t; split; [reflexivity | exact Hr]].
      rewrite Hsw.
      destruct (pauseTask_Ok_inv taskId w r) as (k0 & t0 & s & _ & _ & _ & _ & _ & Hw);
        [rewrite Hp; reflexivity|].
      rewrite Hp in Hw. simpl in Hw. subst w1. reflexivity.
    + left. cbn [snd].
      change w1 with (snd (Throw (A:=option Task) e, w1)). rewrite <- Hp.
      f_equal. apply (pauseTask_throw_file _ _ e). rewrite Hp. reflexivity.
  - intros d.
    assert (Hraw : lastActivePointer.getLastActiveTask
                     (lastActivePointer.setLastActiveTask (lastActivePointer.Number taskId) d)
                   = (if decide (taskId = 0) then None
                      else snd <$> list_find (fun task => id task = taskId)
                                             (lastActivePointer.tasks d))).
    { unfold lastActivePointer.getLastActiveTask, lastActivePointer.setLastActiveTask.
      cbn [lastActivePointer.lastActiveTaskId lastActivePointer.tasks
           lastActivePointer.truthy].
      destruct (decide (taskId = 0)) as [Hz|Hz].
      - rewrite bool_decide_eq_false_2; [reflexivity | intros Hn; exact (Hn Hz)].
      - rewrite bool_decide_eq_true_2 by exact Hz.
        reflexivity. }
    split; [exact Hraw|].
    intros Htasks. rewrite Hraw, Htasks.
    unfold storage.getLastActiveTask, storage.setLastActiveTask, loadData, saveData, bind.
    cbn [fst snd file tasks lastActiveTaskId].
    destruct (decide (taskId = 0)); reflexivity.
  - intros d s. split; [reflexivity|].
    unfold lastActivePointer.getLastActiveTask, lastActivePointer.setLastActiveTask.
    cbn [lastActivePointer.lastActiveTaskId lastActivePointer.tasks].
    destruct (lastActivePointer.truthy (lastActivePointer.Text s)); [|reflexivity].
    destruct (list_find _ _) as [[k t]|] eqn:Hf; [|reflexivity].
    apply list_find_Some in Hf as (_ & Hfalse & _). destruct Hfalse.
Qed.

Lemma lastActive_pointer_witness :
  fst (taskManager.startTask 2 switchHost) = Ok (Some (startedTask 6000 reviewSample))
  /\ lastActiveTaskId (file switchHost) = Some 1
  /\ lastActiveTaskId (file (snd (taskManager.startTask 2 switchHost))) = Some 2
  /\ lastActivePointer.getLastActiveTask
       (lastActivePointer.setLastActiveTask (lastActivePointer.Text "2")
          (lastActivePointer.mkData (tasks (file switchHost)) None))
     = None.
Proof.
  assert (H : fst (taskManager.startTask 2 switchHost)
              = Ok (Some (startedTask 6000 reviewSample))) by reflexivity.
  split; [exact H|]. split; [reflexivity|].
  pose proof (lastActive_pointer switchHost 2) as (Hstart & _ & _ & _ & _ & _ & Htext).
  split; [exact (proj1 (Hstart _ H)) | exact (proj2 (Htext _ "2"%string))].
Defined.


(** ** Nothing is ever deleted *)

Lemma sessionKept_trans s1 s2 s3 :
  sessionKept s1 s2 -> sessionKept s2 s3 -> sessionKept s1 s3.
Proof.
  intros [-> | (Hopen & e & ->)] H23; [exact H23|].
  destruct H23 as [-> | (Hopen2 & _)]; [right; eauto | discriminate].
Qed.

Lemma taskKept_refl t : taskKept t t.
Proof. repeat split. intros k s Hk. exists s. split; [exact Hk | left; reflexivity]. Qed.

Lemma taskKept_trans t1 t2 t3 : taskKept t1 t2 -> taskKept t2 t3 -> taskKept t1 t3.
Proof.
  intros (Hi & Hn & Hu & Hc & Hs) (Hi' & Hn' & Hu' & Hc' & Hs').
  repeat split; try congruence.
  intros k s Hk. destruct (Hs k s Hk) as (s2 & Hk2 & H12).
  destruct (Hs' k s2 Hk2) as (s3 & Hk3 & H23).
  exists s3. split; [exact Hk3 | eapply sessionKept_trans; eauto].
Qed.

Lemma historyKept_trans l1 l2 l3 :
  historyKept l1 l2 -> historyKept l2 l3 -> historyKept l1 l3.
Proof.
  intros H12 H23 k t Hk. destruct (H12 k t Hk) as (t2 & Hk2 & Ht).
  destruct (H23 k t2 Hk2) as (t3 & Hk3 & Ht').
  exists t3. split; [exact Hk3 | eapply taskKept_trans; eauto].
Qed.

Lemma taskKept_paused n t s :
  last (sessions t) = Some s -> endTime s = None -> taskKept t (pausedTask n t s).
Proof.
  intros Hlast Hend. repeat split. intros k x Hk. simpl.
  destruct (decide (k = pred (length (sessions t)))) as [->|Hne].
  - rewrite last_lookup in Hlast. assert (x = s) as -> by congruence.
    rewrite list_lookup_insert_eq by (eapply lookup_lt_Some; eauto).
    eexists. split; [reflexivity|]. right. split; [exact Hend|]. eauto.
  - rewrite list_lookup_insert_ne by congruence.
    exists x. split; [exact Hk | left; reflexivity].
Qed.

Lemma opStep_taskKept o t t' : opStep o t t' -> taskKept t t'.
Proof.
  intros [ | n s Ho Hr Hlast Hend | n Ho Hnr | n Ho Hnr
         | n n' s Ho Hr Hlast Hend | Ho Hst ].
  - apply taskKept_refl.
  - apply taskKept_paused; assumption.
  - repeat split. intros k x Hk. exists x. simpl.
    split; [apply lookup_app_l_Some; exact Hk | left; reflexivity].
  - repeat split. intros k x Hk. exists x. split; [exact Hk | left; reflexivity].
  - apply (taskKept_trans _ (pausedTask n t s)); [apply taskKept_paused; assumption|].
    repeat split. intros k x Hk. exists x. split; [exact Hk | left; reflexivity].
  - repeat split. intros k x Hk. exists x. split; [exact Hk | left; reflexivity].
Qed.

Lemma runOp_historyKept o w :
  historyKept (tasks (file w)) (tasks (file (snd (runOp o w)))).
Proof.
  destruct (runOp o w) as [r w'] eqn:Hrun.
  apply runOp_opStep in Hrun as (front & extra & Htasks & HF & _).
  simpl. rewrite Htasks. intros k t Hk.
  destruct (Forall2_lookup_l _ _ _ _ _ HF Hk) as (t' & Hk' & Hstep).
  exists t'. split; [apply lookup_app_l_Some; exact Hk' | eapply opStep_taskKept; eauto].
Qed.

(** X8. The engine never deletes anything.  Whatever operations are run,
    from whatever store: every task is still at its place in the list with
    the id, name, url and creation time it had, and each of its sessions is
    still at its place, either untouched or, if it was open, closed with
    the start it had and the whole seconds from start to end as duration.
    A closed session is never altered again, and the list of tasks never
    gets shorter. *)
Theorem history_is_kept (ops : list Op) (w : World) :
  historyKept (tasks (file w)) (tasks (file (runOps ops w)))
  /\ (length (tasks (file w)) <= length (tasks (file (runOps ops w))))%nat.
Proof.
  assert (H : historyKept (tasks (file w)) (tasks (file (runOps ops w)))).
  { revert w. induction ops as [|o ops IH]; intros w; simpl.
    - intros k t Hk. exists t. split; [exact Hk | apply taskKept_refl].
    - eapply historyKept_trans; [apply runOp_historyKept | apply IH]. }
  split; [exact H|].
  destruct (tasks (file w)) as [|a l] eqn:Hl using rev_ind; [simpl; lia|].
  clear IHl. destruct (H (length l) a) as (t' & Hk & _).
  - apply list_lookup_middle. reflexivity.
  - apply lookup_lt_Some in Hk. rewrite length_app. simpl. lia.
Qed.


(** ** The stores the engine can reach *)

Lemma Forall2_opStep_ids o (l l' : list Task) :
  Forall2 (opStep o) l l' -> id <$> l' = id <$> l.
Proof.
  induction 1 as [|a b l l' Hab _ IH]; [reflexivity|].
  simpl. f_equal; [eapply opStep_id; eauto | exact IH].
Qed.

Lemma ids_in_order_runOp o w :
  1 <= nextId (file w) ->
  id <$> tasks (file w) = seqZ 1 (nextId (file w) - 1) ->
  1 <= nextId (file (snd (runOp o w)))
  /\ id <$> tasks (file (snd (runOp o w))) = seqZ 1 (nextId (file (snd (runOp o w))) - 1).
Proof.
  intros Hpos Hids. destruct (runOp o w) as [r w'] eqn:Hrun.
  apply runOp_opStep in Hrun as (front & extra & Htasks & HF & Hextra).
  simpl. rewrite Htasks, fmap_app, (Forall2_opStep_ids _ _ _ HF), Hids.
  destruct Hextra as [[-> ->] | (n & u & -> & ->)].
  - rewrite app_nil_r. auto.
  - split; [lia|].
    replace (nextId (file w) + 1 - 1) with ((nextId (file w) - 1) + 1) by lia.
    rewrite seqZ_app by lia. f_equal. rewrite seqZ_cons by lia. simpl.
    f_equal. lia.
Qed.

(** X9. Every store the engine reaches from the empty data file, by any
    operations (those that throw included) and under any clock, satisfies
    the invariants of the data model: the ids are 1, 2, ... up to
    [nextId - 1] in the order of creation, so they are unique, never 0 and
    never reused; at most one task is running; and for every task, its
    last session is open exactly when it is running, no other session is
    open, and its [totalTime] is the sum of the durations of its closed
    sessions. *)
Theorem reachable_store_invariants (ops : list Op) (w : World) :
  file w = initialData ->
  let d := file (runOps ops w) in
  id <$> tasks d = seqZ 1 (nextId d - 1)
  /\ uniqueIds d
  /\ (runningCount d <= 1)%nat
  /\ Forall (fun t => (lastSessionOpen t <-> status t = running)
                      /\ onlyLastOpen t
                      /\ totalTime t = closedTime (sessions t)) (tasks d).
Proof.
  intros Hinit. cbv zeta.
  destruct (wellFormed_reachable ops w Hinit) as (Hnd & _ & Hok & Hcount).
  split; [|split; [exact Hnd|split; [exact Hcount | exact Hok]]].
  assert (H0 : 1 <= nextId (file w)
               /\ id <$> tasks (file w) = seqZ 1 (nextId (file w) - 1))
    by (rewrite Hinit; split; [simpl; lia | reflexivity]).
  clear Hinit Hnd Hok Hcount. revert w H0.
  induction ops as [|o ops IH]; intros w [Hpos Hids]; [exact Hids|].
  simpl. apply IH. apply ids_in_order_runOp; assumption.
Qed.

Lemma reachable_store_invariants_witness :
  let d := file (runOps [CreateTask "write spec" EmptyString; StartTask 1;
                         CreateTask "review" EmptyString; StartTask 2;
                         StopTask 1; PauseTask 1] emptyHost) in
  id <$> tasks d = seqZ 1 (nextId d - 1) /\ (runningCount d <= 1)%nat.
Proof.
  pose proof (reachable_store_invariants
                [CreateTask "write spec" EmptyString; StartTask 1;
                 CreateTask "review" EmptyString; StartTask 2;
                 StopTask 1; PauseTask 1] emptyHost eq_refl) as (H1 & _ & H2 & _).
  split; [exact H1 | exact H2].
Defined.


(** ** The last-start and last-pause fields *)

Lemma Forall2_opStep_preserves (I : Task -> Prop) o (l l' : list Task) :
  (forall t t', opStep o t t' -> I t -> I t') ->
  Forall2 (opStep o) l l' -> Forall I l -> Forall I l'.
Proof.
  intros Hstep. induction 1 as [|a b l l' Hab _ IH]; [constructor|].
  intros HI. inversion HI; subst. constructor; eauto.
Qed.

Lemma lastStampsOk_paused n t s :
  last (sessions t) = Some s -> endTime s = None ->
  lastStampsOk t -> lastStampsOk (pausedTask n t s).
Proof.
  intros Hlast Hend (Hs & Hp & Hc & Hst).
  destruct (close_last (sessions t) s
              {| startTime := startTime s; endTime := Some n;
                 duration := (n - startTime s) / 1000 |} Hlast) as (l0 & Hl & Hins).
  unfold lastStampsOk. simpl. rewrite Hins.
  split; [|split; [|split; discriminate]].
  - rewrite Hs, Hl, !last_snoc. reflexivity.
  - rewrite filter_app, filter_cons_True by discriminate.
    rewrite filter_nil, last_snoc. reflexivity.
Qed.

Lemma opStep_lastStampsOk o t t' : opStep o t t' -> lastStampsOk t -> lastStampsOk t'.
Proof.
  intros Hstep Hok. pose proof Hok as (Hs & Hp & Hc & Hst).
  destruct Hstep as [ | n s Ho Hr Hlast Hend | n Ho Hnr | n Ho Hnr
                    | n n' s Ho Hr Hlast Hend | Ho Hstop ].
  - exact Hok.
  - apply lastStampsOk_paused; assumption.
  - unfold lastStampsOk. simpl. split; [|split; [|split; discriminate]].
    + rewrite last_snoc. reflexivity.
    + rewrite filter_app, filter_cons_False by (intros H; apply H; reflexivity).
      rewrite filter_nil, app_nil_r. exact Hp.
  - unfold lastStampsOk. simpl.
    split; [exact Hs|]. split; [exact Hp|]. split; discriminate.
  - destruct (lastStampsOk_paused n t s Hlast Hend Hok) as (Hs' & Hp' & _ & _).
    unfold lastStampsOk. split; [exact Hs'|]. split; [exact Hp'|].
    split; discriminate.
  - unfold lastStampsOk. simpl.
    split; [exact Hs|]. split; [exact Hp|]. split; discriminate.
Qed.

Lemma lastStampsOk_runOp o w :
  Forall lastStampsOk (tasks (file w)) ->
  Forall lastStampsOk (tasks (file (snd (runOp o w)))).
Proof.
  intros H. destruct (runOp o w) as [r w'] eqn:Hrun.
  apply runOp_opStep in Hrun as (front & extra & Htasks & HF & Hextra).
  simpl. rewrite Htasks. apply Forall_app. split.
  - eapply Forall2_opStep_preserves; [apply opStep_lastStampsOk | exact HF | exact H].
  - destruct Hextra as [[-> _] | (n & u & -> & _)]; [constructor|].
    repeat constructor; discriminate.
Qed.

Lemma lastStampsOk_reachable ops w :
  file w = initialData -> Forall lastStampsOk (tasks (file (runOps ops w))).
Proof.
  intros Hinit.
  assert (H0 : Forall lastStampsOk (tasks (file w))) by (rewrite Hinit; constructor).
  clear Hinit. revert w H0. induction ops as [|o ops IH]; intros w H0; [exact H0|].
  simpl. apply IH, lastStampsOk_runOp, H0.
Qed.

(** X10. In every store reached from the empty data file, for every task:
    [lastStarted] is the start of its last session and [lastPaused] the end
    of its last closed session (both absent when there is none), a task
    still [created] has no session, and a [stopped] task has a [stoppedAt].
    So for a running task the elapsed time [getCurrentRunningTime] computes
    from [lastStarted] is the sum of the durations of the closed sessions
    plus the whole seconds the open session has lasted. *)
Theorem reachable_last_stamps (ops : list Op) (w : World) :
  file w = initialData ->
  let w' := runOps ops w in
  Forall (fun t =>
    lastStampsOk t
    /\ (status t = running ->
        exists s, last (sessions t) = Some s /\ endTime s = None
          /\ lastStarted t = Some (startTime s)
          /\ taskManager.getCurrentRunningTime (Some (taskManager.getTaskSummary t)) w'
             = (Ok (closedTime (sessions t) + (now w' - startTime s) / 1000),
                ticked w')))
    (tasks (file w')).
Proof.
  intros Hinit. cbv zeta.
  pose proof (lastStampsOk_reachable ops w Hinit) as Hstamps.
  destruct (wellFormed_reachable ops w Hinit) as (_ & _ & Hok & _).
  rewrite Forall_forall in Hstamps, Hok. apply Forall_forall. intros t Ht.
  split; [apply Hstamps, Ht|]. intros Hr.
  destruct (Hok t Ht) as (Hiff & _ & Htime).
  destruct (proj2 Hiff Hr) as (s & Hlast & Hend).
  destruct (Hstamps t Ht) as (Hs & _). rewrite Hlast in Hs. simpl in Hs.
  exists s. split; [exact Hlast|]. split; [exact Hend|]. split; [exact Hs|].
  unfold taskManager.getCurrentRunningTime.
  change (Summary.status (taskManager.getTaskSummary t)) with (status t).
  change (Summary.lastStarted (taskManager.getTaskSummary t)) with (lastStarted t).
  change (Summary.totalTimeSeconds (taskManager.getTaskSummary t)) with (totalTime t).
  destruct (decide (status t <> running)); [contradiction|].
  rewrite Hs, Htime. reflexivity.
Qed.

Lemma reachable_last_stamps_witness :
  Forall lastStampsOk
    (tasks (file (runOps [CreateTask "write spec" EmptyString; StartTask 1;
                          PauseTask 1; StartTask 1] emptyHost))).
Proof.
  eapply Forall_impl.
  - exact (reachable_last_stamps
             [CreateTask "write spec" EmptyString; StartTask 1;
              PauseTask 1; StartTask 1] emptyHost eq_refl).
  - intros t [H _]. exact H.
Defined.


(** ** Every recorded instant is a reading of the clock *)

Lemma readBefore_mono clk n n' ts :
  (n <= n')%nat -> readBefore clk n ts -> readBefore clk n' ts.
Proof. intros Hle (m & Hm & ->). exists m. split; [lia | reflexivity]. Qed.

Lemma optionReadBefore_mono clk n n' o :
  (n <= n')%nat -> optionReadBefore clk n o -> optionReadBefore clk n' o.
Proof. destruct o; simpl; [apply readBefore_mono | auto]. Qed.

Lemma sessionFromClock_mono clk n n' s :
  (n <= n')%nat -> sessionFromClock clk n s -> sessionFromClock clk n' s.
Proof.
  intros Hle (m & Hm & Hs & He). exists m. split; [lia|]. split; [exact Hs|].
  destruct (endTime s); [|exact He].
  destruct He as (m' & Hm' & He & Hd). exists m'. split; [lia | auto].
Qed.

Lemma taskFromClock_mono clk n n' t :
  (n <= n')%nat -> taskFromClock clk n t -> taskFromClock clk n' t.
Proof.
  intros Hle (Hc & Hs & Hp & Hst & Hss).
  split; [eapply readBefore_mono; eauto|].
  split; [eapply optionReadBefore_mono; eauto|].
  split; [eapply optionReadBefore_mono; eauto|].
  split; [eapply optionReadBefore_mono; eauto|].
  eapply Forall_impl; [exact Hss|]. intros s. apply sessionFromClock_mono, Hle.
Qed.

Lemma readBefore_now clk n : readBefore clk (S n) (clk n).
Proof. exists n. split; [lia | reflexivity]. Qed.

Lemma taskFromClock_paused clk n t s :
  taskFromClock clk n t -> last (sessions t) = Some s -> endTime s = None ->
  taskFromClock clk (S n) (pausedTask (clk n) t s).
Proof.
  intros Ht Hlast Hend.
  pose proof (taskFromClock_mono clk n (S n) t (Nat.le_succ_diag_r n) Ht)
    as (Hc & Hs & Hp & Hst & Hss).
  split; [exact Hc|]. split; [exact Hs|]. split; [apply readBefore_now|].
  split; [exact Hst|]. simpl.
  apply Forall_insert; [exact Hss|].
  destruct Ht as (_ & _ & _ & _ & Hss0). rewrite Forall_forall in Hss0.
  destruct (Hss0 s) as (m & Hm & Hstart & _).
  { apply last_Some in Hlast as [l0 ->]. apply elem_of_app. right. left. }
  exists m. split; [lia|]. split; [exact Hstart|]. simpl.
  exists n. split; [lia|]. split; [reflexivity|]. rewrite Hstart. reflexivity.
Qed.

Lemma taskFromClock_started clk n t :
  taskFromClock clk n t -> taskFromClock clk (S n) (startedTask (clk n) t).
Proof.
  intros Ht.
  pose proof (taskFromClock_mono clk n (S n) t (Nat.le_succ_diag_r n) Ht)
    as (Hc & Hs & Hp & Hst & Hss).
  split; [exact Hc|]. split; [apply readBefore_now|]. split; [exact Hp|].
  split; [exact Hst|]. simpl. apply Forall_app. split; [exact Hss|].
  repeat constructor. exists n. split; [lia|]. split; reflexivity.
Qed.

Lemma taskFromClock_stopped clk n t :
  taskFromClock clk n t -> taskFromClock clk (S n) (stoppedTask (clk n) t).
Proof.
  intros Ht.
  pose proof (taskFromClock_mono clk n (S n) t (Nat.le_succ_diag_r n) Ht)
    as (Hc & Hs & Hp & Hst & Hss).
  split; [exact Hc|]. split; [exact Hs|]. split; [exact Hp|].
  split; [apply readBefore_now | exact Hss].
Qed.

Lemma keepsClock_refl w : keepsClock w w.
Proof. split; [reflexivity|]. split; [lia | auto]. Qed.

Lemma keepsClock_trans w1 w2 w3 :
  keepsClock w1 w2 -> keepsClock w2 w3 -> keepsClock w1 w3.
Proof.
  intros (Hc & Ht & Hf) (Hc' & Ht' & Hf'). split; [congruence|]. split; [lia | auto].
Qed.

Lemma keepsClock_ticked w : keepsClock w (ticked w).
Proof.
  split; [reflexivity|]. split; [simpl; lia|]. unfold fromClock. simpl.
  intros H. eapply Forall_impl; [exact H|]. intros t. apply taskFromClock_mono. lia.
Qed.

Lemma keepsClock_write w k t t' nid la :
  tasks (file w) !! k = Some t ->
  (taskFromClock (clock w) (tick w) t -> taskFromClock (clock w) (S (tick w)) t') ->
  keepsClock w (withFile (ticked w) (mkData (<[k := t']> (tasks (file w))) nid la)).
Proof.
  intros Hk Ht. split; [reflexivity|]. split; [simpl; lia|].
  unfold fromClock. simpl. intros H. apply Forall_insert.
  - eapply Forall_impl; [exact H|]. intros x. apply taskFromClock_mono. lia.
  - apply Ht. rewrite Forall_lookup in H. eauto.
Qed.

Lemma pauseTask_keepsClock i w : keepsClock w (snd (taskManager.pauseTask i w)).
Proof.
  rewrite pauseTask_eq.
  destruct (findById i (tasks (file w))) as [[k t]|] eqn:Hf; [|apply keepsClock_refl].
  destruct (decide (status t <> running)); [apply keepsClock_refl|].
  destruct (last (sessions t)) as [s|] eqn:Hlast; [|apply keepsClock_ticked].
  destruct (endTime s) eqn:Hend; [apply keepsClock_ticked|].
  apply findById_Some in Hf as (Hk & _). simpl.
  apply (keepsClock_write w k t); [exact Hk|].
  intros Ht. apply taskFromClock_paused; assumption.
Qed.

Lemma forEach_pause_keepsClock taskId rts w :
  keepsClock w (snd (forEach rts (pauseUnless taskId) w)).
Proof.
  revert w. induction rts as [|x rts IH]; intros w; [apply keepsClock_refl|].
  simpl. unfold bind at 1.
  assert (Hx : keepsClock w (snd (pauseUnless taskId x w))).
  { unfold pauseUnless. destruct (decide (id x <> taskId)); [|apply keepsClock_refl].
    unfold bind. pose proof (pauseTask_keepsClock (id x) w) as Hp.
    destruct (taskManager.pauseTask (id x) w) as [[r|e] w1]; exact Hp. }
  destruct (pauseUnless taskId x w) as [[[]|e] w1]; [|exact Hx].
  eapply keepsClock_trans; [exact Hx | apply IH].
Qed.

Lemma startTask_keepsClock i w : keepsClock w (snd (taskManager.startTask i w)).
Proof.
  rewrite startTask_eq.
  destruct (findById i (tasks (file w))) as [[k t]|] eqn:Hf; [|apply keepsClock_refl].
  destruct (decide (status t = running)); [apply keepsClock_refl|].
  pose proof (forEach_pause_keepsClock i (filter isRunning (tasks (file w))) w) as Hloop.
  destruct (forEach _ _ w) as [[[]|e] w1] eqn:Hrun; [|exact Hloop].
  cbv zeta. cbn [snd]. simpl in Hloop.
  apply forEach_pause_step in Hrun as [HF _].
  assert (Hf1 : findById i (tasks (file w1)) = Some (k, t)).
  { eapply findById_pauseStepOn; [exact HF | | exact Hf]. intros H. apply H. reflexivity. }
  apply findById_Some in Hf1 as (Hk1 & _).
  eapply keepsClock_trans; [exact Hloop|].
  apply (keepsClock_write w1 k t); [exact Hk1|]. apply taskFromClock_started.
Qed.

Lemma stopWrite_keepsClock i w : keepsClock w (snd (stopWrite i w)).
Proof.
  unfold stopWrite.
  destruct (findById i (tasks (file w))) as [[k t]|] eqn:Hf; [|apply keepsClock_ticked].
  apply findById_Some in Hf as (Hk & _). simpl.
  apply (keepsClock_write w k t); [exact Hk|]. apply taskFromClock_stopped.
Qed.

Lemma runOp_keepsClock o w : keepsClock w (snd (runOp o w)).
Proof.
  rewrite runOp_snd. destruct o as [n u|i|i|i|i].
  - rewrite createTask_eq.
    destruct (decide (n = EmptyString \/ trim n = EmptyString)); [apply keepsClock_refl|].
    split; [reflexivity|]. split; [simpl; lia|]. unfold fromClock. simpl.
    intros H. apply Forall_app. split.
    + eapply Forall_impl; [exact H|]. intros x. apply taskFromClock_mono. lia.
    + repeat constructor. apply readBefore_now.
  - apply startTask_keepsClock.
  - apply pauseTask_keepsClock.
  - rewrite stopTask_eq.
    destruct (findById i (tasks (file w))) as [[k t]|]; [|apply keepsClock_refl].
    destruct (decide (status t = running)) as [Hr|Hr]; [|apply stopWrite_keepsClock].
    pose proof (pauseTask_keepsClock i w) as Hp.
    destruct (taskManager.pauseTask i w) as [[r|err] w1]; [|exact Hp].
    eapply keepsClock_trans; [exact Hp | apply stopWrite_keepsClock].
  - rewrite unstopTask_eq.
    destruct (findById i (tasks (file w))) as [[k t]|] eqn:Hf; [|apply keepsClock_refl].
    destruct (decide (status t <> stopped)); [apply keepsClock_refl|].
    apply findById_Some in Hf as (Hk & _).
    split; [reflexivity|]. split; [simpl; lia|]. unfold fromClock. simpl.
    intros H. apply Forall_insert; [exact H|].
    rewrite Forall_lookup in H. destruct (H k t Hk) as (Hc & Hs & Hp & _ & Hss).
    repeat split; assumption.
Qed.

Lemma runOps_keepsClock ops w : keepsClock w (runOps ops w).
Proof.
  revert w. induction ops as [|o ops IH]; intros w; [apply keepsClock_refl|].
  simpl. eapply keepsClock_trans; [apply runOp_keepsClock | apply IH].
Qed.

(** X11. Every instant in the data file comes from the clock.  Starting
    from the empty data file, after any operations: the clock is the one
    the host started with, and each [createdAt], [lastStarted],
    [lastPaused], [stoppedAt], session start and session end is one of the
    readings taken so far; a session ends at a reading that was not taken
    before its start, its duration is the whole seconds between the two,
    and an open session has duration 0. *)
Theorem reachable_instants_are_readings (ops : list Op) (w : World) :
  file w = initialData ->
  let w' := runOps ops w in
  clock w' = clock w /\ (tick w <= tick w')%nat
  /\ Forall (taskFromClock (clock w) (tick w')) (tasks (file w')).
Proof.
  intros Hinit. cbv zeta.
  destruct (runOps_keepsClock ops w) as (Hc & Ht & Hf).
  split; [exact Hc|]. split; [exact Ht|]. rewrite <- Hc. apply Hf.
  unfold fromClock. rewrite Hinit. constructor.
Qed.

Lemma reachable_instants_are_readings_witness :
  Forall (taskFromClock secondsClock
            (tick (runOps [CreateTask "write spec" EmptyString; StartTask 1;
                           PauseTask 1] emptyHost)))
    (tasks (file (runOps [CreateTask "write spec" EmptyString; StartTask 1;
                          PauseTask 1] emptyHost))).
Proof.
  exact (proj2 (proj2 (reachable_instants_are_readings
                         [CreateTask "write spec" EmptyString; StartTask 1;
                          PauseTask 1] emptyHost eq_refl))).
Defined.


(** ** Under a clock that never goes back *)

Lemma taskFromClock_stamps clk n t :
  taskFromClock clk n t -> Forall (readBefore clk n) (stamps t).
Proof.
  intros (_ & Hs & Hp & _ & Hss). unfold stamps.
  apply Forall_app. split; [destruct (lastStarted t); repeat constructor; exact Hs|].
  apply Forall_app. split; [destruct (lastPaused t); repeat constructor; exact Hp|].
  induction Hss as [|s ss Hs0 _ IH]; [constructor|].
  simpl. destruct Hs0 as (m & Hm & Hstart & He).
  constructor; [exists m; auto|].
  apply Forall_app. split; [|exact IH].
  destruct (endTime s); [|constructor].
  destruct He as (m' & Hm' & -> & _). repeat constructor. exists m'. split; [lia|reflexivity].
Qed.

Lemma sessionFromClock_bounds clk n s :
  monotoneClock clk -> sessionFromClock clk n s ->
  0 <= duration s /\ forall e, endTime s = Some e -> startTime s <= e.
Proof.
  intros Hmono (m & Hm & Hstart & He).
  destruct (endTime s) as [e|]; [|split; [lia | discriminate]].
  destruct He as (m' & Hm' & -> & ->).
  assert (clk m <= clk m') by (apply Hmono; lia).
  split; [apply Z.div_pos; lia|]. intros e [= <-]. lia.
Qed.

Lemma closedTime_nonneg (ss : list Session) :
  Forall (fun s => 0 <= duration s) ss -> 0 <= closedTime ss.
Proof.
  induction 1 as [|s ss Hs _ IH]; simpl; [lia|]. destruct (endTime s); lia.
Qed.

Lemma taskFromClock_durations clk n t :
  monotoneClock clk -> taskFromClock clk n t ->
  Forall (fun s => 0 <= duration s) (sessions t).
Proof.
  intros Hmono (_ & _ & _ & _ & Hss). eapply Forall_impl; [exact Hss|].
  intros s Hs. apply (sessionFromClock_bounds clk n s Hmono Hs).
Qed.

(** X12. Under a clock that never goes back, in every store reached from
    the empty data file: no recorded activity instant is later than the
    present reading of the clock; every session that has ended ended no
    earlier than it started; every duration and every [totalTime] is
    non-negative. *)
Theorem monotone_clock_bounds (ops : list Op) (w : World) :
  file w = initialData ->
  monotoneClock (clock w) ->
  let w' := runOps ops w in
  noneLaterThan (now w') (file w')
  /\ Forall (fun t =>
       0 <= totalTime t
       /\ Forall (fun s => 0 <= duration s
                           /\ forall e, endTime s = Some e -> startTime s <= e)
                 (sessions t))
       (tasks (file w')).
Proof.
  intros Hinit Hmono. cbv zeta.
  assert (Hf : fromClock (runOps ops w)).
  { apply (runOps_keepsClock ops w). unfold fromClock. rewrite Hinit. constructor. }
  destruct (runOps_keepsClock ops w) as (Hc & _ & _).
  destruct (wellFormed_reachable ops w Hinit) as (_ & _ & Hok & _).
  unfold fromClock in Hf. rewrite Hc in Hf. split.
  - unfold noneLaterThan, now. rewrite Hc.
    eapply Forall_impl; [exact Hf|]. intros t Ht.
    eapply Forall_impl; [apply (taskFromClock_stamps _ _ _ Ht)|].
    intros ts (m & Hm & ->). apply Hmono. lia.
  - rewrite Forall_forall in Hf, Hok. apply Forall_forall. intros t Ht. split.
    + destruct (Hok t Ht) as (_ & _ & ->).
      apply closedTime_nonneg. eapply taskFromClock_durations; eauto.
    + destruct (Hf t Ht) as (_ & _ & _ & _ & Hss).
      eapply Forall_impl; [exact Hss|]. intros s Hs.
      apply (sessionFromClock_bounds _ _ s Hmono Hs).
Qed.

Lemma secondsClock_monotone : monotoneClock secondsClock.
Proof. intros m n Hle. unfold secondsClock. lia. Qed.

Lemma monotone_clock_bounds_witness :
  noneLaterThan
    (now (runOps [CreateTask "write spec" EmptyString; StartTask 1; PauseTask 1]
                 emptyHost))
    (file (runOps [CreateTask "write spec" EmptyString; StartTask 1; PauseTask 1]
                  emptyHost)).
Proof.
  exact (proj1 (monotone_clock_bounds
                  [CreateTask "write spec" EmptyString; StartTask 1; PauseTask 1]
                  emptyHost eq_refl secondsClock_monotone)).
Defined.

Lemma runOps_app ops ops' w : runOps (ops ++ ops') w = runOps ops' (runOps ops w).
Proof. revert w. induction ops as [|o ops IH]; intros w; simpl; auto. Qed.

Lemma closedTime_kept (ss ss' : list Session) :
  (forall k s, ss !! k = Some s -> exists s', ss' !! k = Some s' /\ sessionKept s s') ->
  Forall (fun s => 0 <= duration s) ss' ->
  closedTime ss <= closedTime ss'.
Proof.
  revert ss'. induction ss as [|s ss IH]; intros ss' Hkept Hpos.
  - simpl. apply closedTime_nonneg, Hpos.
  - destruct (Hkept 0%nat s eq_refl) as (s' & Hs' & Hk).
    destruct ss' as [|x ss']; [discriminate|]. injection Hs' as ->.
    inversion Hpos as [|? ? Hd Hpos']; subst.
    assert (Hrest : closedTime ss <= closedTime ss').
    { apply IH; [|exact Hpos']. intros k y Hy. exact (Hkept (S k) y Hy). }
    simpl. destruct Hk as [-> | (Hopen & e & ->)].
    + lia.
    + rewrite Hopen. simpl in *. lia.
Qed.

(** X13. Under a clock that never goes back, the accounted time of a task
    never decreases: take any store reached from the empty data file and
    run any further operations; every task is still there under its id,
    and its [totalTime] is at least what it was. *)
Theorem totalTime_never_decreases (ops ops' : list Op) (w : World) :
  file w = initialData ->
  monotoneClock (clock w) ->
  let w1 := runOps ops w in
  let w2 := runOps ops' w1 in
  forall k t, tasks (file w1) !! k = Some t ->
    exists t', tasks (file w2) !! k = Some t' /\ id t' = id t
               /\ totalTime t <= totalTime t'.
Proof.
  intros Hinit Hmono. cbv zeta. intros k t Hk.
  assert (Hkept : historyKept (tasks (file (runOps ops w)))
                    (tasks (file (runOps ops' (runOps ops w))))).
  { generalize (runOps ops w). clear. intros w. revert w.
    induction ops' as [|o ops' IH]; intros w; simpl.
    - intros k t Hk. exists t. split; [exact Hk | apply taskKept_refl].
    - eapply historyKept_trans; [apply runOp_historyKept | apply IH]. }
  destruct (Hkept k t Hk) as (t' & Hk' & Hid & _ & _ & _ & Hss).
  exists t'. split; [exact Hk'|]. split; [exact Hid|].
  destruct (wellFormed_reachable ops w Hinit) as (_ & _ & Hok & _).
  rewrite Forall_lookup in Hok. destruct (Hok k t Hk) as (_ & _ & ->).
  rewrite <- runOps_app in Hk'.
  destruct (wellFormed_reachable (ops ++ ops') w Hinit) as (_ & _ & Hok' & _).
  rewrite Forall_lookup in Hok'. destruct (Hok' k t' Hk') as (_ & _ & ->).
  apply closedTime_kept; [exact Hss|].
  assert (Hf : fromClock (runOps (ops ++ ops') w)).
  { apply (runOps_keepsClock (ops ++ ops') w). unfold fromClock. rewrite Hinit.
    constructor. }
  unfold fromClock in Hf. rewrite Forall_lookup in Hf.
  eapply taskFromClock_durations; [|exact (Hf k t' Hk')].
  destruct (runOps_keepsClock (ops ++ ops') w) as (-> & _). exact Hmono.
Qed.

Lemma totalTime_never_decreases_witness :
  tasks (file (runOps [CreateTask "write spec" EmptyString; StartTask 1] emptyHost))
    !! 0%nat = Some (startedTask 1000 (createdTask 1 "write spec" EmptyString 0))
  /\ exists t',
      tasks (file (runOps [PauseTask 1; StartTask 1; StopTask 1]
                     (runOps [CreateTask "write spec" EmptyString; StartTask 1]
                             emptyHost))) !! 0%nat = Some t'
      /\ id t' = 1 /\ 0 <= totalTime t'.
Proof.
  assert (Hk : tasks (file (runOps [CreateTask "write spec" EmptyString; StartTask 1]
                             emptyHost)) !! 0%nat
               = Some (startedTask 1000 (createdTask 1 "write spec" EmptyString 0)))
    by reflexivity.
  split; [exact Hk|].
  exact (totalTime_never_decreases
           [CreateTask "write spec" EmptyString; StartTask 1]
           [PauseTask 1; StartTask 1; StopTask 1] emptyHost eq_refl
           secondsClock_monotone 0%nat _ Hk).
Defined.


(** * Properties of the visual mode *)

(** ** What every call keeps *)

Lemma keeps_ret {S A} (P : S -> Prop) (a : A) : keeps P (ret a).
Proof. intros s Hs. exact Hs. Qed.

Lemma keeps_throw {S A} (P : S -> Prop) (e : Error) : keeps P (throw (A:=A) e).
Proof. intros s Hs. exact Hs. Qed.

Lemma keeps_bind {S A B} (P : S -> Prop) (m : St S A) (k : A -> St S B) :
  keeps P m -> (forall a, keeps P (k a)) -> keeps P (bind m k).
Proof.
  intros Hm Hk s Hs. unfold bind. specialize (Hm s Hs).
  destruct (m s) as [[a|e] s1]; [apply Hk|]; exact Hm.
Qed.

Lemma keeps_tryCatch {S A} (P : S -> Prop) (m : St S A) (h : Error -> St S A) :
  keeps P m -> (forall e, keeps P (h e)) -> keeps P (tryCatch m h).
Proof.
  intros Hm Hh s Hs. unfold tryCatch. specialize (Hm s Hs).
  destruct (m s) as [[a|e] s1]; [|apply Hh]; exact Hm.
Qed.

Lemma keeps_getThis_bind {U B} (P : U * World -> Prop) (k : U -> St (U * World) B) :
  (forall s, P s -> P (snd (k (fst s) s))) -> keeps P (bind getThis k).
Proof. intros Hk s Hs. unfold bind, getThis. apply Hk, Hs. Qed.

Lemma keeps_engine {U A} (Q : U -> Prop) (m : M A) :
  keeps (onThis Q) (engine m).
Proof.
  intros [u w] Hs. unfold engine. simpl. destruct (m w) as [r w']. exact Hs.
Qed.

Lemma keeps_summaryOf {S} (P : S -> Prop) (t : option Task) : keeps P (summaryOf t).
Proof. destruct t; [apply keeps_ret | apply keeps_throw]. Qed.

Section VisualKeeps.

Variable Q : VisualMode.This -> Prop.

Hypothesis Q_message : forall this message,
  Q this ->
  Q (VisualMode.mkThis (VisualMode.this_tasks this) (VisualMode.this_selectedIndex this)
       (VisualMode.this_isActive this) (VisualMode.this_inputBuffer this) message).

Hypothesis Q_refresh : forall this (tasks0 : list Summary.t),
  Q this ->
  Q (VisualMode.mkThis tasks0
       (if decide (VisualMode.this_selectedIndex this >= Z.of_nat (length tasks0))
        then Z.max 0 (Z.of_nat (length tasks0) - 1)
        else VisualMode.this_selectedIndex this)
       (VisualMode.this_isActive this) (VisualMode.this_inputBuffer this)
       (VisualMode.this_statusMessage this)).

Hypothesis Q_exit : forall this,
  Q this ->
  Q (VisualMode.mkThis (VisualMode.this_tasks this) (VisualMode.this_selectedIndex this)
       false (VisualMode.this_inputBuffer this) (VisualMode.this_statusMessage this)).

Hypothesis Q_buffer : forall this b,
  Q this ->
  Q (VisualMode.mkThis (VisualMode.this_tasks this) (VisualMode.this_selectedIndex this)
       (VisualMode.this_isActive this) b (VisualMode.this_statusMessage this)).

Lemma keeps_showMessage message : keeps (onThis Q) (VisualMode.showMessage message).
Proof.
  apply keeps_getThis_bind. intros [this w] Hs. simpl. apply Q_message, Hs.
Qed.

Lemma keeps_refreshTasks : keeps (onThis Q) VisualMode.refreshTasks.
Proof.
  intros [this w] Hs. unfold VisualMode.refreshTasks, bind, engine, getThis, setThis.
  simpl. apply Q_refresh, Hs.
Qed.

Lemma keeps_createAndStartTask taskName : keeps (onThis Q) (VisualMode.createAndStartTask taskName).
Proof.
  unfold VisualMode.createAndStartTask.
  apply keeps_bind; [apply keeps_engine|]. intros task.
  apply keeps_bind; [apply keeps_engine|]. intros _.
  apply keeps_bind; [apply keeps_showMessage|]. intros _. apply keeps_refreshTasks.
Qed.

Lemma keeps_startTaskByName taskName : keeps (onThis Q) (VisualMode.startTaskByName taskName).
Proof.
  unfold VisualMode.startTaskByName.
  apply keeps_getThis_bind. intros s Hs.
  apply (keeps_bind (onThis Q)); [| intros _; apply keeps_refreshTasks | exact Hs].
  destruct (snd <$> list_find _ _) as [existingTask|]; [|apply keeps_createAndStartTask].
  apply keeps_bind; [apply keeps_engine|]. intros _. apply keeps_showMessage.
Qed.

Lemma keeps_startLastTask : keeps (onThis Q) VisualMode.startLastTask.
Proof.
  unfold VisualMode.startLastTask.
  apply keeps_bind; [apply keeps_engine|]. intros [lastTask|]; [|apply keeps_showMessage].
  destruct (decide (Summary.status lastTask = stopped)); [apply keeps_showMessage|].
  apply keeps_bind; [apply keeps_engine|]. intros _.
  apply keeps_bind; [apply keeps_showMessage|]. intros _. apply keeps_refreshTasks.
Qed.

Lemma keeps_stopCurrentTask : keeps (onThis Q) VisualMode.stopCurrentTask.
Proof.
  unfold VisualMode.stopCurrentTask.
  apply keeps_bind; [apply keeps_engine|]. intros [runningTask|]; [|apply keeps_showMessage].
  apply keeps_bind; [apply keeps_engine|]. intros updatedTask.
  apply keeps_bind; [apply keeps_summaryOf|]. intros summary.
  apply keeps_bind; [apply keeps_showMessage|]. intros _. apply keeps_refreshTasks.
Qed.






End VisualKeeps.


(** ** The selected row *)







(** ** A committed line never throws *)

Lemma showMessage_returns message s :
  exists s', VisualMode.showMessage message s = (Ok tt, s')
             /\ VisualMode.this_isActive (fst s') = VisualMode.this_isActive (fst s)
             /\ VisualMode.this_statusMessage (fst s') = Some message
             /\ snd s' = snd s.
Proof. destruct s as [this w]. eexists. split; [reflexivity|]. auto. Qed.

Lemma caught_action (X : VisualMode.UI unit) s :
  exists s1,
    tryCatch (X ;;; ret false)
      (fun error => VisualMode.showMessage (ErrorLine error) ;;; ret false) s
    = (Ok false, s1)
    /\ ((exists u, X s = (Ok u, s1))
        \/ (exists e s0, X s = (Throw e, s0)
              /\ VisualMode.showMessage (ErrorLine e) s0 = (Ok tt, s1))).
Proof.
  unfold tryCatch, bind. destruct (X s) as [[u|e] s0] eqn:HX.
  - exists s0. split; [reflexivity|]. left. eauto.
  - destruct (showMessage_returns (ErrorLine e) s0) as (s1 & Hm & _).
    exists s1. rewrite Hm. split; [reflexivity|]. right. eauto.
Qed.

Lemma active_kept (a : bool) (X : VisualMode.UI unit) s :
  keeps (onThis (fun this => VisualMode.this_isActive this = a)) X ->
  VisualMode.this_isActive (fst s) = a ->
  exists s1,
    tryCatch (X ;;; ret false)
      (fun error => VisualMode.showMessage (ErrorLine error) ;;; ret false) s
    = (Ok false, s1)
    /\ VisualMode.this_isActive (fst s1) = a.
Proof.
  intros HX Hs. destruct (caught_action X s) as (s1 & Hrun & Hcase).
  exists s1. split; [exact Hrun|].
  pose proof (HX s Hs) as Hk. unfold onThis in Hk.
  destruct Hcase as [[u Hu] | (e & s0 & He & Hm)].
  - rewrite Hu in Hk. exact Hk.
  - rewrite He in Hk. simpl in Hk.
    destruct (showMessage_returns (ErrorLine e) s0) as (s1' & Hm' & Ha & _).
    rewrite Hm in Hm'. injection Hm' as <-. congruence.
Qed.

(** X15. [processCommand] never throws: whatever is in the input buffer
    and whatever the engine does, the call returns.  If the first word of
    the trimmed line is [exit] or [quit] in any letter case, the mode is
    left (and nothing is written to the data file, the buffer stays);
    otherwise the mode stays as active as it was and the input buffer is
    emptied, an error of the engine having been caught on the way. *)
Theorem processCommand_returns (this : VisualMode.This) (w : World) :
  let s' := snd (VisualMode.processCommand (this, w)) in
  let command := toLowerCase (hd EmptyString (split " " (trim (VisualMode.this_inputBuffer this)))) in
  fst (VisualMode.processCommand (this, w)) = Ok tt
  /\ (command = "exit" \/ command = "quit" ->
      VisualMode.this_isActive (fst s') = false
      /\ VisualMode.this_inputBuffer (fst s') = VisualMode.this_inputBuffer this
      /\ snd s' = w)
  /\ (~ (command = "exit" \/ command = "quit") ->
      VisualMode.this_isActive (fst s') = VisualMode.this_isActive this
      /\ VisualMode.this_inputBuffer (fst s') = EmptyString).
Proof.
  cbv zeta. remember (VisualMode.processCommand (this, w)) as res eqn:Hres.
  unfold VisualMode.processCommand in Hres. unfold bind at 1 in Hres.
  unfold getThis at 1 in Hres. cbn [fst snd] in Hres.
  destruct (split " " (trim (VisualMode.this_inputBuffer this))) as [|command args] eqn:Hsplit;
    [exfalso; exact (split_not_nil _ _ Hsplit)|].
  cbn [hd].
  set (Qa := fun t : VisualMode.This =>
               VisualMode.this_isActive t = VisualMode.this_isActive this).
  assert (Hm : forall t message, Qa t ->
            Qa (VisualMode.mkThis (VisualMode.this_tasks t)
                  (VisualMode.this_selectedIndex t) (VisualMode.this_isActive t)
                  (VisualMode.this_inputBuffer t) message)) by (intros; assumption).
  assert (Hr : forall t (tasks0 : list Summary.t), Qa t ->
            Qa (VisualMode.mkThis tasks0
                  (if decide (VisualMode.this_selectedIndex t >= Z.of_nat (length tasks0))
                   then Z.max 0 (Z.of_nat (length tasks0) - 1)
                   else VisualMode.this_selectedIndex t)
                  (VisualMode.this_isActive t) (VisualMode.this_inputBuffer t)
                  (VisualMode.this_statusMessage t))) by (intros; assumption).
  assert (Hfin : forall X : VisualMode.UI unit,
            keeps (onThis Qa) X ->
            res = (returned <- tryCatch (X ;;; ret false)
                     (fun error => VisualMode.showMessage (ErrorLine error) ;;; ret false) ;;
                   if returned : bool then ret tt else VisualMode.clearInput) (this, w) ->
            fst res = Ok tt
            /\ VisualMode.this_isActive (fst (snd res)) = VisualMode.this_isActive this
            /\ VisualMode.this_inputBuffer (fst (snd res)) = EmptyString).
  { intros X HX Hres'.
    destruct (active_kept (VisualMode.this_isActive this) X (this, w) HX eq_refl)
      as (s2 & Hrun & Ha).
    assert (res = VisualMode.clearInput s2) as ->.
    { rewrite Hres'. unfold bind at 1. rewrite Hrun. reflexivity. }
    destruct s2 as [t2 w2]. simpl in *. auto. }
  destruct (decide (toLowerCase command = "start")) as [Hstart|Hstart].
  { assert (HX : keeps (onThis Qa)
                   match args with
                   | [] => VisualMode.startLastTask
                   | _ :: _ => VisualMode.startTaskByName (join " " args)
                   end).
    { destruct args; [apply (keeps_startLastTask Qa Hm Hr)
                     | apply (keeps_startTaskByName Qa Hm Hr)]. }
    destruct (Hfin _ HX Hres) as (H1 & H2 & H3).
    split; [exact H1|]. split; [|auto].
    intros [H|H]; rewrite Hstart in H; discriminate. }
  destruct (decide (toLowerCase command = "stop")) as [Hstop|Hstop].
  { destruct (Hfin _ (keeps_stopCurrentTask Qa Hm Hr) Hres) as (H1 & H2 & H3).
    split; [exact H1|]. split; [|auto].
    intros [H|H]; rewrite Hstop in H; discriminate. }
  destruct (decide (toLowerCase command = "exit" \/ toLowerCase command = "quit"))
    as [Hexit|Hexit].
  { subst res. split; [reflexivity|]. split; [intros _; repeat split | contradiction]. }
  assert (HX : keeps (onThis Qa)
                 (if decide (trim (VisualMode.this_inputBuffer this) <> EmptyString)
                  then VisualMode.createAndStartTask
                         (trim (VisualMode.this_inputBuffer this))
                  else ret tt)).
  { destruct (decide _); [apply (keeps_createAndStartTask Qa Hm Hr) | apply keeps_ret]. }
  destruct (Hfin _ HX Hres) as (H1 & H2 & H3).
  split; [exact H1|]. split; [contradiction | auto].
Qed.


Lemma processCommand_returns_witness :
  fst (VisualMode.processCommand (typedStart42, emptyHost)) = Ok tt
  /\ VisualMode.this_inputBuffer
       (fst (snd (VisualMode.processCommand (typedStart42, emptyHost)))) = EmptyString.
Proof.
  pose proof (processCommand_returns typedStart42 emptyHost) as (H1 & _ & H2).
  split; [exact H1|]. apply H2. intros [H|H]; discriminate H.
Defined.

(** ** Keys that edit the input line *)








(** ** Enter on the selected row *)

Lemma handleKeyPress_return_row (this : VisualMode.This) (w : World) row :
  VisualMode.this_isActive this = true ->
  trim (VisualMode.this_inputBuffer this) = EmptyString ->
  0 <= VisualMode.this_selectedIndex this ->
  VisualMode.this_tasks this !! Z.to_nat (VisualMode.this_selectedIndex this) = Some row ->
  VisualMode.handleKeyPress VisualMode.keyReturn (this, w)
  = ((if decide (Summary.status row = running) then
        updatedTask <- engine (taskManager.pauseTask (Summary.id row)) ;;
        summary <- summaryOf updatedTask ;;
        VisualMode.showMessage (Paused (Summary.name summary) (Summary.totalTime summary))
      else
        updatedTask <- engine (taskManager.startTask (Summary.id row)) ;;
        summary <- summaryOf updatedTask ;;
        VisualMode.showMessage (Started (Summary.name summary))) ;;;
     VisualMode.refreshTasks) (this, w).
Proof.
  intros Hon Hblank Hsel Hrow.
  pose proof (lookup_lt_Some _ _ _ Hrow) as Hlt.
  unfold VisualMode.handleKeyPress. unfold bind at 1. unfold getThis at 1. cbn [fst snd].
  rewrite Hon. cbn [negb].
  destruct (decide (VisualMode.keyReturn = VisualMode.keyUp)) as [H|_]; [discriminate H|].
  destruct (decide (VisualMode.keyReturn = VisualMode.keyDown)) as [H|_];
    [discriminate H|].
  destruct (decide (VisualMode.keyReturn = VisualMode.keyReturn
                    \/ VisualMode.keyReturn = VisualMode.keyNewline)) as [_|H];
    [|exfalso; apply H; left; reflexivity].
  destruct (decide (trim (VisualMode.this_inputBuffer this) <> EmptyString));
    [contradiction|].
  destruct (decide (0 < length (VisualMode.this_tasks this))%nat) as [_|H]; [|lia].
  unfold VisualMode.toggleSelectedTask. unfold bind at 1. unfold getThis at 1.
  cbn [fst snd].
  destruct (decide (VisualMode.this_selectedIndex this < 0
                    \/ VisualMode.this_selectedIndex this
                       >= Z.of_nat (length (VisualMode.this_tasks this)))) as [H|_];
    [lia|].
  rewrite Hrow. reflexivity.
Qed.

(** X17. Enter on a row that shows what the store holds (empty input
    line, a store with unique ids whose running tasks have their last
    session open): if the row is running the task is paused, otherwise it
    is started, other running tasks being paused first; the data file ends
    exactly as the engine call leaves it, the status line names the task
    (with the new total after a pause), and the key returns. *)
Theorem enter_toggles_selected_row (this : VisualMode.This) (w : World)
    (k : nat) (t : Task) :
  VisualMode.this_isActive this = true ->
  trim (VisualMode.this_inputBuffer this) = EmptyString ->
  0 <= VisualMode.this_selectedIndex this ->
  VisualMode.this_tasks this !! Z.to_nat (VisualMode.this_selectedIndex this)
    = Some (taskManager.getTaskSummary t) ->
  tasks (file w) !! k = Some t ->
  uniqueIds (file w) -> runningHaveOpenSession (file w) ->
  let s' := snd (VisualMode.handleKeyPress VisualMode.keyReturn (this, w)) in
  fst (VisualMode.handleKeyPress VisualMode.keyReturn (this, w)) = Ok tt
  /\ (status t = running ->
      exists tp,
        fst (taskManager.pauseTask (id t) w) = Ok (Some tp) /\ status tp = paused
        /\ file (snd s') = file (snd (taskManager.pauseTask (id t) w))
        /\ VisualMode.this_statusMessage (fst s')
           = Some (Paused (name t) (taskManager.formatDuration (totalTime tp))))
  /\ (status t <> running ->
      exists ts,
        fst (taskManager.startTask (id t) w) = Ok (Some ts) /\ status ts = running
        /\ file (snd s') = file (snd (taskManager.startTask (id t) w))
        /\ VisualMode.this_statusMessage (fst s') = Some (Started (name t))).
Proof.
  intros Hon Hblank Hsel Hrow Hk Hnd Hopen. cbv zeta.
  rewrite (handleKeyPress_return_row this w _ Hon Hblank Hsel Hrow).
  change (Summary.status (taskManager.getTaskSummary t)) with (status t).
  change (Summary.id (taskManager.getTaskSummary t)) with (id t).
  destruct (decide (status t = running)) as [Hr|Hnr].
  - unfold runningHaveOpenSession in Hopen. rewrite Forall_lookup in Hopen.
    destruct (pauseTask_succeeds w k t Hnd Hk Hr (Hopen k t Hk Hr))
      as (s & _ & _ & Hp).
    set (tp := pausedTask (now w) t s) in *. set (w1 := withFile _ _) in Hp.
    set (this1 := VisualMode.mkThis (VisualMode.this_tasks this)
                    (VisualMode.this_selectedIndex this) (VisualMode.this_isActive this)
                    (VisualMode.this_inputBuffer this)
                    (Some (Paused (name t) (taskManager.formatDuration (totalTime tp))))).
    assert (Hact :
      (updatedTask <- engine (taskManager.pauseTask (id t)) ;;
       summary <- summaryOf updatedTask ;;
       VisualMode.showMessage (Paused (Summary.name summary) (Summary.totalTime summary)))
        (this, w) = (Ok tt, (this1, w1))).
    { rewrite (bind_ok _ _ _ _ _ (engine_eq _ _ _ _ _ Hp)).
      rewrite (bind_ok _ _ _ _ _ (summaryOf_eq _ _)).
      apply showMessage_eq. }
    rewrite (bind_ok _ _ _ _ _ Hact).
    pose proof (refreshTasks_frame this1 w1) as (Hr1 & Hf1 & Hm1).
    split; [exact Hr1|]. split; [|contradiction].
    intros _. exists tp. rewrite Hp. split; [reflexivity|]. split; [reflexivity|].
    split; [exact Hf1 | exact Hm1].
  - destruct (startTask_succeeds w k t Hnd Hopen Hk Hnr) as (w0 & _ & Hs).
    set (ts := startedTask (now w0) t) in *. set (w1 := withFile _ _) in Hs.
    set (this1 := VisualMode.mkThis (VisualMode.this_tasks this)
                    (VisualMode.this_selectedIndex this) (VisualMode.this_isActive this)
                    (VisualMode.this_inputBuffer this) (Some (Started (name t)))).
    assert (Hact :
      (updatedTask <- engine (taskManager.startTask (id t)) ;;
       summary <- summaryOf updatedTask ;;
       VisualMode.showMessage (Started (Summary.name summary)))
        (this, w) = (Ok tt, (this1, w1))).
    { rewrite (bind_ok _ _ _ _ _ (engine_eq _ _ _ _ _ Hs)).
      rewrite (bind_ok _ _ _ _ _ (summaryOf_eq _ _)).
      apply showMessage_eq. }
    rewrite (bind_ok _ _ _ _ _ Hact).
    pose proof (refreshTasks_frame this1 w1) as (Hr1 & Hf1 & Hm1).
    split; [exact Hr1|]. split; [contradiction|].
    intros _. exists ts. rewrite Hs. split; [reflexivity|]. split; [reflexivity|].
    split; [exact Hf1 | exact Hm1].
Qed.

Lemma enter_toggles_selected_row_witness :
  VisualMode.this_tasks twoRowsThis !! Z.to_nat (VisualMode.this_selectedIndex twoRowsThis)
    = Some (taskManager.getTaskSummary reviewSample)
  /\ fst (VisualMode.handleKeyPress VisualMode.keyReturn (twoRowsThis, switchHost)) = Ok tt.
Proof.
  split; [reflexivity|].
  refine (proj1 (enter_toggles_selected_row twoRowsThis switchHost 1 reviewSample
                   eq_refl eq_refl _ eq_refl eq_refl _ _)).
  - simpl. lia.
  - apply (bool_decide_unpack _). vm_compute. exact I.
  - repeat constructor; [|discriminate].
    intros _. exists (sampleOpenSession 2000). split; reflexivity.
Defined.

(** X18. [toggleSelectedTask] has no [try]: when the selected row no
    longer shows what the store holds, the error of the engine leaves
    [handleKeyPress] and nothing changes, neither in the mode nor in the
    data file.  A row shown as running whose task is not running any more
    throws 'Task is not currently running'; a row shown as not running
    whose task is running throws 'Task is already running'; a row whose
    task is gone throws the not-found error. *)
Theorem enter_on_stale_row_throws (this : VisualMode.This) (w : World)
    (row : Summary.t) :
  VisualMode.this_isActive this = true ->
  trim (VisualMode.this_inputBuffer this) = EmptyString ->
  0 <= VisualMode.this_selectedIndex this ->
  VisualMode.this_tasks this !! Z.to_nat (VisualMode.this_selectedIndex this) = Some row ->
  let press := VisualMode.handleKeyPress VisualMode.keyReturn (this, w) in
  (fst (storage.getTask (Summary.id row) w) = Ok None ->
   press = (Throw (TaskNotFound (Summary.id row)), (this, w)))
  /\ (forall t, fst (storage.getTask (Summary.id row) w) = Ok (Some t) ->
        (Summary.status row = running -> status t <> running ->
         press = (Throw NotRunning, (this, w)))
        /\ (Summary.status row <> running -> status t = running ->
            press = (Throw AlreadyRunning, (this, w)))).
Proof.
  intros Hon Hblank Hsel Hrow. cbv zeta.
  rewrite (handleKeyPress_return_row this w _ Hon Hblank Hsel Hrow).
  rewrite getTask_eq. cbn [fst].
  assert (Hfail : forall (A : Type) (m : M (option Task)) e
                    (k : option Task -> VisualMode.UI A),
            m w = (Throw e, w) ->
            ((updatedTask <- engine m ;; k updatedTask) ;;; VisualMode.refreshTasks)
              (this, w) = (Throw e, (this, w))).
  { intros A m e k Hm. unfold bind, engine. simpl. rewrite Hm. reflexivity. }
  split.
  - destruct (findById (Summary.id row) (tasks (file w))) as [[k t]|] eqn:Hf;
      [discriminate|]. intros _.
    destruct (decide (Summary.status row = running)); apply Hfail.
    + rewrite pauseTask_eq, Hf. reflexivity.
    + rewrite startTask_eq, Hf. reflexivity.
  - intros t Hget.
    destruct (findById (Summary.id row) (tasks (file w))) as [[k t0]|] eqn:Hf;
      [|discriminate]. simpl in Hget. injection Hget as ->.
    split.
    + intros Hrow_r Hnr.
      destruct (decide (Summary.status row = running)); [|contradiction].
      apply Hfail. rewrite pauseTask_eq, Hf.
      destruct (decide (status t <> running)); [reflexivity | contradiction].
    + intros Hrow_nr Hr.
      destruct (decide (Summary.status row = running)); [contradiction|].
      apply Hfail. rewrite startTask_eq, Hf.
      destruct (decide (status t = running)); [reflexivity | contradiction].
Qed.


Lemma enter_on_stale_row_throws_witness :
  fst (storage.getTask 1 pausedHost) = Ok (Some pausedSample)
  /\ VisualMode.handleKeyPress VisualMode.keyReturn (staleThis, pausedHost)
     = (Throw NotRunning, (staleThis, pausedHost)).
Proof.
  assert (Hsel : 0 <= VisualMode.this_selectedIndex staleThis) by (simpl; lia).
  assert (Hnr : status pausedSample <> running) by discriminate.
  split; [reflexivity|].
  exact (proj1 (proj2 (enter_on_stale_row_throws staleThis pausedHost
                         (taskManager.getTaskSummary runningSample)
                         eq_refl eq_refl Hsel eq_refl) pausedSample eq_refl)
           eq_refl Hnr).
Defined.


(** ** Names as they are stored *)

Lemma trimEnd_idem (s : string) : trimEnd (trimEnd s) = trimEnd s.
Proof.
  induction s as [|c s IH]; [reflexivity|].
  simpl. destruct (trimEnd s) as [|x r] eqn:Hs.
  - destruct (isWhitespace c) eqn:Hc; [reflexivity|]. simpl. rewrite Hc. reflexivity.
  - change (trimEnd (String c (String x r))) with
      (match trimEnd (String x r) with
       | EmptyString => if isWhitespace c then EmptyString else String c EmptyString
       | r0 => String c r0
       end).
    rewrite IH. reflexivity.
Qed.

Lemma trimStart_head (s : string) :
  trimStart s = EmptyString
  \/ exists c r, trimStart s = String c r /\ isWhitespace c = false.
Proof.
  induction s as [|c s IH]; [left; reflexivity|].
  simpl. destruct (isWhitespace c) eqn:Hc; [exact IH|]. right. eauto.
Qed.

Lemma trimEnd_head (c : ascii) (r : string) :
  isWhitespace c = false -> exists r', trimEnd (String c r) = String c r'.
Proof.
  intros Hc. simpl. destruct (trimEnd r); [rewrite Hc|]; eauto.
Qed.

Lemma trim_idem (s : string) : trim (trim s) = trim s.
Proof.
  unfold trim. destruct (trimStart_head s) as [-> | (c & r & -> & Hc)]; [reflexivity|].
  destruct (trimEnd_head c r Hc) as [r' Hr'].
  assert (Hfix : trimStart (trimEnd (String c r)) = trimEnd (String c r)).
  { rewrite Hr'. simpl. rewrite Hc. reflexivity. }
  rewrite Hfix. apply trimEnd_idem.
Qed.

Lemma opStep_name o t t' : opStep o t t' -> name t' = name t.
Proof. destruct 1; reflexivity. Qed.

Lemma runOp_nextId o w :
  (forall n u, o <> CreateTask n u) ->
  nextId (file (snd (runOp o w))) = nextId (file w).
Proof.
  intros Hnc. rewrite runOp_snd.
  assert (Hsw : forall i w0, nextId (file (snd (stopWrite i w0))) = nextId (file w0)).
  { intros i w0. unfold stopWrite.
    destruct (findById i (tasks (file w0))) as [[k t]|]; reflexivity. }
  assert (Hp : forall i, nextId (file (snd (taskManager.pauseTask i w))) = nextId (file w)).
  { intros i. destruct (taskManager.pauseTask i w) as [r w1] eqn:Hp.
    apply pauseTask_step in Hp as (_ & _ & _ & _ & Hn). exact Hn. }
  destruct o as [n u|i|i|i|i].
  - exfalso. exact (Hnc n u eq_refl).
  - rewrite startTask_eq.
    destruct (findById i (tasks (file w))) as [[k t]|]; [|reflexivity].
    destruct (decide (status t = running)); [reflexivity|].
    destruct (forEach _ _ w) as [[[]|e] w1] eqn:Hloop;
      apply forEach_pause_step in Hloop as (_ & _ & _ & _ & Hn); exact Hn.
  - apply Hp.
  - rewrite stopTask_eq.
    destruct (findById i (tasks (file w))) as [[k t]|]; [|reflexivity].
    destruct (decide (status t = running)) as [Hr|Hr]; [|apply Hsw].
    specialize (Hp i). destruct (taskManager.pauseTask i w) as [[r|err] w1]; [|exact Hp].
    rewrite Hsw. exact Hp.
  - rewrite unstopTask_eq.
    destruct (findById i (tasks (file w))) as [[k t]|]; [|reflexivity].
    destruct (decide (status t <> stopped)); reflexivity.
Qed.

(** X19. Names as they are stored.  [createTask] stores [name.trim()]
    and no operation renames a task, so in every store reached from the
    empty data file every task has a name that is not empty and has no
    white space at either end. *)
Theorem reachable_names_trimmed (ops : list Op) (w : World) :
  file w = initialData ->
  Forall (fun t => name t <> EmptyString /\ trim (name t) = name t)
    (tasks (file (runOps ops w))).
Proof.
  intros Hinit.
  assert (H0 : Forall (fun t => name t <> EmptyString /\ trim (name t) = name t)
                 (tasks (file w))) by (rewrite Hinit; constructor).
  clear Hinit. revert w H0. induction ops as [|o ops IH]; intros w H0; [exact H0|].
  simpl. apply IH. clear IH.
  destruct (runOp o w) as [r w'] eqn:Hrun.
  pose proof Hrun as (front & extra & Htasks & HF & Hextra)%runOp_opStep.
  simpl. rewrite Htasks. apply Forall_app. split.
  - eapply (Forall2_opStep_preserves _ o); [|exact HF|exact H0].
    intros t t' Hstep. rewrite (opStep_name _ _ _ Hstep). auto.
  - destruct Hextra as [[-> _] | (n & u & -> & Hnext)]; [constructor|].
    assert (Hn : exists n0, n = trim n0 /\ trim n0 <> EmptyString).
    { destruct o as [n0 u0|i|i|i|i].
      2-5: exfalso;
           match goal with
           | _ : runOp ?op ?w0 = _ |- _ =>
               assert (Hsame : nextId (file (snd (runOp op w0))) = nextId (file w0))
                 by (apply runOp_nextId; discriminate)
           end;
           rewrite Hrun in Hsame; simpl in Hsame; lia.
      exists n0. unfold runOp, bind in Hrun. rewrite createTask_eq in Hrun.
      destruct (decide (n0 = EmptyString \/ trim n0 = EmptyString)) as [|Hne].
      - injection Hrun as _ <-. lia.
      - cbv zeta in Hrun. unfold ret in Hrun. injection Hrun as _ <-.
        simpl in Htasks. apply Forall2_length in HF.
        apply app_inj_2 in Htasks as [_ [= Hn' _]]; [|reflexivity].
        split; [symmetry; exact Hn'|]. intros Hb. apply Hne. right. exact Hb. }
    destruct Hn as (n0 & -> & Hne).
    repeat constructor; simpl; [exact Hne | apply trim_idem].
Qed.

Lemma reachable_names_trimmed_witness :
  Forall (fun t => name t <> EmptyString /\ trim (name t) = name t)
    (tasks (file (runOps [CreateTask "  write spec " EmptyString; StartTask 1]
                         emptyHost))).
Proof.
  exact (reachable_names_trimmed [CreateTask "  write spec " EmptyString; StartTask 1]
           emptyHost eq_refl).
Defined.


(** ** The commands of the visual mode *)

Lemma getCurrentRunningTask_eq w :
  taskManager.getCurrentRunningTask w
  = (Ok (head (taskManager.getTaskSummary <$> filter isRunning (tasks (file w)))), w).
Proof. reflexivity. Qed.

(** X20. The [stop] command of the visual mode pauses; it does not stop.
    With no task running it only says so and writes nothing.  Otherwise
    (unique ids, running tasks with their last session open) the first
    running task of the store is paused by [pauseTask]: it ends [paused],
    not [stopped], the data file is what that call leaves, and the status
    line shows its name and its new total. *)
Theorem stopCurrentTask_pauses (this : VisualMode.This) (w : World) :
  uniqueIds (file w) -> runningHaveOpenSession (file w) ->
  let s' := snd (VisualMode.stopCurrentTask (this, w)) in
  fst (VisualMode.stopCurrentTask (this, w)) = Ok tt
  /\ (filter isRunning (tasks (file w)) = [] ->
      snd s' = w /\ VisualMode.this_statusMessage (fst s') = Some NoTaskRunning)
  /\ (forall r rest, filter isRunning (tasks (file w)) = r :: rest ->
      exists tp,
        fst (taskManager.pauseTask (id r) w) = Ok (Some tp) /\ status tp = paused
        /\ file (snd s') = file (snd (taskManager.pauseTask (id r) w))
        /\ VisualMode.this_statusMessage (fst s')
           = Some (Paused (name r) (taskManager.formatDuration (totalTime tp)))).
Proof.
  intros Hnd Hopen. cbv zeta. unfold VisualMode.stopCurrentTask.
  rewrite (bind_ok _ _ _ _ _ (engine_eq _ this _ _ _ (getCurrentRunningTask_eq w))).
  destruct (filter isRunning (tasks (file w))) as [|r rest] eqn:Hrun.
  - simpl. split; [reflexivity|]. split; [auto | discriminate].
  - cbn [fmap list_fmap head].
    change (Summary.id (taskManager.getTaskSummary r)) with (id r).
    assert (Hin : r ∈ filter isRunning (tasks (file w))) by (rewrite Hrun; left).
    apply list_elem_of_filter in Hin as [Hr [k Hk]%list_elem_of_lookup].
    unfold runningHaveOpenSession in Hopen. rewrite Forall_lookup in Hopen.
    destruct (pauseTask_succeeds w k r Hnd Hk Hr (Hopen k r Hk Hr)) as (s & _ & _ & Hp).
    set (tp := pausedTask (now w) r s) in *. set (w1 := withFile _ _) in Hp.
    rewrite (bind_ok _ _ _ _ _ (engine_eq _ _ _ _ _ Hp)).
    rewrite (bind_ok _ _ _ _ _ (summaryOf_eq _ _)).
    rewrite (bind_ok _ _ _ _ _ (showMessage_eq _ _ _)).
    match goal with |- context [VisualMode.refreshTasks (?t1, w1)] =>
      pose proof (refreshTasks_frame t1 w1) as (Hr1 & Hf1 & Hm1) end.
    split; [exact Hr1|]. split; [discriminate|].
    intros r0 rest0 [= <- <-]. exists tp. rewrite Hp.
    split; [reflexivity|]. split; [reflexivity|]. split; [exact Hf1 | exact Hm1].
Qed.

Lemma stopCurrentTask_pauses_witness :
  fst (VisualMode.stopCurrentTask (twoRowsThis, switchHost)) = Ok tt
  /\ exists tp,
       fst (taskManager.pauseTask 1 switchHost) = Ok (Some tp) /\ status tp = paused
       /\ file (snd (snd (VisualMode.stopCurrentTask (twoRowsThis, switchHost))))
          = file (snd (taskManager.pauseTask 1 switchHost)).
Proof.
  assert (Hnd : uniqueIds (file switchHost))
    by (apply (bool_decide_unpack _); vm_compute; exact I).
  assert (Hopen : runningHaveOpenSession (file switchHost)).
  { repeat constructor; [|discriminate].
    intros _. exists (sampleOpenSession 2000). split; reflexivity. }
  pose proof (stopCurrentTask_pauses twoRowsThis switchHost Hnd Hopen) as (H1 & _ & H2).
  split; [exact H1|].
  destruct (H2 runningSample [] eq_refl) as (tp & Ha & Hb & Hc & _).
  exists tp. auto.
Defined.


Lemma createAndStartTask_runs (this : VisualMode.This) (w : World) (taskName : string) :
  uniqueIds (file w) -> freshNextId (file w) -> runningHaveOpenSession (file w) ->
  trim taskName <> EmptyString ->
  exists this' w',
    VisualMode.createAndStartTask taskName (this, w) = (Ok tt, (this', w'))
    /\ VisualMode.this_statusMessage this' = Some (CreatedAndStarted taskName)
    /\ VisualMode.this_isActive this' = VisualMode.this_isActive this
    /\ createdAndStarted (file w) (trim taskName) (file w').
Proof.
  intros Hnd Hfresh Hopen Hname.
  destruct (create_then_start w taskName Hnd Hfresh Hopen Hname)
    as (a & b & w1 & w2 & Hc & Hida & Hs & Hidb & Hnb & Hrb & Hfilter & Hlen).
  unfold VisualMode.createAndStartTask.
  rewrite (bind_ok _ _ _ _ _ (engine_eq _ _ _ _ _ Hc)).
  rewrite (bind_ok _ _ _ _ _ (engine_eq _ _ _ _ _ Hs)).
  rewrite (bind_ok _ _ _ _ _ (showMessage_eq _ _ _)).
  match goal with |- context [VisualMode.refreshTasks (?t1, w2)] =>
    pose proof (refreshTasks_frame t1 w2) as (Hr1 & Hf1 & Hm1);
    assert (Ha1 : VisualMode.this_isActive
                    (fst (snd (VisualMode.refreshTasks (t1, w2))))
                  = VisualMode.this_isActive this) by reflexivity
  end.
  destruct (VisualMode.refreshTasks _) as [r [this' w']]. simpl in *. subst r.
  exists this', w'. split; [reflexivity|]. split; [exact Hm1|]. split; [exact Ha1|].
  rewrite Hf1. exists b. auto.
Qed.

(** X21. A committed line that is not a command is a new task.  When the
    first word of the trimmed line is none of [start], [stop], [exit],
    [quit] (in any letter case), on a store with unique ids, a fresh
    [nextId] and pausable running tasks: the whole trimmed line becomes the
    name of a new task, which is created and started, so it is the one
    running task; the status line says so and the input line is emptied. *)
Theorem free_text_creates_and_starts (this : VisualMode.This) (w : World) :
  let input := trim (VisualMode.this_inputBuffer this) in
  let command := toLowerCase (hd EmptyString (split " " input)) in
  input <> EmptyString ->
  command <> "start" -> command <> "stop" -> command <> "exit" -> command <> "quit" ->
  uniqueIds (file w) -> freshNextId (file w) -> runningHaveOpenSession (file w) ->
  let s' := snd (VisualMode.processCommand (this, w)) in
  fst (VisualMode.processCommand (this, w)) = Ok tt
  /\ createdAndStarted (file w) input (file (snd s'))
  /\ VisualMode.this_statusMessage (fst s') = Some (CreatedAndStarted input)
  /\ VisualMode.this_inputBuffer (fst s') = EmptyString.
Proof.
  cbv zeta. intros Hinput Hstart Hstop Hexit Hquit Hnd Hfresh Hopen.
  assert (Hname : trim (trim (VisualMode.this_inputBuffer this)) <> EmptyString)
    by (rewrite trim_idem; exact Hinput).
  destruct (createAndStartTask_runs this w _ Hnd Hfresh Hopen Hname)
    as (this' & w' & Hrun & Hmsg & _ & Hcs).
  rewrite trim_idem in Hcs.
  unfold VisualMode.processCommand.
  rewrite (bind_ok _ _ _ _ _ (getThis_eq _ w)).
  destruct (split " " (trim (VisualMode.this_inputBuffer this))) as [|command args] eqn:Hsplit;
    [exfalso; exact (split_not_nil _ _ Hsplit)|].
  cbn [hd] in *.
  destruct (decide (toLowerCase command = "start")); [contradiction|].
  destruct (decide (toLowerCase command = "stop")); [contradiction|].
  destruct (decide (toLowerCase command = "exit" \/ toLowerCase command = "quit"))
    as [[H|H]|_]; [contradiction..|].
  destruct (decide (trim (VisualMode.this_inputBuffer this) <> EmptyString));
    [|contradiction].
  assert (Htry : tryCatch
            (VisualMode.createAndStartTask (trim (VisualMode.this_inputBuffer this))
             ;;; ret false)
            (fun error => VisualMode.showMessage (ErrorLine error) ;;; ret false)
            (this, w) = (Ok false, (this', w'))).
  { unfold tryCatch. rewrite (bind_ok _ _ _ _ _ Hrun). reflexivity. }
  rewrite (bind_ok _ _ _ _ _ Htry). simpl. auto.
Qed.

Lemma free_text_creates_and_starts_witness :
  fst (VisualMode.processCommand (typed idleThis "starting the review", pausedHost)) = Ok tt
  /\ createdAndStarted (file pausedHost) "starting the review"
       (file (snd (snd (VisualMode.processCommand
                          (typed idleThis "starting the review", pausedHost))))).
Proof.
  assert (Hnd : uniqueIds (file pausedHost))
    by (apply (bool_decide_unpack _); vm_compute; exact I).
  assert (Hfresh : freshNextId (file pausedHost)) by (repeat constructor; discriminate).
  assert (Hopen : runningHaveOpenSession (file pausedHost))
    by (repeat constructor; discriminate).
  assert (Hin : trim (VisualMode.this_inputBuffer (typed idleThis "starting the review"))
                <> EmptyString) by (vm_compute; discriminate).
  assert (Hc : forall c : string, c <> "starting"%string ->
            toLowerCase (hd EmptyString
              (split " " (trim (VisualMode.this_inputBuffer
                                  (typed idleThis "starting the review"))))) <> c)
    by (intros c Hc; vm_compute; congruence).
  destruct (free_text_creates_and_starts (typed idleThis "starting the review")
              pausedHost Hin (Hc "start"%string ltac:(discriminate))
              (Hc "stop"%string ltac:(discriminate))
              (Hc "exit"%string ltac:(discriminate))
              (Hc "quit"%string ltac:(discriminate)) Hnd Hfresh Hopen) as (H1 & H2 & _).
  split; [exact H1 | exact H2].
Defined.


(** X22. [start] without a name in the visual mode, by what the
    last-active pointer designates.  No pointer, or a pointer to a task
    that is not there: 'No previous task found'.  A stopped task: the mode
    asks for a name.  In both cases nothing is written.  A task that is
    running already: [startTask] throws 'Task is already running' and
    nothing is written ([processCommand] shows the error).  A task that is
    created or paused (in a store with unique ids and pausable running
    tasks): it is started and the status line says it was resumed. *)
Theorem startLastTask_cases (this : VisualMode.This) (w : World) :
  let run := VisualMode.startLastTask (this, w) in
  (fst (taskManager.getLastActiveTask w) = Ok None ->
   fst run = Ok tt /\ snd (snd run) = w
   /\ VisualMode.this_statusMessage (fst (snd run)) = Some NoPreviousTask)
  /\ (forall t,
      fst (taskManager.getLastActiveTask w) = Ok (Some (taskManager.getTaskSummary t)) ->
      (status t = stopped ->
       fst run = Ok tt /\ snd (snd run) = w
       /\ VisualMode.this_statusMessage (fst (snd run)) = Some (LastTaskStopped (name t)))
      /\ (status t = running -> uniqueIds (file w) -> t ∈ tasks (file w) ->
          run = (Throw AlreadyRunning, (this, w)))
      /\ (status t = created \/ status t = paused ->
          uniqueIds (file w) -> runningHaveOpenSession (file w) -> t ∈ tasks (file w) ->
          fst run = Ok tt
          /\ file (snd (snd run)) = file (snd (taskManager.startTask (id t) w))
          /\ (exists ts, fst (taskManager.startTask (id t) w) = Ok (Some ts)
                         /\ status ts = running)
          /\ VisualMode.this_statusMessage (fst (snd run)) = Some (Resumed (name t)))).
Proof.
  cbv zeta. unfold VisualMode.startLastTask.
  destruct (taskManager.getLastActiveTask w) as [r w0] eqn:Hlast.
  assert (w0 = w) as ->.
  { rewrite getLastActiveTask_eq in Hlast. congruence. }
  split.
  - simpl. intros ->.
    rewrite (bind_ok _ _ _ _ _ (engine_eq _ this _ _ _ Hlast)). simpl. auto.
  - simpl. intros t ->.
    rewrite (bind_ok _ _ _ _ _ (engine_eq _ this _ _ _ Hlast)).
    change (Summary.status (taskManager.getTaskSummary t)) with (status t).
    change (Summary.id (taskManager.getTaskSummary t)) with (id t).
    change (Summary.name (taskManager.getTaskSummary t)) with (name t).
    split; [|split].
    + intros Hst. destruct (decide (status t = stopped)); [|contradiction].
      simpl. auto.
    + intros Hr Hnd [k Hk]%list_elem_of_lookup.
      destruct (decide (status t = stopped)); [congruence|].
      assert (Hs : taskManager.startTask (id t) w = (Throw AlreadyRunning, w)).
      { rewrite startTask_eq, (findById_unique _ _ _ Hnd Hk).
        destruct (decide (status t = running)); [reflexivity | contradiction]. }
      unfold bind, engine. simpl. rewrite Hs. reflexivity.
    + intros Hst Hnd Hopen [k Hk]%list_elem_of_lookup.
      destruct (decide (status t = stopped)); [destruct Hst; congruence|].
      assert (Hnr : status t <> running) by (destruct Hst; congruence).
      destruct (startTask_succeeds w k t Hnd Hopen Hk Hnr) as (w1 & _ & Hs).
      set (w2 := withFile _ _) in Hs.
      rewrite (bind_ok _ _ _ _ _ (engine_eq _ _ _ _ _ Hs)).
      rewrite (bind_ok _ _ _ _ _ (showMessage_eq _ _ _)).
      match goal with |- context [VisualMode.refreshTasks (?t1, w2)] =>
        pose proof (refreshTasks_frame t1 w2) as (Hr1 & Hf1 & Hm1) end.
      split; [exact Hr1|]. rewrite Hs. split; [exact Hf1|].
      split; [eexists; split; reflexivity | exact Hm1].
Qed.

Lemma startLastTask_cases_witness :
  fst (taskManager.getLastActiveTask pausedHost)
    = Ok (Some (taskManager.getTaskSummary pausedSample))
  /\ fst (VisualMode.startLastTask (idleThis, pausedHost)) = Ok tt
  /\ VisualMode.this_statusMessage
       (fst (snd (VisualMode.startLastTask (idleThis, pausedHost))))
     = Some (Resumed "write spec").
Proof.
  assert (Hnd : uniqueIds (file pausedHost))
    by (apply (bool_decide_unpack _); vm_compute; exact I).
  assert (Hopen : runningHaveOpenSession (file pausedHost))
    by (repeat constructor; discriminate).
  assert (Hin : pausedSample ∈ tasks (file pausedHost)) by left.
  split; [reflexivity|].
  pose proof (proj2 (proj2 (proj2 (startLastTask_cases idleThis pausedHost)
                              pausedSample eq_refl))
                (or_intror eq_refl) Hnd Hopen Hin) as (H1 & _ & _ & H2).
  split; [exact H1 | exact H2].
Defined.


(** * Properties of the interactive mode *)

Lemma findTask_found (w : World) (input : string) (s : Summary.t) :
  fst (InteractiveMode.findTask input w) = Ok (Some s) ->
  exists k t, tasks (file w) !! k = Some t /\ s = taskManager.getTaskSummary t
              /\ status t <> stopped.
Proof.
  unfold InteractiveMode.findTask, taskManager.getAllTasksSummary,
    storage.getAllTasks, bind, loadData, ret. simpl.
  assert (H : forall (P : Summary.t -> Prop) `{forall x, Decision (P x)},
            snd <$> list_find P
              (filter (fun task => Summary.status task <> stopped)
                      (taskManager.getTaskSummary <$> tasks (file w))) = Some s ->
            exists k t, tasks (file w) !! k = Some t
                        /\ s = taskManager.getTaskSummary t /\ status t <> stopped).
  { intros P HP Hfind.
    destruct (list_find P _) as [[j x]|] eqn:Hl; [|discriminate].
    simpl in Hfind. injection Hfind as ->.
    apply list_find_Some in Hl as (Hj & _ & _).
    apply list_elem_of_lookup_2 in Hj.
    apply list_elem_of_filter in Hj as [Hns Hin].
    apply list_elem_of_fmap in Hin as (t & -> & [k Hk]%list_elem_of_lookup).
    exists k, t. auto. }
  destruct (allDigits input); simpl; intros [= Hr]; eapply H; exact Hr.
Qed.

Lemma report_eq (r : InteractiveMode.Report) (console : InteractiveMode.Reports)
    (w : World) :
  InteractiveMode.report r (console, w) = (Ok tt, (console ++ [r], w)).
Proof. reflexivity. Qed.

(** X23. The [unstop] command of the interactive mode cannot unstop
    anything.  It resolves its argument with [findTask], which leaves the
    stopped tasks out; so, on a store with unique ids, whatever is typed:
    either the command asks for an argument, or it prints 'Task not
    found', or the task it found is not stopped and [taskManager.unstopTask]
    throws 'Task is not currently stopped'.  The data file and the clock
    are never touched. *)
Theorem interactive_unstop_never_unstops (console : InteractiveMode.Reports)
    (w : World) (input : string) :
  uniqueIds (file w) ->
  InteractiveMode.unstopTask input (console, w)
    = (Ok tt, (console ++ [InteractiveMode.Said PleaseProvideTask], w))
  \/ InteractiveMode.unstopTask input (console, w)
    = (Ok tt, (console ++ [InteractiveMode.TaskNotFoundFor input], w))
  \/ InteractiveMode.unstopTask input (console, w) = (Throw NotStopped, (console, w)).
Proof.
  intros Hnd. unfold InteractiveMode.unstopTask.
  destruct (decide (input = EmptyString)); [left; reflexivity|]. right.
  destruct (findTask_reads w input) as [r Hfind].
  rewrite (bind_ok _ _ _ _ _ (engine_eq _ console _ _ _ Hfind)).
  destruct r as [s|]; [right | left; reflexivity].
  destruct (findTask_found w input s) as (k & t & Hk & -> & Hns);
    [rewrite Hfind; reflexivity|].
  change (Summary.id (taskManager.getTaskSummary t)) with (id t).
  assert (Hu : taskManager.unstopTask (id t) w = (Throw NotStopped, w)).
  { rewrite unstopTask_eq, (findById_unique _ _ _ Hnd Hk).
    destruct (decide (status t <> stopped)); [reflexivity | contradiction]. }
  unfold bind, engine. simpl. rewrite Hu. reflexivity.
Qed.

Lemma interactive_unstop_never_unstops_witness :
  status <$> tasks (file dayHost) = [paused; paused; stopped]
  /\ (InteractiveMode.unstopTask "email" ([], dayHost)
        = (Ok tt, ([] ++ [InteractiveMode.Said PleaseProvideTask], dayHost))
      \/ InteractiveMode.unstopTask "email" ([], dayHost)
        = (Ok tt, ([] ++ [InteractiveMode.TaskNotFoundFor "email"], dayHost))
      \/ InteractiveMode.unstopTask "email" ([], dayHost)
        = (Throw NotStopped, ([], dayHost))).
Proof.
  assert (Hnd : uniqueIds (file dayHost))
    by (apply (bool_decide_unpack _); vm_compute; exact I).
  split; [reflexivity|].
  exact (interactive_unstop_never_unstops [] dayHost "email" Hnd).
Defined.

(** The stopped task of the sample day cannot be reached by the command. *)
Example interactive_unstop_stopped_task :
  fst (InteractiveMode.unstopTask "email" ([], dayHost)) = Ok tt
  /\ fst (snd (InteractiveMode.unstopTask "email" ([], dayHost)))
     = [InteractiveMode.TaskNotFoundFor "email"]
  /\ fst (InteractiveMode.unstopTask "3" ([], dayHost)) = Ok tt
  /\ fst (snd (InteractiveMode.unstopTask "3" ([], dayHost)))
     = [InteractiveMode.TaskNotFoundFor "3"].
Proof. repeat split; reflexivity. Qed.


Lemma stopTask_returns (w : World) (i : Z) (k : nat) (t : Task) :
  findById i (tasks (file w)) = Some (k, t) ->
  (status t = running -> lastSessionOpen t) ->
  exists t' w',
    taskManager.stopTask i w = (Ok (Some t'), w')
    /\ status t' = stopped /\ name t' = name t /\ id t' = id t.
Proof.
  intros Hf Hopen. pose proof (findById_Some _ _ _ _ Hf) as (Hk & Hid & _).
  rewrite stopTask_eq, Hf.
  destruct (decide (status t = running)) as [Hr|Hnr].
  - destruct (Hopen Hr) as (s & Hlast & Hend).
    rewrite pauseTask_eq, Hf.
    destruct (decide (status t <> running)); [contradiction|].
    rewrite Hlast, Hend. unfold stopWrite. cbn [file withFile tasks].
    rewrite (findById_update _ _ _ _ (pausedTask (now w) t s) Hf) by exact Hid.
    eexists _, _. split; [reflexivity|]. repeat split.
  - unfold stopWrite. rewrite Hf. eexists _, _. split; [reflexivity|]. repeat split.
Qed.

(** X24. [pause <arg>] and [stop <arg>] of the interactive mode, on a
    store with unique ids whose running tasks have their last session
    open.  The argument is resolved by [findTask], so among the tasks that
    are not stopped.  Nothing found: both print 'Task not found' and write
    nothing.  A task found: [stop] stops it through [taskManager.stopTask]
    and prints its name and total; [pause] pauses it if it is running and
    prints name and total, and otherwise lets 'Task is not currently
    running' through, nothing being written or printed. *)
Theorem interactive_pause_and_stop (console : InteractiveMode.Reports)
    (w : World) (input : string) :
  input <> EmptyString ->
  uniqueIds (file w) -> runningHaveOpenSession (file w) ->
  (fst (InteractiveMode.findTask input w) = Ok None ->
   InteractiveMode.stopTask input (console, w)
     = (Ok tt, (console ++ [InteractiveMode.TaskNotFoundFor input], w))
   /\ InteractiveMode.pauseTask input (console, w)
     = (Ok tt, (console ++ [InteractiveMode.TaskNotFoundFor input], w)))
  /\ (forall s, fst (InteractiveMode.findTask input w) = Ok (Some s) ->
      (exists t',
         fst (taskManager.stopTask (Summary.id s) w) = Ok (Some t')
         /\ status t' = stopped
         /\ InteractiveMode.stopTask input (console, w)
            = (Ok tt,
               (console ++ [InteractiveMode.StoppedLine (Summary.name s)
                              (taskManager.formatDuration (totalTime t'))],
                snd (taskManager.stopTask (Summary.id s) w))))
      /\ (Summary.status s = running ->
          exists tp,
            fst (taskManager.pauseTask (Summary.id s) w) = Ok (Some tp)
            /\ status tp = paused
            /\ InteractiveMode.pauseTask input (console, w)
               = (Ok tt,
                  (console ++ [InteractiveMode.Said
                                 (Paused (Summary.name s)
                                    (taskManager.formatDuration (totalTime tp)))],
                   snd (taskManager.pauseTask (Summary.id s) w))))
      /\ (Summary.status s <> running ->
          InteractiveMode.pauseTask input (console, w) = (Throw NotRunning, (console, w)))).
Proof.
  intros Hinput Hnd Hopen.
  destruct (findTask_reads w input) as [r Hfind].
  unfold InteractiveMode.stopTask, InteractiveMode.pauseTask.
  destruct (decide (input = EmptyString)); [contradiction|].
  rewrite !(bind_ok _ _ _ _ _ (engine_eq _ console _ _ _ Hfind)).
  rewrite Hfind. cbn [fst]. split.
  - intros [= ->]. split; reflexivity.
  - intros s [= ->].
    destruct (findTask_found w input s) as (k & t & Hk & -> & Hns);
      [rewrite Hfind; reflexivity|].
    change (Summary.id (taskManager.getTaskSummary t)) with (id t).
    change (Summary.status (taskManager.getTaskSummary t)) with (status t).
    change (Summary.name (taskManager.getTaskSummary t)) with (name t).
    pose proof (findById_unique _ _ _ Hnd Hk) as Hf.
    unfold runningHaveOpenSession in Hopen. rewrite Forall_lookup in Hopen.
    split; [|split].
    + destruct (stopTask_returns w (id t) k t Hf (Hopen k t Hk))
        as (t' & w' & Hs & Hst & Hname & _).
      exists t'. rewrite Hs. split; [reflexivity|]. split; [exact Hst|].
      rewrite (bind_ok _ _ _ _ _ (engine_eq _ _ _ _ _ Hs)).
      rewrite (bind_ok _ _ _ _ _ (summaryOf_eq _ _)).
      rewrite report_eq. simpl. rewrite Hname. reflexivity.
    + intros Hr.
      destruct (pauseTask_succeeds w k t Hnd Hk Hr (Hopen k t Hk Hr))
        as (s & _ & _ & Hp).
      exists (pausedTask (now w) t s). rewrite Hp.
      split; [reflexivity|]. split; [reflexivity|].
      rewrite (bind_ok _ _ _ _ _ (engine_eq _ _ _ _ _ Hp)).
      rewrite (bind_ok _ _ _ _ _ (summaryOf_eq _ _)).
      rewrite report_eq. reflexivity.
    + intros Hnr.
      assert (Hp : taskManager.pauseTask (id t) w = (Throw NotRunning, w)).
      { rewrite pauseTask_eq, Hf.
        destruct (decide (status t <> running)); [reflexivity | contradiction]. }
      unfold bind, engine. simpl. rewrite Hp. reflexivity.
Qed.

Lemma interactive_pause_and_stop_witness :
  fst (InteractiveMode.findTask "SPEC" switchHost)
    = Ok (Some (taskManager.getTaskSummary runningSample))
  /\ exists t',
       fst (taskManager.stopTask 1 switchHost) = Ok (Some t') /\ status t' = stopped
       /\ InteractiveMode.stopTask "SPEC" ([], switchHost)
          = (Ok tt,
             ([] ++ [InteractiveMode.StoppedLine "write spec"
                       (taskManager.formatDuration (totalTime t'))],
              snd (taskManager.stopTask 1 switchHost))).
Proof.
  assert (Hne : "SPEC"%string <> EmptyString) by discriminate.
  assert (Hnd : uniqueIds (file switchHost))
    by (apply (bool_decide_unpack _); vm_compute; exact I).
  assert (Hopen : runningHaveOpenSession (file switchHost)).
  { repeat constructor; [|discriminate].
    intros _. exists (sampleOpenSession 2000). split; reflexivity. }
  assert (Hfind : fst (InteractiveMode.findTask "SPEC" switchHost)
                  = Ok (Some (taskManager.getTaskSummary runningSample))) by reflexivity.
  split; [exact Hfind|].
  exact (proj1 (proj2 (interactive_pause_and_stop [] switchHost "SPEC" Hne Hnd Hopen)
                  _ Hfind)).
Defined.


(** * Properties of the query layer and of the storage *)

(** X25. [formatDuration] on a number of seconds that is not negative
    splits it into hours, minutes below 60 and seconds below 60 that add
    up to it, and shows the hours only when there are some, the minutes
    when there are hours or minutes, and always the seconds, units that
    are 0 in the middle included.  On a negative number the hours and
    minutes are never shown: the text is the remainder of the division by
    60, which is not positive, followed by [s]. *)
Theorem formatDuration_units (seconds : Z) :
  (0 <= seconds ->
   exists h m s,
     seconds = 3600 * h + 60 * m + s /\ 0 <= h /\ 0 <= m < 60 /\ 0 <= s < 60
     /\ taskManager.formatDuration seconds
        = (if decide (h > 0) then
             taskManager.numberToString h ++ "h " ++ taskManager.numberToString m
               ++ "m " ++ taskManager.numberToString s ++ "s"
           else if decide (m > 0) then
             taskManager.numberToString m ++ "m " ++ taskManager.numberToString s ++ "s"
           else taskManager.numberToString s ++ "s")%string)
  /\ (seconds < 0 ->
      Z.rem seconds 60 <= 0
      /\ taskManager.formatDuration seconds
         = (taskManager.numberToString (Z.rem seconds 60) ++ "s")%string).
Proof.
  split.
  - intros Hpos.
    exists (seconds / 3600), (Z.rem seconds 3600 / 60), (Z.rem seconds 60).
    rewrite !Z.rem_mod_nonneg by lia.
    pose proof (Z.div_mod seconds 3600 ltac:(lia)) as H1.
    pose proof (Z.mod_pos_bound seconds 3600 ltac:(lia)) as H2.
    pose proof (Z.div_mod (seconds mod 3600) 60 ltac:(lia)) as H3.
    pose proof (Z.mod_pos_bound (seconds mod 3600) 60 ltac:(lia)) as H4.
    pose proof (Z.mod_pos_bound seconds 60 ltac:(lia)) as H5.
    assert (H6 : (seconds mod 3600) mod 60 = seconds mod 60).
    { apply Z.mod_mod_divide. exists 60. reflexivity. }
    split; [lia|]. split; [apply Z.div_pos; lia|].
    split; [split; [apply Z.div_pos; lia | apply Z.div_lt_upper_bound; lia]|].
    split; [lia|].
    unfold taskManager.formatDuration. cbv zeta.
    rewrite !Z.rem_mod_nonneg by lia. reflexivity.
  - intros Hneg.
    pose proof (Z.rem_nonpos seconds 60 ltac:(lia) ltac:(lia)) as H60.
    pose proof (Z.rem_nonpos seconds 3600 ltac:(lia) ltac:(lia)) as H3600.
    split; [lia|].
    unfold taskManager.formatDuration. cbv zeta.
    destruct (decide (seconds / 3600 > 0)) as [H|_].
    { exfalso. assert (seconds / 3600 < 0) by (apply Z.div_lt_upper_bound; lia). lia. }
    destruct (decide (Z.rem seconds 3600 / 60 > 0)) as [H|_]; [|reflexivity].
    exfalso. assert (Z.rem seconds 3600 / 60 <= 0) by (apply Z.div_le_upper_bound; lia).
    lia.
Qed.

Lemma formatDuration_units_witness :
  taskManager.formatDuration 3600 = "1h 0m 0s"%string
  /\ taskManager.formatDuration (-3725)
     = (taskManager.numberToString (Z.rem (-3725) 60) ++ "s")%string.
Proof.
  split; [reflexivity|].
  apply (proj2 (formatDuration_units (-3725))). lia.
Defined.

Lemma findById_update_other (j : Z) (l : list Task) k t t' :
  l !! k = Some t -> id t <> j -> id t' <> j ->
  findById j (<[k := t']> l) = findById j l.
Proof.
  intros Hk Ht Ht'. unfold findById.
  destruct (list_find (fun task => id task = j) l) as [[n x]|] eqn:Hl.
  - apply list_find_Some in Hl as (Hn & Hx & Hmin).
    assert (Hne : n <> k) by (intros ->; congruence).
    apply list_find_Some. split; [rewrite list_lookup_insert_ne by congruence; exact Hn|].
    split; [exact Hx|]. intros i y Hi Hlt.
    destruct (decide (i = k)) as [->|Hik].
    + rewrite list_lookup_insert_eq in Hi by (eapply lookup_lt_Some; eauto).
      congruence.
    + rewrite list_lookup_insert_ne in Hi by congruence. eauto.
  - apply list_find_None. apply list_find_None in Hl.
    apply Forall_insert; [exact Hl | exact Ht'].
Qed.

(** X26. [storage.updateTask] called with an object that carries only
    keys among [status], [sessions], [totalTime], [lastStarted],
    [lastPaused] and [stoppedAt], as [taskManager.js] calls it.  For an id
    that is not in the file it answers [null] and writes nothing (it does
    not create the task).  For an id that is there it merges the object
    into the first task with that id, in place, and answers the merged
    task, which is then what [getTask] finds under the id; every other id
    still finds what it found, and the id counter, the last-active pointer
    and the clock are as before. *)
Theorem updateTask_then_getTask (w : World) (i : Z) (u : Updates) :
  let w' := snd (storage.updateTask i u w) in
  (fst (storage.getTask i w) = Ok None ->
   storage.updateTask i u w = (Ok None, w))
  /\ (forall t, fst (storage.getTask i w) = Ok (Some t) ->
      fst (storage.updateTask i u w) = Ok (Some (applyUpdates t u))
      /\ fst (storage.getTask i w') = Ok (Some (applyUpdates t u))
      /\ (exists k, tasks (file w) !! k = Some t
                    /\ (forall j y, tasks (file w) !! j = Some y -> (j < k)%nat -> id y <> i)
                    /\ tasks (file w') = <[k := applyUpdates t u]> (tasks (file w)))
      /\ (forall j, j <> i -> fst (storage.getTask j w') = fst (storage.getTask j w))
      /\ nextId (file w') = nextId (file w)
      /\ lastActiveTaskId (file w') = lastActiveTaskId (file w)
      /\ tick w' = tick w).
Proof.
  cbv zeta. rewrite updateTask_eq, getTask_eq. cbn [fst]. split.
  - destruct (findById i (tasks (file w))) as [[k t]|]; [discriminate | reflexivity].
  - intros t Hget.
    destruct (findById i (tasks (file w))) as [[k t0]|] eqn:Hf; [|discriminate].
    simpl in Hget. injection Hget as ->.
    pose proof (findById_Some _ _ _ _ Hf) as (Hk & Hid & Hmin).
    cbn [fst snd]. rewrite getTask_eq.
    cbn [fst file withFile tasks nextId lastActiveTaskId tick].
    rewrite (findById_update _ _ _ _ (applyUpdates t u) Hf) by exact Hid.
    split; [reflexivity|]. split; [reflexivity|].
    split; [exists k; split; [exact Hk|]; split; [exact Hmin | reflexivity]|].
    split; [|repeat split].
    intros j Hj. rewrite !getTask_eq. cbn [fst file withFile tasks].
    rewrite (findById_update_other j _ k t); [reflexivity | exact Hk | |];
      simpl; congruence.
Qed.

Lemma updateTask_then_getTask_witness :
  fst (storage.getTask 1 pausedHost) = Ok (Some pausedSample)
  /\ fst (storage.getTask 1
            (snd (storage.updateTask 1
                    {| u_status := Some stopped; u_sessions := None;
                       u_totalTime := None; u_lastStarted := None;
                       u_lastPaused := None; u_stoppedAt := Some (Some 9000) |}
                    pausedHost)))
     = Ok (Some (applyUpdates pausedSample
                   {| u_status := Some stopped; u_sessions := None;
                      u_totalTime := None; u_lastStarted := None;
                      u_lastPaused := None; u_stoppedAt := Some (Some 9000) |}))
  /\ fst (storage.getTask 7 pausedHost) = Ok None
  /\ storage.updateTask 7
       {| u_status := Some running; u_sessions := None; u_totalTime := None;
          u_lastStarted := None; u_lastPaused := None; u_stoppedAt := None |} pausedHost
     = (Ok None, pausedHost).
Proof.
  split; [reflexivity|].
  split; [exact (proj1 (proj2 (proj2 (updateTask_then_getTask pausedHost 1 _)
                                 pausedSample eq_refl)))|].
  split; [reflexivity|].
  exact (proj1 (updateTask_then_getTask pausedHost 7 _) eq_refl).
Defined.


(** * Properties of the arrow-key navigation *)

Lemma nav_print_eq (l : Line) (this : VisualNavigation.This) (w : World) :
  VisualNavigation.print l (this, w)
  = (Ok tt, (VisualNavigation.mkThis (VisualNavigation.this_tasks this)
               (VisualNavigation.this_selectedIndex this)
               (VisualNavigation.this_isActive this)
               (VisualNavigation.this_printed this ++ [l]), w)).
Proof. reflexivity. Qed.

Lemma nav_caught (m : VisualNavigation.UI unit) s :
  fst (tryCatch m (fun error => VisualNavigation.print (ErrorLine error)) s) = Ok tt.
Proof.
  unfold tryCatch. destruct (m s) as [[[]|e] [this w]]; [reflexivity|].
  rewrite nav_print_eq. reflexivity.
Qed.

Lemma nav_selectCurrentTask_returns s :
  fst (VisualNavigation.selectCurrentTask s) = Ok tt.
Proof.
  destruct s as [this w]. unfold VisualNavigation.selectCurrentTask, bind at 1, getThis.
  cbn [fst snd]. destruct (decide _); [reflexivity|]. apply nav_caught.
Qed.

Lemma nav_keeps_print (Q : VisualNavigation.This -> Prop) l :
  (forall this printed, Q this ->
     Q (VisualNavigation.mkThis (VisualNavigation.this_tasks this)
          (VisualNavigation.this_selectedIndex this)
          (VisualNavigation.this_isActive this) printed)) ->
  keeps (onThis Q) (VisualNavigation.print l).
Proof.
  intros HQ. apply keeps_getThis_bind. intros [this w] Hs. simpl. apply HQ, Hs.
Qed.

Lemma nav_keeps_selectCurrentTask (Q : VisualNavigation.This -> Prop) :
  (forall this printed, Q this ->
     Q (VisualNavigation.mkThis (VisualNavigation.this_tasks this)
          (VisualNavigation.this_selectedIndex this)
          (VisualNavigation.this_isActive this) printed)) ->
  keeps (onThis Q) VisualNavigation.selectCurrentTask.
Proof.
  intros HQ. unfold VisualNavigation.selectCurrentTask.
  apply keeps_getThis_bind. intros s Hs.
  destruct (decide _); [exact Hs|].
  apply (keeps_tryCatch (onThis Q)); [| intros e; apply nav_keeps_print, HQ | exact Hs].
  destruct (VisualNavigation.this_tasks (fst s) !! _) as [selectedTask|];
    [|apply keeps_throw].
  destruct (decide (Summary.status selectedTask = running));
    (apply keeps_bind; [apply keeps_engine|]; intros updatedTask;
     apply keeps_bind; [apply keeps_summaryOf|]; intros summary;
     apply nav_keeps_print, HQ).
Qed.

(** X27. The keys of the arrow-key navigation (visualNav.js).  No key
    makes [handleKeyPress] throw: Enter catches what the engine throws and
    prints it.  Unlike the visual mode, the arrows are not guarded by the
    length of the list: Down on an empty list takes [selectedIndex] from 0
    to -1.  It never gets below -1, and with the index outside the list
    Enter does nothing at all. *)
Theorem navigation_keys (this : VisualNavigation.This) (w : World) (key : string) :
  fst (VisualNavigation.handleKeyPress key (this, w)) = Ok tt
  /\ (-1 <= VisualNavigation.this_selectedIndex this ->
      -1 <= VisualNavigation.this_selectedIndex
              (fst (snd (VisualNavigation.handleKeyPress key (this, w)))))
  /\ (VisualNavigation.this_isActive this = true ->
      VisualNavigation.this_tasks this = [] ->
      VisualNavigation.this_selectedIndex this = 0 ->
      VisualNavigation.this_selectedIndex
        (fst (snd (VisualNavigation.handleKeyPress VisualMode.keyDown (this, w)))) = -1)
  /\ (VisualNavigation.this_selectedIndex this < 0
      \/ VisualNavigation.this_selectedIndex this
         >= Z.of_nat (length (VisualNavigation.this_tasks this)) ->
      VisualNavigation.handleKeyPress VisualMode.keyReturn (this, w) = (Ok tt, (this, w))).
Proof.
  split; [|split; [|split]].
  - unfold VisualNavigation.handleKeyPress, bind at 1, getThis. cbn [fst snd].
    destruct (negb _); [reflexivity|].
    repeat (destruct (decide _); [try reflexivity; apply nav_selectCurrentTask_returns|]).
    reflexivity.
  - intros Hsel.
    set (Q := fun t => -1 <= VisualNavigation.this_selectedIndex t).
    assert (HQ : forall t printed, Q t ->
              Q (VisualNavigation.mkThis (VisualNavigation.this_tasks t)
                   (VisualNavigation.this_selectedIndex t)
                   (VisualNavigation.this_isActive t) printed))
      by (intros; assumption).
    change (onThis Q (snd (VisualNavigation.handleKeyPress key (this, w)))).
    unfold VisualNavigation.handleKeyPress.
    apply keeps_getThis_bind; [|exact Hsel]. clear Hsel. intros [t w0] Hs.
    cbn [fst]. unfold onThis in Hs. cbn [fst] in Hs.
    destruct (negb _); [exact Hs|].
    destruct (decide (key = VisualMode.keyUp)).
    { unfold onThis, Q. simpl. lia. }
    destruct (decide (key = VisualMode.keyDown)).
    { unfold onThis, Q in *. simpl. lia. }
    destruct (decide (key = VisualMode.keyReturn \/ key = VisualMode.keyNewline)).
    { apply (nav_keeps_selectCurrentTask Q HQ). exact Hs. }
    repeat (destruct (decide _); [exact Hs|]). exact Hs.
  - intros Hon Hnil H0.
    unfold VisualNavigation.handleKeyPress, bind, getThis. simpl.
    rewrite Hon, Hnil, H0. reflexivity.
  - intros Hout.
    unfold VisualNavigation.handleKeyPress, bind at 1, getThis. cbn [fst snd].
    destruct (VisualNavigation.this_isActive this); [|reflexivity]. cbn [negb].
    destruct (decide (VisualMode.keyReturn = VisualMode.keyUp)) as [H|_];
      [discriminate H|].
    destruct (decide (VisualMode.keyReturn = VisualMode.keyDown)) as [H|_];
      [discriminate H|].
    destruct (decide (VisualMode.keyReturn = VisualMode.keyReturn
                      \/ VisualMode.keyReturn = VisualMode.keyNewline)) as [_|H];
      [|exfalso; apply H; left; reflexivity].
    unfold VisualNavigation.selectCurrentTask, bind, getThis. cbn [fst snd].
    destruct (decide _); [reflexivity | contradiction].
Qed.

Lemma navigation_keys_witness :
  VisualNavigation.this_selectedIndex
    (fst (snd (VisualNavigation.handleKeyPress VisualMode.keyDown (emptyNav, emptyHost))))
  = -1.
Proof.
  exact (proj1 (proj2 (proj2 (navigation_keys emptyNav emptyHost VisualMode.keyDown)))
           eq_refl eq_refl eq_refl).
Defined.


(** * Queries on the stores the engine reaches *)

Lemma runOp_localMidnight o w :
  localMidnight (snd (runOp o w)) = localMidnight w.
Proof.
  rewrite runOp_snd.
  assert (Hsw : forall i w0, localMidnight (snd (stopWrite i w0)) = localMidnight w0).
  { intros i w0. unfold stopWrite.
    destruct (findById i (tasks (file w0))) as [[k t]|]; reflexivity. }
  assert (Hp : forall i, localMidnight (snd (taskManager.pauseTask i w)) = localMidnight w).
  { intros i. destruct (taskManager.pauseTask i w) as [r w1] eqn:Hp.
    apply pauseTask_step in Hp as (_ & _ & Hm & _). exact Hm. }
  destruct o as [n u|i|i|i|i].
  - rewrite createTask_eq.
    destruct (decide (n = EmptyString \/ trim n = EmptyString)); reflexivity.
  - rewrite startTask_eq.
    destruct (findById i (tasks (file w))) as [[k t]|]; [|reflexivity].
    destruct (decide (status t = running)); [reflexivity|].
    destruct (forEach _ _ w) as [[[]|err] w1] eqn:Hloop;
      apply forEach_pause_step in Hloop as (_ & _ & Hm & _); exact Hm.
  - apply Hp.
  - rewrite stopTask_eq.
    destruct (findById i (tasks (file w))) as [[k t]|]; [|reflexivity].
    destruct (decide (status t = running)) as [Hr|Hr]; [|apply Hsw].
    specialize (Hp i). destruct (taskManager.pauseTask i w) as [[r|err] w1]; [|exact Hp].
    rewrite Hsw. exact Hp.
  - rewrite unstopTask_eq.
    destruct (findById i (tasks (file w))) as [[k t]|]; [|reflexivity].
    destruct (decide (status t <> stopped)); reflexivity.
Qed.

Lemma runOps_localMidnight ops w : localMidnight (runOps ops w) = localMidnight w.
Proof.
  revert w. induction ops as [|o ops IH]; intros w; [reflexivity|].
  simpl. rewrite IH. apply runOp_localMidnight.
Qed.

Lemma reachable_noneLaterThan ops w :
  file w = initialData -> monotoneClock (clock w) ->
  noneLaterThan (now (runOps ops w)) (file (runOps ops w)).
Proof.
  intros Hinit Hmono.
  assert (Hf : fromClock (runOps ops w)).
  { apply (runOps_keepsClock ops w). unfold fromClock. rewrite Hinit. constructor. }
  destruct (runOps_keepsClock ops w) as (Hc & _ & _).
  unfold fromClock in Hf. rewrite Hc in Hf.
  unfold noneLaterThan, now. rewrite Hc.
  eapply Forall_impl; [exact Hf|]. intros t Ht.
  eapply Forall_impl; [apply (taskFromClock_stamps _ _ _ Ht)|].
  intros ts (m & Hm & ->). apply Hmono. lia.
Qed.

(** X28. [getTodaysTasks] in the stores the engine reaches.  Under a clock
    that never goes back and a time zone that satisfies the laws of local
    midnights, on any store reached from the empty data file: the call
    reads the clock once and returns, in store order, the summaries of
    exactly the tasks that have an activity instant (a session start or
    end, [lastStarted] or [lastPaused]) in the local calendar day of that
    reading.  Stopped tasks are among them; a task that was created and
    never started is not, whenever it was created. *)
Theorem reachable_todays_tasks (ops : list Op) (w0 : World) :
  file w0 = initialData ->
  monotoneClock (clock w0) ->
  zoneLaws (localMidnight w0) ->
  let w := runOps ops w0 in
  taskManager.getTodaysTasks w
  = (Ok (taskManager.getTaskSummary <$>
           filter (fun t => activeToday w (now w) t) (tasks (file w))),
     ticked w)
  /\ Forall (fun t => sessions t = [] -> ~ activeToday w (now w) t) (tasks (file w)).
Proof.
  intros Hinit Hmono Hzone. cbv zeta.
  pose proof (reachable_noneLaterThan ops w0 Hinit Hmono) as Hpast.
  pose proof (lastStampsOk_reachable ops w0 Hinit) as Hstamps.
  set (w := runOps ops w0) in *.
  assert (Hzone' : zoneLaws (localMidnight w))
    by (unfold w; rewrite runOps_localMidnight; exact Hzone).
  split.
  - change (taskManager.getTodaysTasks w)
      with (Ok (taskManager.getTaskSummary <$>
                  filter (fun t => taskManager.workedOnSince
                                     (localMidnight w (now w)) t = true)
                         (tasks (file w))), ticked w).
    f_equal. f_equal. f_equal. apply filter_ext_in.
    unfold noneLaterThan in Hpast.
    eapply Forall_impl; [exact Hpast|]. intros t Ht.
    unfold activeToday. rewrite workedOnSince_stamps, !Exists_exists.
    rewrite Forall_forall in Ht.
    split; intros (ts & Hin & Hts); exists ts; (split; [exact Hin|]);
      apply (since_midnight_iff_today w (now w) ts Hzone' (Ht ts Hin)); exact Hts.
  - eapply Forall_impl; [exact Hstamps|].
    intros t (Hs & Hp & _) Hnil. unfold activeToday, stamps.
    rewrite Hs, Hp, Hnil. simpl. intros H. apply Exists_nil in H. exact H.
Qed.

Lemma reachable_todays_tasks_witness :
  fst (taskManager.getTodaysTasks
         (runOps [CreateTask "write spec" EmptyString; StartTask 1] emptyHost))
  = Ok (taskManager.getTaskSummary <$>
          filter (fun t =>
                    activeToday
                      (runOps [CreateTask "write spec" EmptyString; StartTask 1] emptyHost)
                      (now (runOps [CreateTask "write spec" EmptyString; StartTask 1]
                                   emptyHost)) t)
                 (tasks (file (runOps [CreateTask "write spec" EmptyString; StartTask 1]
                                      emptyHost)))).
Proof.
  rewrite (proj1 (reachable_todays_tasks
                    [CreateTask "write spec" EmptyString; StartTask 1] emptyHost
                    eq_refl secondsClock_monotone utcMidnight_zoneLaws)).
  reflexivity.
Defined.


(** X29. The running task in the stores the engine reaches.  On any store
    reached from the empty data file a running task is the only one:
    [getRunningTasks] answers with its summary alone and
    [getCurrentRunningTask] with that summary; when no task is running the
    first answers the empty list and the second [undefined]. *)
Theorem reachable_current_running_task (ops : list Op) (w0 : World) :
  file w0 = initialData ->
  let w := runOps ops w0 in
  (forall t, t ∈ tasks (file w) -> status t = running ->
     taskManager.getRunningTasks w = (Ok [taskManager.getTaskSummary t], w)
     /\ taskManager.getCurrentRunningTask w = (Ok (Some (taskManager.getTaskSummary t)), w))
  /\ (Forall (fun t => status t <> running) (tasks (file w)) ->
      taskManager.getRunningTasks w = (Ok [], w)
      /\ taskManager.getCurrentRunningTask w = (Ok None, w)).
Proof.
  intros Hinit. cbv zeta.
  destruct (wellFormed_reachable ops w0 Hinit) as (_ & _ & _ & Hcount).
  set (w := runOps ops w0) in *. unfold runningCount in Hcount.
  assert (Hq : taskManager.getRunningTasks w
               = (Ok (taskManager.getTaskSummary <$> filter isRunning (tasks (file w))), w))
    by reflexivity.
  rewrite getCurrentRunningTask_eq, Hq. split.
  - intros t Hin Hr.
    assert (Ht : t ∈ filter isRunning (tasks (file w)))
      by (apply list_elem_of_filter; auto).
    change (filter (fun task => status task = running) (tasks (file w)))
      with (filter isRunning (tasks (file w))) in Hcount.
    destruct (filter isRunning (tasks (file w))) as [|x [|y l]];
      [inversion Ht | | simpl in Hcount; lia].
    apply list_elem_of_singleton in Ht. subst x. split; reflexivity.
  - intros Hnone.
    assert (Hnil : filter isRunning (tasks (file w)) = []).
    { clear Hcount Hq. induction Hnone as [|x l Hx _ IH]; [reflexivity|].
      rewrite filter_cons_False by exact Hx. exact IH. }
    rewrite Hnil. split; reflexivity.
Qed.

Lemma reachable_current_running_task_witness :
  status (startedTask 1000 (createdTask 1 "write spec" EmptyString 0)) = running
  /\ fst (taskManager.getCurrentRunningTask
            (runOps [CreateTask "write spec" EmptyString; StartTask 1] emptyHost))
     = Ok (Some (taskManager.getTaskSummary
                   (startedTask 1000 (createdTask 1 "write spec" EmptyString 0)))).
Proof.
  assert (Hin : startedTask 1000 (createdTask 1 "write spec" EmptyString 0)
                ∈ tasks (file (runOps [CreateTask "write spec" EmptyString; StartTask 1]
                                      emptyHost))).
  { apply list_elem_of_lookup. exists 0%nat. reflexivity. }
  split; [reflexivity|].
  rewrite (proj2 (proj1 (reachable_current_running_task
                           [CreateTask "write spec" EmptyString; StartTask 1]
                           emptyHost eq_refl) _ Hin eq_refl)).
  reflexivity.
Defined.

(** X30. What [startTask] does for each status of the task.  No task
    under the id: the not-found error, nothing written.  A running task:
    'Task is already running', nothing written.  Any other status,
    [stopped] included (on a store with unique ids whose running tasks
    have their last session open): the call returns the task as it is now
    stored, running, with one more session, open, that starts at the
    instant put in [lastStarted]; the total, [lastPaused] and [stoppedAt]
    are kept, so a stopped task that is started again without [unstopTask]
    still carries the instant at which it was stopped. *)
Theorem startTask_outcomes (w : World) (taskId : Z) :
  (fst (storage.getTask taskId w) = Ok None ->
   taskManager.startTask taskId w = (Throw (TaskNotFound taskId), w))
  /\ (forall t, fst (storage.getTask taskId w) = Ok (Some t) ->
      (status t = running -> taskManager.startTask taskId w = (Throw AlreadyRunning, w))
      /\ (status t <> running ->
          uniqueIds (file w) -> runningHaveOpenSession (file w) ->
          exists ts n,
            fst (taskManager.startTask taskId w) = Ok (Some ts)
            /\ fst (storage.getTask taskId (snd (taskManager.startTask taskId w)))
               = Ok (Some ts)
            /\ status ts = running
            /\ sessions ts
               = sessions t ++ [{| startTime := n; endTime := None; duration := 0 |}]
            /\ lastStarted ts = Some n
            /\ totalTime ts = totalTime t /\ lastPaused ts = lastPaused t
            /\ stoppedAt ts = stoppedAt t)).
Proof.
  rewrite getTask_eq. cbn [fst]. split.
  - rewrite startTask_eq.
    destruct (findById taskId (tasks (file w))) as [[k t]|]; [discriminate | reflexivity].
  - intros t Hget.
    destruct (findById taskId (tasks (file w))) as [[k t0]|] eqn:Hf; [|discriminate].
    simpl in Hget. injection Hget as ->.
    pose proof (findById_Some _ _ _ _ Hf) as (Hk & Hid & _).
    split.
    + intros Hr. rewrite startTask_eq, Hf.
      destruct (decide (status t = running)); [reflexivity | contradiction].
    + intros Hnr Hnd Hopen.
      destruct (startTask_succeeds w k t Hnd Hopen Hk Hnr) as (w1 & Hloop & Hs).
      rewrite Hid in Hs.
      exists (startedTask (now w1) t), (now w1). rewrite Hs. cbn [fst snd].
      split; [reflexivity|]. split; [|repeat split].
      rewrite getTask_eq. cbn [fst file withFile tasks].
      apply forEach_pause_step in Hloop as [HF _].
      assert (Hf1 : findById taskId (tasks (file w1)) = Some (k, t)).
      { eapply findById_pauseStepOn; [exact HF | | exact Hf]. rewrite Hid.
        intros H. apply H. reflexivity. }
      rewrite (findById_update _ _ _ _ (startedTask (now w1) t) Hf1); [reflexivity|].
      exact Hid.
Qed.

Lemma startTask_outcomes_witness :
  fst (storage.getTask 3 dayHost) = Ok (Some (sampleTask 3 "email" stopped
          [{| startTime := 119000000; endTime := Some 119500000; duration := 500 |}]
          500 (Some 119000000) (Some 119500000)))
  /\ exists ts n,
       fst (taskManager.startTask 3 dayHost) = Ok (Some ts)
       /\ fst (storage.getTask 3 (snd (taskManager.startTask 3 dayHost))) = Ok (Some ts)
       /\ status ts = running
       /\ sessions ts
          = [{| startTime := 119000000; endTime := Some 119500000; duration := 500 |}]
            ++ [{| startTime := n; endTime := None; duration := 0 |}]
       /\ lastStarted ts = Some n
       /\ totalTime ts = 500 /\ lastPaused ts = Some 119500000
       /\ stoppedAt ts = None.
Proof.
  assert (Hnd : uniqueIds (file dayHost))
    by (apply (bool_decide_unpack _); vm_compute; exact I).
  assert (Hopen : runningHaveOpenSession (file dayHost))
    by (repeat constructor; discriminate).
  split; [reflexivity|].
  refine (proj2 (proj2 (startTask_outcomes dayHost 3) _ eq_refl) _ Hnd Hopen).
  discriminate.
Defined.
